(** * HTTP Agent: entity adapters and configuration flow

    A shallow embedding of the entity platforms of the HTTP Agent
    integration ([sensor.py], [binary_sensor.py], [number.py],
    [device_tracker.py]) and of the URL step of [config_flow.py], with the
    properties the specification states about them.

    Python values are a tagged union, dictionaries are finite maps, an
    exception is the [Raises] branch of an outcome, and the module logger
    is an explicit list of records. *)

From Stdlib Require Import ZArith String Ascii List Bool Lia.
From Stdlib Require Import Floats.SpecFloat.
From stdpp Require Import base option gmap strings pretty.

Set Warnings "-register-all".
Local Open Scope string_scope.
Local Open Scope Z_scope.

(** ** Python values *)

(** The values a decoded response can carry.  [float] is IEEE binary64,
    as [spec_float] with [prec = 53] and [emax = 1024]. *)
Inductive PyVal : Type :=
  | VNone
  | VBool (b : bool)
  | VInt (n : Z)
  | VFloat (f : spec_float)
  | VStr (s : string)
  | VList (items : list PyVal)
  | VDict (items : list (string * PyVal)).

Inductive Exn : Type :=
  | AttributeError
  | TypeError
  | ValueError
  | OverflowError
  | KeyError
  | NotImplementedError
  | Invalid.   (* voluptuous.Invalid *)

Inductive Outcome (A : Type) : Type :=
  | Returns (a : A)
  | Raises (e : Exn).
Arguments Returns {A} a.
Arguments Raises {A} e.

#[global] Instance outcome_ret : MRet Outcome := fun A a => Returns a.
#[global] Instance outcome_bind : MBind Outcome := fun A B k o =>
  match o with
  | Returns a => k a
  | Raises e => Raises e
  end.

(** [try: o except (e1, e2, ...): h]. *)
Definition try_except {A : Type} (o : Outcome A) (caught : Exn -> bool)
    (h : Exn -> Outcome A) : Outcome A :=
  match o with
  | Returns a => Returns a
  | Raises e => if caught e then h e else Raises e
  end.

Module Py.

Definition prec : Z := 53.
Definition emax : Z := 1024.

Definition float_zero : spec_float := S754_zero false.
Definition float_one : spec_float := binary_normalize prec emax 1 0 false.

(** [x > 0] for a float [x]: false on NaN. *)
Definition float_gt_zero (f : spec_float) : bool := SFltb float_zero f.

(** [bool(v)]. *)
Definition truthy (v : PyVal) : bool :=
  match v with
  | VNone => false
  | VBool b => b
  | VInt n => negb (n =? 0)
  | VFloat f => negb (SFeqb f float_zero)
  | VStr s => negb (String.eqb s "")
  | VList items => match items with [] => false | _ => true end
  | VDict items => match items with [] => false | _ => true end
  end.

(** [str.lower] on the ASCII letters.  A character outside ASCII is left
    as it is; Python maps such a character to one outside ASCII again,
    except U+212A (to [k]) and U+0130 (to [i] followed by a combining
    dot), so comparing the result with a lower-case ASCII word without [k]
    gives the same answer. *)
Definition lower_char (c : ascii) : ascii :=
  let n := nat_of_ascii c in
  if (Nat.leb 65 n && Nat.leb n 90)%bool then ascii_of_nat (n + 32) else c.

Fixpoint lower (s : string) : string :=
  match s with
  | EmptyString => EmptyString
  | String c s' => String (lower_char c) (lower s')
  end.

(** [s.startswith(p)]. *)
Definition startswith (s p : string) : bool := String.prefix p s.

(** [x in (w1, w2, ...)] for a string [x] and a tuple of strings. *)
Definition str_in (x : string) (ws : list string) : bool :=
  existsb (String.eqb x) ws.

(** [float(n)] for an int: the nearest binary64, ties to even;
    [OverflowError] when that is out of range. *)
Definition float_of_int (n : Z) : Outcome spec_float :=
  match binary_normalize prec emax n 0 false with
  | S754_infinity _ => Raises OverflowError
  | f => Returns f
  end.

(** [v.lower()]: only a [str] has the method. *)
Definition str_lower (v : PyVal) : Outcome string :=
  match v with
  | VStr s => Returns (lower s)
  | _ => Raises AttributeError
  end.

Section Builtins.
(** Parsing of a numeric literal is the interpreter's: [None] stands for
    [ValueError]. *)
Variable str_to_float : string -> option spec_float.

(** [float(v)]. *)
Definition float (v : PyVal) : Outcome spec_float :=
  match v with
  | VNone => Raises TypeError
  | VBool b => Returns (if b then float_one else float_zero)
  | VInt n => float_of_int n
  | VFloat f => Returns f
  | VStr s =>
      match str_to_float s with
      | Some f => Returns f
      | None => Raises ValueError
      end
  | VList _ => Raises TypeError
  | VDict _ => Raises TypeError
  end.

(** [int(v)]: a float is truncated towards zero. *)
Variable str_to_int : string -> option Z.

Definition int (v : PyVal) : Outcome Z :=
  match v with
  | VNone => Raises TypeError
  | VBool b => Returns (if b then 1 else 0)
  | VInt n => Returns n
  | VFloat f =>
      match f with
      | S754_zero _ => Returns 0
      | S754_infinity _ => Raises OverflowError
      | S754_nan => Raises ValueError
      | S754_finite s m e => Returns (cond_Zopp s (Z.shiftl (Zpos m) e))
      end
  | VStr s =>
      match str_to_int s with
      | Some n => Returns n
      | None => Raises ValueError
      end
  | VList _ => Raises TypeError
  | VDict _ => Raises TypeError
  end.

(** [str(v)]: a [str] is returned as it is; the text of any other
    value is the interpreter's. *)
Variable str_of_value : PyVal -> Outcome string.

Definition str (v : PyVal) : Outcome string :=
  match v with
  | VStr s => Returns s
  | _ => str_of_value v
  end.
End Builtins.

End Py.

(** ** The coordinator's snapshot *)

(** Modelled from the spec: [coordinator.py] is not among the sources.  A
    snapshot maps sensor names to per-sensor records, and a record maps
    field names ([state], [icon], [color], [latitude], ...) to values. *)
Abbreviation SensorData := (gmap string PyVal).
Abbreviation Snapshot := (gmap string (gmap string PyVal)).

(** Modelled from the spec: the two attributes the entities read of the
    coordinator, the snapshot it holds ([None] before the first refresh)
    and whether the last poll succeeded. *)
Record Coordinator : Type := {
  data : option Snapshot;
  last_update_success : bool
}.

(** [not self.coordinator.data]: [None] or an empty dict. *)
Definition no_data (d : option Snapshot) : bool :=
  match d with
  | None => true
  | Some snap => Nat.eqb (size snap) 0
  end.

(** [d.get(key)] and [d.get(key, dflt)]. *)
Definition dict_get (d : SensorData) (key : string) : PyVal :=
  default VNone (d !! key).

Definition dict_get_or (d : SensorData) (key : string) (dflt : PyVal) : PyVal :=
  default dflt (d !! key).

(** [self.coordinator.data.get(name, {})], once [data] is known to be a
    non-empty dict. *)
Definition sensor_data_of (d : option Snapshot) (name : string) : SensorData :=
  match d with
  | None => ∅
  | Some snap => default ∅ (snap !! name)
  end.

(** The fields of an entity the modelled properties read. *)
Record Entity : Type := {
  coordinator : Coordinator;
  entry_id : string;
  sensor_name : string
}.

(** A record of the module logger. *)
Record LogRecord : Type := {
  log_level : string;
  log_format : string;
  log_args : list PyVal
}.

(** [d[key]]. *)
Definition dict_item (d : SensorData) (key : string) : Outcome PyVal :=
  match d !! key with
  | Some v => Returns v
  | None => Raises KeyError
  end.

(** [except (ValueError, TypeError)]. *)
Definition ValueError_or_TypeError (e : Exn) : bool :=
  match e with
  | ValueError | TypeError => true
  | _ => false
  end.

(** The color entry every platform adds to its attributes:
    [if sensor_data.get("color"): attributes["color"] = sensor_data["color"]]. *)
Definition add_color (sensor_data attributes : SensorData) : Outcome SensorData :=
  if Py.truthy (dict_get sensor_data "color") then
    c ← dict_item sensor_data "color";
    mret (<["color" := c]> attributes)
  else mret attributes.

(** ** [sensor.py]: the properties of [HTTPAgentSensor] *)

Module HTTPAgentSensor.

Definition native_value (self : Entity) : PyVal :=
  if no_data (data (coordinator self)) then VNone
  else
    let sensor_data := sensor_data_of (data (coordinator self)) (sensor_name self) in
    dict_get sensor_data "state".

Definition icon (self : Entity) : Outcome PyVal :=
  if no_data (data (coordinator self)) then Returns VNone
  else
    let sensor_data := sensor_data_of (data (coordinator self)) (sensor_name self) in
    let icon := dict_get sensor_data "icon" in
    if Py.truthy icon then
      match icon with
      | VStr s =>
          if negb (Py.startswith s "mdi:") then Returns (VStr ("mdi:" ++ s))
          else Returns icon
      | _ => Raises AttributeError
      end
    else Returns icon.

Definition extra_state_attributes (self : Entity) : Outcome SensorData :=
  if no_data (data (coordinator self)) then Returns ∅
  else
    let sensor_data := sensor_data_of (data (coordinator self)) (sensor_name self) in
    add_color sensor_data ∅.

Definition available (self : Entity) : bool :=
  last_update_success (coordinator self).

End HTTPAgentSensor.

(** ** [binary_sensor.py]: the properties of [HTTPAgentBinarySensor] *)

Module HTTPAgentBinarySensor.

Definition on_words : list string :=
  ["true"; "on"; "yes"; "1"; "active"; "open"].

Definition is_on (self : Entity) : option bool :=
  if no_data (data (coordinator self)) then None
  else
    let sensor_data := sensor_data_of (data (coordinator self)) (sensor_name self) in
    let state := dict_get sensor_data "state" in
    match state with
    | VNone => None
    | VBool b => Some b
    | VStr s => Some (Py.str_in (Py.lower s) on_words)
    | VInt n => Some (0 <? n)
    | VFloat f => Some (Py.float_gt_zero f)
    | _ => Some (Py.truthy state)
    end.

Definition icon (self : Entity) : Outcome PyVal :=
  if no_data (data (coordinator self)) then Returns VNone
  else
    let sensor_data := sensor_data_of (data (coordinator self)) (sensor_name self) in
    let icon := dict_get sensor_data "icon" in
    if Py.truthy icon then
      match icon with
      | VStr s =>
          if negb (Py.startswith s "mdi:") then Returns (VStr ("mdi:" ++ s))
          else Returns icon
      | _ => Raises AttributeError
      end
    else Returns icon.

Definition extra_state_attributes (self : Entity) : Outcome SensorData :=
  if no_data (data (coordinator self)) then Returns ∅
  else
    let sensor_data := sensor_data_of (data (coordinator self)) (sensor_name self) in
    add_color sensor_data ∅.

Definition available (self : Entity) : bool :=
  last_update_success (coordinator self).

End HTTPAgentBinarySensor.

(** ** [number.py]: the properties of [HTTPAgentNumber] *)

Module HTTPAgentNumber.

Section Builtins.
Variable str_to_float : string -> option spec_float.

(** The value and the records the call sends to the logger. *)
Definition native_value (self : Entity)
    : Outcome (option spec_float) * list LogRecord :=
  if no_data (data (coordinator self)) then (Returns None, [])
  else
    let sensor_data := sensor_data_of (data (coordinator self)) (sensor_name self) in
    let state := dict_get sensor_data "state" in
    match state with
    | VNone => (Returns None, [])
    | _ =>
        match Py.float str_to_float state with
        | Returns f => (Returns (Some f), [])
        | Raises e =>
            if ValueError_or_TypeError e then
              (Returns None,
               [ {| log_level := "WARNING";
                    log_format := "Could not convert state '%s' to number for %s";
                    log_args := [state; VStr (sensor_name self)] |} ])
            else (Raises e, [])
        end
    end.
End Builtins.

Definition icon (self : Entity) : Outcome PyVal :=
  if no_data (data (coordinator self)) then Returns VNone
  else
    let sensor_data := sensor_data_of (data (coordinator self)) (sensor_name self) in
    let icon := dict_get sensor_data "icon" in
    if Py.truthy icon then
      match icon with
      | VStr s =>
          if negb (Py.startswith s "mdi:") then Returns (VStr ("mdi:" ++ s))
          else Returns icon
      | _ => Raises AttributeError
      end
    else Returns icon.

Definition extra_state_attributes (self : Entity) : Outcome SensorData :=
  if no_data (data (coordinator self)) then Returns ∅
  else
    let sensor_data := sensor_data_of (data (coordinator self)) (sensor_name self) in
    add_color sensor_data ∅.

Definition available (self : Entity) : bool :=
  last_update_success (coordinator self).

(** The method always raises; the entity it returns is the one it was
    given. *)
Definition async_set_native_value (self : Entity) (value : spec_float)
    : Entity * Outcome unit :=
  (self, Raises NotImplementedError).

End HTTPAgentNumber.

(** [homeassistant.components.device_tracker.const.SourceType], the members
    the tracker returns. *)
Inductive SourceType : Type :=
  | GPS
  | ROUTER
  | BLUETOOTH
  | BLUETOOTH_LE.

(** ** [device_tracker.py]: the properties of [HTTPAgentDeviceTracker] *)

Module HTTPAgentDeviceTracker.

Section Builtins.
Variable str_to_float : string -> option spec_float.
(** [str(v)] for a value that is not a [str]. *)
Variable str_of_value : PyVal -> Outcome string.

Definition latitude (self : Entity)
    : Outcome (option spec_float) * list LogRecord :=
  if no_data (data (coordinator self)) then (Returns None, [])
  else
    let sensor_data := sensor_data_of (data (coordinator self)) (sensor_name self) in
    let lat := dict_get sensor_data "latitude" in
    match lat with
    | VNone => (Returns None, [])
    | _ =>
        match Py.float str_to_float lat with
        | Returns f => (Returns (Some f), [])
        | Raises e =>
            if ValueError_or_TypeError e then
              (Returns None,
               [ {| log_level := "WARNING";
                    log_format := "Could not convert latitude '%s' to float for %s";
                    log_args := [lat; VStr (sensor_name self)] |} ])
            else (Raises e, [])
        end
    end.

Definition longitude (self : Entity)
    : Outcome (option spec_float) * list LogRecord :=
  if no_data (data (coordinator self)) then (Returns None, [])
  else
    let sensor_data := sensor_data_of (data (coordinator self)) (sensor_name self) in
    let lng := dict_get sensor_data "longitude" in
    match lng with
    | VNone => (Returns None, [])
    | _ =>
        match Py.float str_to_float lng with
        | Returns f => (Returns (Some f), [])
        | Raises e =>
            if ValueError_or_TypeError e then
              (Returns None,
               [ {| log_level := "WARNING";
                    log_format := "Could not convert longitude '%s' to float for %s";
                    log_args := [lng; VStr (sensor_name self)] |} ])
            else (Raises e, [])
        end
    end.

Definition location_name (self : Entity) : Outcome (option string) :=
  if no_data (data (coordinator self)) then Returns None
  else
    let sensor_data := sensor_data_of (data (coordinator self)) (sensor_name self) in
    let location := dict_get sensor_data "location_name" in
    let location :=
      if negb (Py.truthy location) then dict_get sensor_data "state"
      else location in
    match location with
    | VNone => Returns None
    | _ => s ← Py.str str_of_value location; mret (Some s)
    end.
End Builtins.

Definition source_type (self : Entity) : Outcome SourceType :=
  if no_data (data (coordinator self)) then Returns GPS
  else
    let sensor_data := sensor_data_of (data (coordinator self)) (sensor_name self) in
    let source := dict_get_or sensor_data "source_type" (VStr "gps") in
    l ← Py.str_lower source;
    if String.eqb l "router" then Returns ROUTER
    else
      l ← Py.str_lower source;
      if String.eqb l "bluetooth" then Returns BLUETOOTH
      else
        l ← Py.str_lower source;
        if String.eqb l "bluetooth_le" then Returns BLUETOOTH_LE
        else Returns GPS.

Definition icon (self : Entity) : Outcome PyVal :=
  if no_data (data (coordinator self)) then Returns VNone
  else
    let sensor_data := sensor_data_of (data (coordinator self)) (sensor_name self) in
    let icon := dict_get sensor_data "icon" in
    if Py.truthy icon then
      match icon with
      | VStr s =>
          if negb (Py.startswith s "mdi:") then Returns (VStr ("mdi:" ++ s))
          else Returns icon
      | _ => Raises AttributeError
      end
    else Returns icon.

Definition extra_state_attributes (self : Entity) : Outcome SensorData :=
  if no_data (data (coordinator self)) then Returns ∅
  else
    let sensor_data := sensor_data_of (data (coordinator self)) (sensor_name self) in
    attributes ← add_color sensor_data ∅;
    attributes ←
      match dict_get sensor_data "latitude" with
      | VNone => mret attributes
      | _ =>
          v ← dict_item sensor_data "latitude";
          mret (<["raw_latitude" := v]> attributes)
      end;
    match dict_get sensor_data "longitude" with
    | VNone => mret attributes
    | _ =>
        v ← dict_item sensor_data "longitude";
        mret (<["raw_longitude" := v]> attributes)
    end.

Definition available (self : Entity) : bool :=
  last_update_success (coordinator self).

End HTTPAgentDeviceTracker.

(** ** The configuration flow *)

(** The part of voluptuous the two URL forms use. *)
Module vol.

Inductive Validator : Type :=
  | type_str                      (* str *)
  | type_bool                     (* bool *)
  | Coerce_int                    (* vol.Coerce(int) *)
  | Range (min max : Z)           (* vol.Range(min=.., max=..) *)
  | In_ (container : list string) (* vol.In([...]) *)
  | All (validators : list Validator).

Inductive Marker : Type :=
  | Required (key : string) (default : option PyVal)
  | Optional (key : string) (default : option PyVal).

Definition marker_key (m : Marker) : string :=
  match m with
  | Required k _ => k
  | Optional k _ => k
  end.

Definition Schema : Type := list (Marker * Validator).

(** The validator a schema attaches to a key. *)
Definition validator_of (schema : Schema) (key : string) : option Validator :=
  snd <$> find (fun mv => String.eqb (marker_key (fst mv)) key) schema.

(** [v >= n] and [v <= n] for an int bound [n]; [None] is the
    [TypeError] of an unordered pair. *)
Definition ge_int (v : PyVal) (n : Z) : option bool :=
  match v with
  | VBool b => Some ((if b then 1 else 0) >=? n)
  | VInt k => Some (k >=? n)
  | VFloat f => Some (SFleb (binary_normalize Py.prec Py.emax n 0 false) f)
  | _ => None
  end.

Definition le_int (v : PyVal) (n : Z) : option bool :=
  match v with
  | VBool b => Some ((if b then 1 else 0) <=? n)
  | VInt k => Some (k <=? n)
  | VFloat f => Some (SFleb f (binary_normalize Py.prec Py.emax n 0 false))
  | _ => None
  end.

Section Builtins.
Variable str_to_int : string -> option Z.

(** Running a validator: the validated value, or [Invalid]. *)
Fixpoint validate (f : Validator) (v : PyVal) : Outcome PyVal :=
  match f with
  | type_str =>
      match v with VStr _ => Returns v | _ => Raises Invalid end
  | type_bool =>
      match v with VBool _ => Returns v | _ => Raises Invalid end
  | Coerce_int =>
      try_except (n ← Py.int str_to_int v; mret (VInt n))
        ValueError_or_TypeError (fun _ => Raises Invalid)
  | Range min max =>
      match ge_int v min, le_int v max with
      | Some true, Some true => Returns v
      | _, _ => Raises Invalid
      end
  | In_ container =>
      match v with
      | VStr s => if Py.str_in s container then Returns v else Raises Invalid
      | _ => Raises Invalid
      end
  | All validators =>
      (fix all (fs : list Validator) (v : PyVal) : Outcome PyVal :=
         match fs with
         | [] => Returns v
         | f :: fs' => v' ← validate f v; all fs' v'
         end) validators v
  end.
End Builtins.

End vol.

(** What a step hands back to the flow manager. *)
Inductive FlowResult : Type :=
  | async_show_form (step_id : string) (data_schema : vol.Schema)
      (errors : option (gmap string string))
      (description_placeholders : option (gmap string string))
  | async_create_entry (title : string) (entry_data : gmap string PyVal).

Definition result_step_id (r : FlowResult) : option string :=
  match r with
  | async_show_form step_id _ _ _ => Some step_id
  | async_create_entry _ _ => None
  end.

(** [urllib.parse.ParseResult], the two attributes the flows read. *)
Record ParseResult : Type := {
  scheme : string;
  netloc : string
}.

(** The attributes of a flow object: [HTTPAgentConfigFlow] and
    [HTTPAgentOptionsFlow] carry the same four. *)
Record Flow : Type := {
  flow_data : gmap string PyVal;
  flow_headers : list (string * string);
  flow_sensors : list PyVal;
  flow_current_sensor : option PyVal
}.

(** [self.data.update(user_input)]. *)
Definition update_data (self : Flow) (user_input : gmap string PyVal) : Flow :=
  {| flow_data := user_input ∪ flow_data self;
     flow_headers := flow_headers self;
     flow_sensors := flow_sensors self;
     flow_current_sensor := flow_current_sensor self |}.

Definition newline : string := String (ascii_of_nat 10) "".

(** ["\n".join(lines)]. *)
Fixpoint join_lines (lines : list string) : string :=
  match lines with
  | [] => ""
  | [l] => l
  | l :: rest => l ++ newline ++ join_lines rest
  end.

(** [config_flow.py]: the first step of [HTTPAgentConfigFlow] and the
    basic step of [HTTPAgentOptionsFlow]. *)
Module config_flow.
Section Flows.
(** [urlparse] is the standard library's; the keys, the defaults and the
    method list come from [const.py], which is not among the sources. *)
Variable urlparse : PyVal -> Outcome ParseResult.
Variables CONF_URL CONF_METHOD CONF_TIMEOUT CONF_INTERVAL CONF_VERIFY_SSL : string.
Variables DEFAULT_METHOD DEFAULT_TIMEOUT DEFAULT_INTERVAL DEFAULT_VERIFY_SSL : PyVal.
Variable HTTP_METHODS : list string.

(** The block both URL forms open with, up to the end of the [try]
    statement: the [errors] dict it leaves.  [except Exception] catches
    whatever the lookup and the parser raise. *)
Definition validate_url (user_input : gmap string PyVal) : gmap string string :=
  let errors : gmap string string := ∅ in
  match
    try_except
      (url ← dict_item user_input CONF_URL;
       parsed ← urlparse url;
       if (String.eqb (scheme parsed) "" || String.eqb (netloc parsed) "")%bool
       then mret (<["base" := "invalid_url"]> errors)
       else mret errors)
      (fun _ => true)
      (fun _ => Returns (<["base" := "invalid_url"]> errors))
  with
  | Returns errors => errors
  | Raises _ => errors
  end.

(** [HTTPAgentConfigFlow.async_step_headers()], as [async_step_user]
    calls it: without input, it shows the headers form. *)
Definition async_step_headers (self : Flow) : Flow * FlowResult :=
  let header_list :=
    match flow_headers self with
    | [] => ""
    | hs => join_lines (map (fun h => "• " ++ fst h ++ ": " ++ snd h) hs)
    end in
  let schema := [ (vol.Required "action" None, vol.In_ ["add"; "done"]) ] in
  (self,
   async_show_form "headers" schema None (Some {[ "headers" := header_list ]})).

(** The schema of [HTTPAgentConfigFlow.async_step_user]. *)
Definition user_schema : vol.Schema :=
  [ (vol.Required CONF_URL None, vol.type_str);
    (vol.Required CONF_METHOD (Some DEFAULT_METHOD), vol.In_ HTTP_METHODS);
    (vol.Optional CONF_TIMEOUT (Some DEFAULT_TIMEOUT),
     vol.All [vol.Coerce_int; vol.Range 1 300]);
    (vol.Optional CONF_INTERVAL (Some DEFAULT_INTERVAL),
     vol.All [vol.Coerce_int; vol.Range 5 86400]);
    (vol.Optional CONF_VERIFY_SSL (Some DEFAULT_VERIFY_SSL), vol.type_bool) ].

(** [HTTPAgentConfigFlow.async_step_user]: the flow after the step and
    the result of the step. *)
Definition async_step_user (self : Flow) (user_input : option (gmap string PyVal))
    : Flow * FlowResult :=
  let form errors :=
    (self, async_show_form "user" user_schema (Some errors) None) in
  match user_input with
  | Some user_input =>
      let errors := validate_url user_input in
      if Nat.eqb (size errors) 0 then
        async_step_headers (update_data self user_input)
      else form errors
  | None => form ∅
  end.

(** The schema of [HTTPAgentOptionsFlow.async_step_basic]: the defaults
    are the stored settings. *)
Definition basic_schema (self : Flow) : vol.Schema :=
  let data_get key dflt := default dflt (flow_data self !! key) in
  [ (vol.Required CONF_URL (Some (data_get CONF_URL (VStr ""))), vol.type_str);
    (vol.Required CONF_METHOD (Some (data_get CONF_METHOD DEFAULT_METHOD)),
     vol.In_ HTTP_METHODS);
    (vol.Optional CONF_TIMEOUT (Some (data_get CONF_TIMEOUT DEFAULT_TIMEOUT)),
     vol.All [vol.Coerce_int; vol.Range 1 300]);
    (vol.Optional CONF_INTERVAL (Some (data_get CONF_INTERVAL DEFAULT_INTERVAL)),
     vol.All [vol.Coerce_int; vol.Range 5 86400]);
    (vol.Optional CONF_VERIFY_SSL
       (Some (data_get CONF_VERIFY_SSL DEFAULT_VERIFY_SSL)), vol.type_bool) ].

(** [HTTPAgentOptionsFlow.async_step_basic]. *)
Definition async_step_basic (self : Flow) (user_input : option (gmap string PyVal))
    : Flow * FlowResult :=
  let form errors :=
    (self, async_show_form "basic" (basic_schema self) (Some errors) None) in
  match user_input with
  | Some user_input =>
      let errors := validate_url user_input in
      if Nat.eqb (size errors) 0 then
        let self := update_data self user_input in
        (self, async_create_entry "" (flow_data self))
      else form errors
  | None => form ∅
  end.

End Flows.
End config_flow.

(** ** Dicts and lists as values *)

(** The operations the set-up code applies to the stored configuration,
    whose values are lists of dicts.  A [VDict] lists the items of a dict in
    insertion order, with distinct keys. *)
Module PyDict.

Fixpoint lookup (items : list (string * PyVal)) (key : string) : option PyVal :=
  match items with
  | [] => None
  | (k, v) :: rest => if String.eqb k key then Some v else lookup rest key
  end.

(** [v.get(key, dflt)]: only a dict has the method. *)
Definition get (v : PyVal) (key : string) (dflt : PyVal) : Outcome PyVal :=
  match v with
  | VDict items => Returns (default dflt (lookup items key))
  | _ => Raises AttributeError
  end.

(** [v[key]] for a string [key]: [KeyError] on a dict without the key,
    [TypeError] on a value that is not a dict. *)
Definition getitem (v : PyVal) (key : string) : Outcome PyVal :=
  match v with
  | VDict items =>
      match lookup items key with
      | Some x => Returns x
      | None => Raises KeyError
      end
  | _ => Raises TypeError
  end.

(** [for x in v]: the elements of a list, the keys of a dict, the
    characters of a string (one per byte here; every loop below fails on
    its first string element); [TypeError] on a scalar. *)
Definition iter (v : PyVal) : Outcome (list PyVal) :=
  match v with
  | VList items => Returns items
  | VDict items => Returns (map (fun kv => VStr (fst kv)) items)
  | VStr s => Returns (map (fun c => VStr (String c EmptyString)) (list_ascii_of_string s))
  | _ => Raises TypeError
  end.

(** [v == "word"]: only a string equals a string. *)
Definition eq_str (v : PyVal) (word : string) : bool :=
  match v with
  | VStr s => String.eqb s word
  | _ => false
  end.

(** [hash(v)] succeeds: lists and dicts are unhashable. *)
Definition hashable (v : PyVal) : bool :=
  match v with
  | VList _ | VDict _ => false
  | _ => true
  end.

End PyDict.

(** ** The host: config entries, platforms, the entity registry *)

Module ha.

(** [homeassistant.config_entries.ConfigEntry], the attributes read. *)
Record ConfigEntry : Type := {
  entry_id : string;
  title : string;
  data : gmap string PyVal;
  options : gmap string PyVal
}.

(** [homeassistant.const.Platform], the four members the integration
    uses. *)
Inductive Platform : Type :=
  | SENSOR
  | BINARY_SENSOR
  | NUMBER
  | DEVICE_TRACKER.

#[global] Instance Platform_eq_dec : EqDecision Platform.
Proof. solve_decision. Defined.

#[global] Instance Platform_countable : Countable Platform.
Proof.
  refine (inj_countable'
            (fun p => match p with
                      | SENSOR => 0%nat | BINARY_SENSOR => 1%nat
                      | NUMBER => 2%nat | DEVICE_TRACKER => 3%nat
                      end)
            (fun n => match n with
                      | 0%nat => SENSOR | 1%nat => BINARY_SENSOR
                      | 2%nat => NUMBER | _ => DEVICE_TRACKER
                      end) _).
  by intros [].
Defined.

(** An entry of the entity registry, the attributes read. *)
Record RegistryEntry : Type := {
  config_entry_id : string;
  domain : string;
  platform : string;
  unique_id : string
}.

End ha.

(** What [__init__.py] stores under [hass.data[DOMAIN][entry_id]]: the
    coordinator and the platforms it set up.  [list(needed_platforms)]
    takes the members of a set in no specified order, so the platforms are
    kept as a set. *)
Record EntryData : Type := {
  entry_coordinator : Coordinator;
  entry_platforms : gset ha.Platform
}.

(** [data = dict(entry.data); if entry.options: data.update(entry.options)],
    the lines every set-up function and constructor opens with. *)
Definition merged_data (entry : ha.ConfigEntry) : gmap string PyVal :=
  let data := ha.data entry in
  if Nat.eqb (size (ha.options entry)) 0 then data
  else ha.options entry ∪ data.

(** ** [__init__.py]: setting up and unloading a config entry *)

Module http_agent.
Section Entry.
(** The keys come from [const.py].  Building the coordinator and its first
    refresh, and closing it, are [coordinator.py]'s; unloading platforms is
    the host's: the three are taken as they come. *)
Variables CONF_SENSORS CONF_SENSOR_TYPE : string.
Variable first_refresh : gmap string PyVal -> Outcome Coordinator.
Variable async_close : Coordinator -> Outcome unit.
Variable async_unload_platforms : ha.ConfigEntry -> gset ha.Platform -> bool.

(** The loop over the declared sensors that collects the platforms. *)
Fixpoint needed_platforms (configs : list PyVal) (needed : gset ha.Platform)
    : Outcome (gset ha.Platform) :=
  match configs with
  | [] => Returns needed
  | sensor_config :: rest =>
      sensor_type ← PyDict.get sensor_config CONF_SENSOR_TYPE (VStr "sensor");
      needed_platforms rest
        (if PyDict.eq_str sensor_type "sensor" then {[ ha.SENSOR ]} ∪ needed
         else if PyDict.eq_str sensor_type "binary_sensor"
              then {[ ha.BINARY_SENSOR ]} ∪ needed
         else if PyDict.eq_str sensor_type "number" then {[ ha.NUMBER ]} ∪ needed
         else if PyDict.eq_str sensor_type "device_tracker"
              then {[ ha.DEVICE_TRACKER ]} ∪ needed
         else needed)
  end.

(** [async_setup_entry]: [hass.data[DOMAIN]] after the call and the
    platforms handed to [async_forward_entry_setups] ([None] when it is
    not called).  The function returns [True]; when it raises it has stored
    nothing. *)
Definition async_setup_entry (hass_data : gmap string EntryData)
    (entry : ha.ConfigEntry)
    : Outcome (gmap string EntryData * option (gset ha.Platform)) :=
  let data := merged_data entry in
  coordinator ← first_refresh data;
  let data := merged_data entry in
  configs ← PyDict.iter (default (VList []) (data !! CONF_SENSORS));
  needed ← needed_platforms configs ∅;
  let hass_data :=
    <[ha.entry_id entry := {| entry_coordinator := coordinator;
                              entry_platforms := needed |}]> hass_data in
  mret (hass_data,
        if Nat.eqb (size needed) 0 then None else Some needed).

(** [async_unload_entry]: [hass.data[DOMAIN]] after the call, the
    platforms the host was asked to unload ([None] when it was not asked)
    and the value returned. *)
Definition async_unload_entry (hass_data : gmap string EntryData)
    (entry : ha.ConfigEntry)
    : Outcome (gmap string EntryData * option (gset ha.Platform) * bool) :=
  match hass_data !! ha.entry_id entry with
  | None => Raises KeyError
  | Some entry_data =>
      let coordinator := entry_coordinator entry_data in
      let setup_platforms := entry_platforms entry_data in
      _ ← async_close coordinator;
      let asked :=
        if Nat.eqb (size setup_platforms) 0 then None else Some setup_platforms in
      let unload_ok :=
        match asked with
        | Some platforms => async_unload_platforms entry platforms
        | None => true
        end in
      mret (if unload_ok then delete (ha.entry_id entry) hass_data else hass_data,
            asked, unload_ok)
  end.

End Entry.
End http_agent.

(** ** The platforms: creating the entities of a config entry *)

(** An entity as its constructor leaves it.  The name is whatever the
    declaration holds under the name key; the attributes a platform does
    not set are [None]. *)
Record EntityObject : Type := {
  obj_coordinator : Coordinator;
  obj_entry : ha.ConfigEntry;
  obj_sensor_name : PyVal;
  obj_attr_name : PyVal;
  obj_attr_unique_id : string;
  obj_attr_mode : option string;
  obj_attr_device_class : option PyVal;
  obj_attr_native_unit_of_measurement : option PyVal;
  obj_sensor_config : PyVal
}.

Module platforms.
Section Setup.
(** The keys and the domain come from [const.py]; [str] of a value that is
    not a string and [==] on a name that is not a string are the
    interpreter's. *)
Variables CONF_SENSORS CONF_SENSOR_NAME CONF_SENSOR_TYPE : string.
Variables CONF_SENSOR_DEVICE_CLASS CONF_SENSOR_UNIT DOMAIN : string.
Variable str_of_value : PyVal -> Outcome string.
Variable py_eq : PyVal -> PyVal -> bool.

(** [f"{entry.entry_id}_{sensor_name}"]. *)
Definition unique_id_of (entry : ha.ConfigEntry) (sensor_name : PyVal)
    : Outcome string :=
  s ← Py.str str_of_value sensor_name;
  mret (ha.entry_id entry ++ "_" ++ s).

(** [v == sensor_name]. *)
Definition name_eq (v sensor_name : PyVal) : bool :=
  match sensor_name with
  | VStr s => PyDict.eq_str v s
  | _ => py_eq v sensor_name
  end.

(** The search loop of the three constructors that take a name: the first
    declaration with that name, [None] when there is none. *)
Fixpoint find_config (configs : list PyVal) (sensor_name : PyVal) : Outcome PyVal :=
  match configs with
  | [] => Returns VNone
  | config :: rest =>
      name ← PyDict.getitem config CONF_SENSOR_NAME;
      if name_eq name sensor_name then Returns config
      else find_config rest sensor_name
  end.

(** [HTTPAgentBinarySensor.__init__], [HTTPAgentDeviceTracker.__init__]
    and, with [mode = Some "box"], [HTTPAgentNumber.__init__]. *)
Definition init_named (mode : option string) (coordinator : Coordinator)
    (entry : ha.ConfigEntry) (sensor_name : PyVal) : Outcome EntityObject :=
  unique_id ← unique_id_of entry sensor_name;
  let data := merged_data entry in
  sensors ← dict_item data CONF_SENSORS;
  configs ← PyDict.iter sensors;
  sensor_config ← find_config configs sensor_name;
  mret {| obj_coordinator := coordinator;
          obj_entry := entry;
          obj_sensor_name := sensor_name;
          obj_attr_name := sensor_name;
          obj_attr_unique_id := unique_id;
          obj_attr_mode := mode;
          obj_attr_device_class := None;
          obj_attr_native_unit_of_measurement := None;
          obj_sensor_config := sensor_config |}.

(** [HTTPAgentSensor.__init__], which takes the declaration itself. *)
Definition init_sensor (coordinator : Coordinator) (entry : ha.ConfigEntry)
    (sensor_config : PyVal) : Outcome EntityObject :=
  sensor_name ← PyDict.getitem sensor_config CONF_SENSOR_NAME;
  unique_id ← unique_id_of entry sensor_name;
  device_class ← PyDict.get sensor_config CONF_SENSOR_DEVICE_CLASS VNone;
  unit ← PyDict.get sensor_config CONF_SENSOR_UNIT VNone;
  mret {| obj_coordinator := coordinator;
          obj_entry := entry;
          obj_sensor_name := sensor_name;
          obj_attr_name := sensor_name;
          obj_attr_unique_id := unique_id;
          obj_attr_mode := None;
          obj_attr_device_class := Some device_class;
          obj_attr_native_unit_of_measurement := Some unit;
          obj_sensor_config := sensor_config |}.

(** The [device_class] and [native_unit_of_measurement] properties. *)
Definition device_class (self : EntityObject) : Outcome PyVal :=
  if Py.truthy (obj_sensor_config self)
  then PyDict.get (obj_sensor_config self) CONF_SENSOR_DEVICE_CLASS VNone
  else Returns VNone.

Definition native_unit_of_measurement (self : EntityObject) : Outcome PyVal :=
  if Py.truthy (obj_sensor_config self)
  then PyDict.get (obj_sensor_config self) CONF_SENSOR_UNIT VNone
  else Returns VNone.

(** The loop of [async_setup_entry] in [binary_sensor.py], [number.py]
    and [device_tracker.py], for the type word and the constructor of the
    file. *)
Fixpoint create_named (type_word : string) (mode : option string)
    (coordinator : Coordinator) (entry : ha.ConfigEntry) (configs : list PyVal)
    : Outcome (list EntityObject) :=
  match configs with
  | [] => Returns []
  | sensor_config :: rest =>
      sensor_type ← PyDict.get sensor_config CONF_SENSOR_TYPE (VStr "sensor");
      if PyDict.eq_str sensor_type type_word then
        sensor_name ← PyDict.getitem sensor_config CONF_SENSOR_NAME;
        entity ← init_named mode coordinator entry sensor_name;
        entities ← create_named type_word mode coordinator entry rest;
        mret (entity :: entities)
      else create_named type_word mode coordinator entry rest
  end.

(** The three set-up functions: the list handed to [async_add_entities],
    [None] when it is not called. *)
Definition setup_named (type_word : string) (mode : option string)
    (hass_data : gmap string EntryData) (entry : ha.ConfigEntry)
    : Outcome (option (list EntityObject)) :=
  entry_data ← match hass_data !! ha.entry_id entry with
               | Some d => Returns d
               | None => Raises KeyError
               end;
  let coordinator := entry_coordinator entry_data in
  let data := merged_data entry in
  sensors ← dict_item data CONF_SENSORS;
  configs ← PyDict.iter sensors;
  entities ← create_named type_word mode coordinator entry configs;
  mret (match entities with [] => None | _ => Some entities end).

Definition binary_sensor_async_setup_entry := setup_named "binary_sensor" None.
Definition number_async_setup_entry := setup_named "number" (Some "box").
Definition device_tracker_async_setup_entry := setup_named "device_tracker" None.

(** The loop of [async_setup_entry] in [sensor.py]. *)
Fixpoint create_sensors (coordinator : Coordinator) (entry : ha.ConfigEntry)
    (configs : list PyVal) : Outcome (list EntityObject) :=
  match configs with
  | [] => Returns []
  | sensor_config :: rest =>
      sensor_type ← PyDict.get sensor_config CONF_SENSOR_TYPE (VStr "sensor");
      if PyDict.eq_str sensor_type "sensor" then
        entity ← init_sensor coordinator entry sensor_config;
        entities ← create_sensors coordinator entry rest;
        mret (entity :: entities)
      else create_sensors coordinator entry rest
  end.

(** [{sensor_config[CONF_SENSOR_NAME] for sensor_config in ...}]: the names
    in order of first evaluation; a name that cannot be hashed is a
    [TypeError]. *)
Fixpoint current_sensor_names (configs : list PyVal) : Outcome (list PyVal) :=
  match configs with
  | [] => Returns []
  | sensor_config :: rest =>
      name ← PyDict.getitem sensor_config CONF_SENSOR_NAME;
      if PyDict.hashable name then
        names ← current_sensor_names rest;
        mret (name :: names)
      else Raises TypeError
  end.

(** [unique_id.split("_", 1)[1]] when ["_" in unique_id]: what follows the
    first underscore. *)
Fixpoint after_underscore (unique_id : string) : option string :=
  match unique_id with
  | EmptyString => None
  | String c rest =>
      if Ascii.eqb c "_" then Some rest else after_underscore rest
  end.

(** [sensor_name in current_sensor_names], for a string. *)
Definition name_in (sensor_name : string) (names : list PyVal) : bool :=
  existsb (fun v => PyDict.eq_str v sensor_name) names.

(** The test of the clean-up loop: the entity is of this entry, of the
    sensor domain and of this integration, and the name in its unique id is
    not declared any more. *)
Definition obsolete (entry : ha.ConfigEntry) (names : list PyVal)
    (entity_entry : ha.RegistryEntry) : bool :=
  if (String.eqb (ha.config_entry_id entity_entry) (ha.entry_id entry)
      && String.eqb (ha.domain entity_entry) "sensor"
      && String.eqb (ha.platform entity_entry) DOMAIN)%bool
  then
    match after_underscore (ha.unique_id entity_entry) with
    | Some sensor_name => negb (name_in sensor_name names)
    | None => false
    end
  else false.

Definition entities_to_remove (entry : ha.ConfigEntry) (names : list PyVal)
    (registry : list (string * ha.RegistryEntry)) : list string :=
  map fst (List.filter (fun item => obsolete entry names (snd item)) registry).

(** [entity_registry.async_remove(entity_id)], for each id of a list. *)
Definition remove_entities (to_remove : list string)
    (registry : list (string * ha.RegistryEntry)) : list (string * ha.RegistryEntry) :=
  List.filter (fun item => negb (Py.str_in (fst item) to_remove)) registry.

(** The clean-up that follows [async_add_entities] in [sensor.py]: the
    registry and the log it leaves. *)
Definition clean_up (registry : list (string * ha.RegistryEntry))
    (entry : ha.ConfigEntry)
    : Outcome (list (string * ha.RegistryEntry) * list LogRecord) :=
  let data := merged_data entry in
  sensors ← dict_item data CONF_SENSORS;
  configs ← PyDict.iter sensors;
  names ← current_sensor_names configs;
  let to_remove := entities_to_remove entry names registry in
  mret (remove_entities to_remove registry,
        map (fun entity_id =>
               {| log_level := "INFO";
                  log_format := "Removing obsolete sensor entity: %s";
                  log_args := [VStr entity_id] |}) to_remove).

(** [async_setup_entry] of [sensor.py]: the list handed to
    [async_add_entities] ([None] when an exception comes first), and the
    outcome of the clean-up. *)
Definition sensor_async_setup_entry (hass_data : gmap string EntryData)
    (registry : list (string * ha.RegistryEntry)) (entry : ha.ConfigEntry)
    : option (list EntityObject)
      * Outcome (list (string * ha.RegistryEntry) * list LogRecord) :=
  match
    entry_data ← match hass_data !! ha.entry_id entry with
                 | Some d => Returns d
                 | None => Raises KeyError
                 end;
    let coordinator := entry_coordinator entry_data in
    let data := merged_data entry in
    sensors ← dict_item data CONF_SENSORS;
    configs ← PyDict.iter sensors;
    create_sensors coordinator entry configs
  with
  | Returns entities => (Some entities, clean_up registry entry)
  | Raises e => (None, Raises e)
  end.

End Setup.
End platforms.

(** ** [config_flow.py]: the steps of [HTTPAgentConfigFlow] after the URL *)

(** [d[key] = v] on the items of a dict: the value is replaced where the
    key is, or the item is added at the end. *)
Fixpoint dict_set (items : list (string * PyVal)) (key : string) (v : PyVal)
    : list (string * PyVal) :=
  match items with
  | [] => [(key, v)]
  | (k, x) :: rest =>
      if String.eqb k key then (k, v) :: rest else (k, x) :: dict_set rest key v
  end.

(** [d.update(other)]. *)
Definition dict_update (items other : list (string * PyVal)) : list (string * PyVal) :=
  fold_left (fun acc kv => dict_set acc (fst kv) (snd kv)) other items.

(** [s.replace(c, "_")] for a one-character [c]. *)
Fixpoint replace_char (c : ascii) (s : string) : string :=
  match s with
  | EmptyString => EmptyString
  | String d rest =>
      String (if Ascii.eqb d c then "_"%char else d) (replace_char c rest)
  end.

(** [urllib.parse.ParseResult] with the two further attributes the last
    step reads. *)
Record ParsedUrl : Type := {
  parsed : ParseResult;
  path : string;
  query : string
}.

(** What [self.data] holds under a key: a value of its own, or the list
    object [self.headers] or [self.sensors] itself, which the steps assign
    without copying; a later [append] to the list shows under the key. *)
Inductive DataSlot : Type :=
  | slot_value (v : PyVal)
  | slot_headers
  | slot_sensors.

(** The attributes of the flow object, as the steps assign them: a header
    is a dict of a key and a value, a sensor is a dict, [current_sensor] is
    a dict or [None]. *)
Record ConfigFlow : Type := {
  cf_data : gmap string DataSlot;
  cf_headers : list (PyVal * PyVal);
  cf_sensors : list (list (string * PyVal));
  cf_current_sensor : option (list (string * PyVal))
}.

(** [{"key": key, "value": value}]. *)
Definition header_dict (h : PyVal * PyVal) : PyVal :=
  VDict [("key", fst h); ("value", snd h)].

(** [self.data] as it reads now. *)
Definition data_of (self : ConfigFlow) : gmap string PyVal :=
  (fun slot =>
     match slot with
     | slot_value v => v
     | slot_headers => VList (map header_dict (cf_headers self))
     | slot_sensors => VList (map VDict (cf_sensors self))
     end) <$> cf_data self.

(** What a step returns: a form or an entry, or the abort of the flow. *)
Inductive StepResult : Type :=
  | flow_result (r : FlowResult)
  | async_abort (reason : string).

(** What the steps take from outside the file.  The keys, the method and
    content-type lists, the table of sensor types and the device classes
    come from [const.py]; [urlparse] and [str] are the interpreter's;
    [async_set_unique_id] and [_abort_if_unique_id_configured] are the
    host's, which aborts the flow when the unique id is configured
    already. *)
Module env.
Record t : Type := {
  CONF_URL : string;
  CONF_METHOD : string;
  CONF_HEADERS : string;
  CONF_CONTENT_TYPE : string;
  CONF_PAYLOAD : string;
  CONF_SENSORS : string;
  CONF_SENSOR_NAME : string;
  CONF_SENSOR_TYPE : string;
  CONF_SENSOR_STATE : string;
  CONF_SENSOR_ICON : string;
  CONF_SENSOR_COLOR : string;
  CONF_SENSOR_DEVICE_CLASS : string;
  CONF_SENSOR_UNIT : string;
  CONF_TRACKER_LATITUDE : string;
  CONF_TRACKER_LONGITUDE : string;
  CONF_TRACKER_LOCATION_NAME : string;
  CONF_TRACKER_SOURCE_TYPE : string;
  HTTP_METHODS_WITH_PAYLOAD : list string;
  CONTENT_TYPES : list string;
  SENSOR_TYPES : list (string * string);
  SENSOR_DEVICE_CLASSES : list string;
  BINARY_SENSOR_DEVICE_CLASSES : list string;
  NUMBER_DEVICE_CLASSES : list string;
  urlparse : PyVal -> Outcome ParsedUrl;
  str_of_value : PyVal -> Outcome string;
  unique_id_configured : string -> bool
}.
End env.

Module HTTPAgentConfigFlow.
Section Steps.
Variable E : env.t.
Local Abbreviation CONF_URL := (env.CONF_URL E).
Local Abbreviation CONF_METHOD := (env.CONF_METHOD E).
Local Abbreviation CONF_HEADERS := (env.CONF_HEADERS E).
Local Abbreviation CONF_CONTENT_TYPE := (env.CONF_CONTENT_TYPE E).
Local Abbreviation CONF_PAYLOAD := (env.CONF_PAYLOAD E).
Local Abbreviation CONF_SENSORS := (env.CONF_SENSORS E).
Local Abbreviation CONF_SENSOR_NAME := (env.CONF_SENSOR_NAME E).
Local Abbreviation CONF_SENSOR_TYPE := (env.CONF_SENSOR_TYPE E).
Local Abbreviation CONF_SENSOR_STATE := (env.CONF_SENSOR_STATE E).
Local Abbreviation CONF_SENSOR_ICON := (env.CONF_SENSOR_ICON E).
Local Abbreviation CONF_SENSOR_COLOR := (env.CONF_SENSOR_COLOR E).
Local Abbreviation CONF_SENSOR_DEVICE_CLASS := (env.CONF_SENSOR_DEVICE_CLASS E).
Local Abbreviation CONF_SENSOR_UNIT := (env.CONF_SENSOR_UNIT E).
Local Abbreviation CONF_TRACKER_LATITUDE := (env.CONF_TRACKER_LATITUDE E).
Local Abbreviation CONF_TRACKER_LONGITUDE := (env.CONF_TRACKER_LONGITUDE E).
Local Abbreviation CONF_TRACKER_LOCATION_NAME := (env.CONF_TRACKER_LOCATION_NAME E).
Local Abbreviation CONF_TRACKER_SOURCE_TYPE := (env.CONF_TRACKER_SOURCE_TYPE E).
Local Abbreviation HTTP_METHODS_WITH_PAYLOAD := (env.HTTP_METHODS_WITH_PAYLOAD E).
Local Abbreviation CONTENT_TYPES := (env.CONTENT_TYPES E).
Local Abbreviation SENSOR_TYPES := (env.SENSOR_TYPES E).
Local Abbreviation SENSOR_DEVICE_CLASSES := (env.SENSOR_DEVICE_CLASSES E).
Local Abbreviation BINARY_SENSOR_DEVICE_CLASSES := (env.BINARY_SENSOR_DEVICE_CLASSES E).
Local Abbreviation NUMBER_DEVICE_CLASSES := (env.NUMBER_DEVICE_CLASSES E).
Local Abbreviation urlparse := (env.urlparse E).
Local Abbreviation str_of_value := (env.str_of_value E).
Local Abbreviation unique_id_configured := (env.unique_id_configured E).

Definition show (self : ConfigFlow) (step_id : string) (schema : vol.Schema)
    (placeholders : option (gmap string string)) : ConfigFlow * Outcome StepResult :=
  (self, Returns (flow_result (async_show_form step_id schema None placeholders))).

(** [user_input.get("action")]. *)
Definition action_of (user_input : list (string * PyVal)) : PyVal :=
  default VNone (PyDict.lookup user_input "action").

(** ["\n".join([f"• {h['key']}: {h['value']}" for h in self.headers])]. *)
Fixpoint header_lines (headers : list (PyVal * PyVal)) : Outcome (list string) :=
  match headers with
  | [] => Returns []
  | h :: rest =>
      key ← Py.str str_of_value (fst h);
      value ← Py.str str_of_value (snd h);
      lines ← header_lines rest;
      mret (("• " ++ key ++ ": " ++ value) :: lines)
  end.

(** [SENSOR_TYPES.get(t, "Sensor")]. *)
Definition sensor_type_label (t : PyVal) : Outcome string :=
  if PyDict.hashable t then
    match t with
    | VStr s =>
        Returns (default "Sensor"
                   (snd <$> find (fun kv => String.eqb (fst kv) s) SENSOR_TYPES))
    | _ => Returns "Sensor"
    end
  else Raises TypeError.

Fixpoint sensor_lines (sensors : list (list (string * PyVal)))
    : Outcome (list string) :=
  match sensors with
  | [] => Returns []
  | s :: rest =>
      name ← PyDict.getitem (VDict s) CONF_SENSOR_NAME;
      name ← Py.str str_of_value name;
      t ← PyDict.get (VDict s) CONF_SENSOR_TYPE (VStr "sensor");
      label ← sensor_type_label t;
      lines ← sensor_lines rest;
      mret (("• " ++ name ++ " (" ++ label ++ ")") :: lines)
  end.

Definition action_schema : vol.Schema :=
  [ (vol.Required "action" None, vol.In_ ["add"; "done"]) ].

(** The form of [async_step_sensors]. *)
Definition sensors_form (self : ConfigFlow) : ConfigFlow * Outcome StepResult :=
  match sensor_lines (cf_sensors self) with
  | Returns lines =>
      show self "sensors" action_schema (Some {[ "sensors" := join_lines lines ]})
  | Raises e => (self, Raises e)
  end.

(** The form of [async_step_payload]. *)
Definition payload_form (self : ConfigFlow) : ConfigFlow * Outcome StepResult :=
  show self "payload"
    [ (vol.Required CONF_CONTENT_TYPE (Some (VStr "application/json")),
       vol.In_ CONTENT_TYPES);
      (vol.Optional CONF_PAYLOAD (Some (VStr "")), vol.type_str) ]
    None.

(** The form of [async_step_add_header]. *)
Definition add_header_form (self : ConfigFlow) : ConfigFlow * Outcome StepResult :=
  show self "add_header"
    [ (vol.Required "key" None, vol.type_str);
      (vol.Required "value" None, vol.type_str) ]
    None.

(** The form of [async_step_add_sensor]. *)
Definition add_sensor_form (self : ConfigFlow) : ConfigFlow * Outcome StepResult :=
  show self "add_sensor"
    [ (vol.Required CONF_SENSOR_NAME None, vol.type_str);
      (vol.Required CONF_SENSOR_TYPE None, vol.In_ (map fst SENSOR_TYPES)) ]
    None.

(** The form of [async_step_headers]. *)
Definition headers_form (self : ConfigFlow) : ConfigFlow * Outcome StepResult :=
  match header_lines (cf_headers self) with
  | Returns lines =>
      show self "headers" action_schema (Some {[ "headers" := join_lines lines ]})
  | Raises e => (self, Raises e)
  end.

Definition set_data (self : ConfigFlow) (key : string) (v : DataSlot) : ConfigFlow :=
  {| cf_data := <[key := v]> (cf_data self);
     cf_headers := cf_headers self;
     cf_sensors := cf_sensors self;
     cf_current_sensor := cf_current_sensor self |}.

Definition async_step_headers (self : ConfigFlow)
    (user_input : option (list (string * PyVal))) : ConfigFlow * Outcome StepResult :=
  match user_input with
  | Some user_input =>
      let action := action_of user_input in
      if PyDict.eq_str action "add" then add_header_form self
      else if PyDict.eq_str action "done" then
        let self :=
          set_data self CONF_HEADERS slot_headers in
        match data_of self !! CONF_METHOD with
        | None => (self, Raises KeyError)
        | Some method =>
            if existsb (PyDict.eq_str method) HTTP_METHODS_WITH_PAYLOAD
            then payload_form self
            else sensors_form self
        end
      else headers_form self
  | None => headers_form self
  end.

Definition async_step_add_header (self : ConfigFlow)
    (user_input : option (list (string * PyVal))) : ConfigFlow * Outcome StepResult :=
  match user_input with
  | Some user_input =>
      match PyDict.getitem (VDict user_input) "key" with
      | Raises e => (self, Raises e)
      | Returns key =>
          match PyDict.getitem (VDict user_input) "value" with
          | Raises e => (self, Raises e)
          | Returns value =>
              headers_form
                {| cf_data := cf_data self;
                   cf_headers := (cf_headers self ++ [(key, value)])%list;
                   cf_sensors := cf_sensors self;
                   cf_current_sensor := cf_current_sensor self |}
          end
      end
  | None => add_header_form self
  end.

Definition async_step_payload (self : ConfigFlow)
    (user_input : option (list (string * PyVal))) : ConfigFlow * Outcome StepResult :=
  match user_input with
  | Some user_input =>
      match PyDict.getitem (VDict user_input) CONF_CONTENT_TYPE with
      | Raises e => (self, Raises e)
      | Returns content_type =>
          let self := set_data self CONF_CONTENT_TYPE (slot_value content_type) in
          let self :=
            set_data self CONF_PAYLOAD
              (slot_value (default (VStr "") (PyDict.lookup user_input CONF_PAYLOAD))) in
          sensors_form self
      end
  | None => payload_form self
  end.

(** The fields [async_step_sensor_config] adds when they are missing. *)
Definition optional_fields : list string :=
  [ CONF_SENSOR_STATE; CONF_SENSOR_ICON; CONF_SENSOR_COLOR;
    CONF_SENSOR_DEVICE_CLASS; CONF_SENSOR_UNIT; CONF_TRACKER_LATITUDE;
    CONF_TRACKER_LONGITUDE; CONF_TRACKER_LOCATION_NAME; CONF_TRACKER_SOURCE_TYPE ].

(** The loop over [optional_fields]. *)
Definition fill_optional (user_input sensor_config : list (string * PyVal))
    : list (string * PyVal) :=
  fold_left
    (fun sensor_config field =>
       match PyDict.lookup sensor_config field with
       | Some _ => sensor_config
       | None =>
           dict_set sensor_config field
             (default (VStr "") (PyDict.lookup user_input field))
       end)
    optional_fields sensor_config.

(** The schema of the form of [async_step_sensor_config], by sensor type.
    The keys of [const.py] are taken to be distinct, so that every entry of
    the schema dict is a new one. *)
Definition sensor_config_schema (sensor_type : PyVal) : vol.Schema :=
  let base :=
    [ (vol.Required CONF_SENSOR_STATE None, vol.type_str);
      (vol.Optional CONF_SENSOR_ICON (Some (VStr "")), vol.type_str);
      (vol.Optional CONF_SENSOR_COLOR (Some (VStr "")), vol.type_str) ] in
  if PyDict.eq_str sensor_type "sensor" then
    (base ++
    [ (vol.Optional CONF_SENSOR_DEVICE_CLASS None,
       vol.In_ ("none" :: SENSOR_DEVICE_CLASSES));
      (vol.Optional CONF_SENSOR_UNIT (Some (VStr "")), vol.type_str) ])%list
  else if PyDict.eq_str sensor_type "binary_sensor" then
    (base ++
    [ (vol.Optional CONF_SENSOR_DEVICE_CLASS None,
       vol.In_ ("none" :: BINARY_SENSOR_DEVICE_CLASSES)) ])%list
  else if PyDict.eq_str sensor_type "number" then
    (base ++
    [ (vol.Optional CONF_SENSOR_DEVICE_CLASS None,
       vol.In_ ("none" :: NUMBER_DEVICE_CLASSES));
      (vol.Optional CONF_SENSOR_UNIT (Some (VStr "")), vol.type_str) ])%list
  else if PyDict.eq_str sensor_type "device_tracker" then
    (base ++
    [ (vol.Required CONF_TRACKER_LATITUDE None, vol.type_str);
      (vol.Required CONF_TRACKER_LONGITUDE None, vol.type_str);
      (vol.Optional CONF_TRACKER_LOCATION_NAME (Some (VStr "")), vol.type_str);
      (vol.Optional CONF_TRACKER_SOURCE_TYPE (Some (VStr "gps")),
       vol.In_ ["none"; "gps"; "router"; "bluetooth"; "bluetooth_le"]) ])%list
  else base.

(** The form of [async_step_sensor_config]. *)
Definition sensor_config_form (self : ConfigFlow) : ConfigFlow * Outcome StepResult :=
  match cf_current_sensor self with
  | None => (self, Raises TypeError)
  | Some current_sensor =>
      match PyDict.getitem (VDict current_sensor) CONF_SENSOR_TYPE with
      | Returns sensor_type =>
          show self "sensor_config" (sensor_config_schema sensor_type) None
      | Raises e => (self, Raises e)
      end
  end.

Definition async_step_add_sensor (self : ConfigFlow)
    (user_input : option (list (string * PyVal))) : ConfigFlow * Outcome StepResult :=
  match user_input with
  | Some user_input =>
      match PyDict.getitem (VDict user_input) CONF_SENSOR_NAME with
      | Raises e => (self, Raises e)
      | Returns name =>
          match PyDict.getitem (VDict user_input) CONF_SENSOR_TYPE with
          | Raises e => (self, Raises e)
          | Returns sensor_type =>
              sensor_config_form
                {| cf_data := cf_data self;
                   cf_headers := cf_headers self;
                   cf_sensors := cf_sensors self;
                   cf_current_sensor :=
                     Some (dict_set (dict_set [] CONF_SENSOR_NAME name)
                             CONF_SENSOR_TYPE sensor_type) |}
          end
      end
  | None => add_sensor_form self
  end.

Definition async_step_sensor_config (self : ConfigFlow)
    (user_input : option (list (string * PyVal))) : ConfigFlow * Outcome StepResult :=
  match user_input with
  | Some user_input =>
      match cf_current_sensor self with
      | None => (self, Raises TypeError)
      | Some sensor_config =>
          let sensor_config := dict_update sensor_config user_input in
          let sensor_config := fill_optional user_input sensor_config in
          sensors_form
            {| cf_data := cf_data self;
               cf_headers := cf_headers self;
               cf_sensors := (cf_sensors self ++ [sensor_config])%list;
               cf_current_sensor := None |}
      end
  | None => sensor_config_form self
  end.

(** The unique id of the entry, from the parts of the URL. *)
Definition entry_unique_id (parsed_url : ParsedUrl) : string :=
  replace_char "="
    (replace_char "&"
       (replace_char "?"
          (replace_char "."
             (replace_char "/"
                (netloc (parsed parsed_url) ++ path parsed_url ++ query parsed_url))))).

Definition async_step_sensors (self : ConfigFlow)
    (user_input : option (list (string * PyVal))) : ConfigFlow * Outcome StepResult :=
  match user_input with
  | Some user_input =>
      let action := action_of user_input in
      if PyDict.eq_str action "add" then add_sensor_form self
      else if PyDict.eq_str action "done" then
        match cf_sensors self with
        | [] => (self, Returns (async_abort "no_sensors"))
        | _ =>
            let self :=
              set_data self CONF_SENSORS slot_sensors in
            match (url ← dict_item (data_of self) CONF_URL; urlparse url) with
            | Raises e => (self, Raises e)
            | Returns parsed_url =>
                let unique_id := entry_unique_id parsed_url in
                if unique_id_configured unique_id
                then (self, Returns (async_abort "already_configured"))
                else
                  let title := "HTTP Agent - " ++ netloc (parsed parsed_url) in
                  (self,
                   Returns (flow_result (async_create_entry title (data_of self))))
            end
        end
      else sensors_form self
  | None => sensors_form self
  end.

(** The host calls the step whose form was submitted,
    [async_step_<step_id>]. *)
Inductive StepId : Type :=
  | headers
  | add_header
  | payload
  | sensors
  | add_sensor
  | sensor_config.

Definition async_step (step_id : StepId)
    : ConfigFlow -> option (list (string * PyVal)) -> ConfigFlow * Outcome StepResult :=
  match step_id with
  | headers => async_step_headers
  | add_header => async_step_add_header
  | payload => async_step_payload
  | sensors => async_step_sensors
  | add_sensor => async_step_add_sensor
  | sensor_config => async_step_sensor_config
  end.

(** The flow object after a sequence of calls. *)
Definition run (calls : list (StepId * option (list (string * PyVal))))
    (self : ConfigFlow) : ConfigFlow :=
  fold_left (fun self call => fst (async_step (fst call) self (snd call))) calls self.

End Steps.
End HTTPAgentConfigFlow.

(** ** [config_flow.py]: choosing, deleting and modifying a sensor in
    [HTTPAgentOptionsFlow] *)

(** The exceptions of these steps: those above, the [IndexError] of a list
    index out of range, and the [RuntimeError] the interpreter makes of a
    [StopIteration] that leaves a coroutine. *)
Inductive EditExn : Type :=
  | exn (e : Exn)
  | IndexError
  | RuntimeError.

(** How the part of a step that handles its input ends: with
    [return await self.async_step_<step_id>()], by going on to the form of
    the step itself, or with an exception. *)
Inductive Tail : Type :=
  | awaits (step_id : string)
  | own_form
  | raises (e : EditExn).

(** The two attributes these steps read and assign.  [__init__] does not
    assign [selected_sensor_index]: [None] is the missing attribute.  The
    sensors are copied from the data of the entry, so they are values of
    any kind. *)
Record OptionsFlow : Type := {
  of_sensors : list PyVal;
  of_selected_sensor_index : option nat
}.

Module HTTPAgentOptionsFlow.
Section Steps.
Variable E : env.t.
(** [a == b]. *)
Variable py_eq : PyVal -> PyVal -> bool.
Local Abbreviation CONF_SENSOR_NAME := (env.CONF_SENSOR_NAME E).
Local Abbreviation CONF_SENSOR_TYPE := (env.CONF_SENSOR_TYPE E).
Local Abbreviation CONF_SENSOR_STATE := (env.CONF_SENSOR_STATE E).
Local Abbreviation CONF_SENSOR_ICON := (env.CONF_SENSOR_ICON E).
Local Abbreviation CONF_SENSOR_COLOR := (env.CONF_SENSOR_COLOR E).
Local Abbreviation CONF_SENSOR_DEVICE_CLASS := (env.CONF_SENSOR_DEVICE_CLASS E).
Local Abbreviation CONF_SENSOR_UNIT := (env.CONF_SENSOR_UNIT E).
Local Abbreviation CONF_TRACKER_LATITUDE := (env.CONF_TRACKER_LATITUDE E).
Local Abbreviation CONF_TRACKER_LONGITUDE := (env.CONF_TRACKER_LONGITUDE E).
Local Abbreviation CONF_TRACKER_LOCATION_NAME := (env.CONF_TRACKER_LOCATION_NAME E).
Local Abbreviation CONF_TRACKER_SOURCE_TYPE := (env.CONF_TRACKER_SOURCE_TYPE E).

(** [next(i for i, s in enumerate(sensors) if s[CONF_SENSOR_NAME] == selected)],
    with the enumeration at [i]. *)
Fixpoint next_index (i : nat) (sensors : list PyVal) (selected : PyVal)
    : EditExn + nat :=
  match sensors with
  | [] => inl RuntimeError
  | s :: rest =>
      match PyDict.getitem s CONF_SENSOR_NAME with
      | Raises e => inl (exn e)
      | Returns name =>
          if py_eq name selected then inr i else next_index (S i) rest selected
      end
  end.

(** [async_step_select_sensor] with input. *)
Definition async_step_select_sensor (self : OptionsFlow)
    (user_input : list (string * PyVal)) : OptionsFlow * Tail :=
  match PyDict.lookup user_input "sensor" with
  | None => (self, raises (exn KeyError))
  | Some selected_sensor =>
      match next_index 0 (of_sensors self) selected_sensor with
      | inl e => (self, raises e)
      | inr i =>
          ({| of_sensors := of_sensors self; of_selected_sensor_index := Some i |},
           awaits "edit_sensor")
      end
  end.

(** [async_step_edit_sensor] with input. *)
Definition async_step_edit_sensor (self : OptionsFlow)
    (user_input : list (string * PyVal)) : OptionsFlow * Tail :=
  let action := HTTPAgentConfigFlow.action_of user_input in
  if PyDict.eq_str action "edit" then (self, awaits "modify_sensor")
  else if PyDict.eq_str action "delete" then
    match of_selected_sensor_index self with
    | None => (self, raises (exn AttributeError))
    | Some i =>
        if (i <? length (of_sensors self))%nat
        then ({| of_sensors := delete i (of_sensors self);
                 of_selected_sensor_index := Some i |},
              awaits "sensors")
        else (self, raises IndexError)
    end
  else if PyDict.eq_str action "back" then (self, awaits "sensors")
  else (self, own_form).

(** [if user_input.get(key): sensor_config[key] = user_input[key]]. *)
Definition copy_given (user_input sensor_config : list (string * PyVal))
    (key : string) : list (string * PyVal) :=
  match PyDict.lookup user_input key with
  | Some v => if Py.truthy v then dict_set sensor_config key v else sensor_config
  | None => sensor_config
  end.

(** The five entries of the new declaration. *)
Definition new_declaration (user_input : list (string * PyVal))
    (name sensor_type : PyVal) : list (string * PyVal) :=
  let get key := default (VStr "") (PyDict.lookup user_input key) in
  dict_set
    (dict_set
       (dict_set
          (dict_set (dict_set [] CONF_SENSOR_NAME name) CONF_SENSOR_TYPE sensor_type)
          CONF_SENSOR_STATE (get CONF_SENSOR_STATE))
       CONF_SENSOR_ICON (get CONF_SENSOR_ICON))
    CONF_SENSOR_COLOR (get CONF_SENSOR_COLOR).

(** [async_step_modify_sensor] with input. *)
Definition async_step_modify_sensor (self : OptionsFlow)
    (user_input : list (string * PyVal)) : OptionsFlow * Tail :=
  match PyDict.lookup user_input CONF_SENSOR_NAME with
  | None => (self, raises (exn KeyError))
  | Some name =>
      match of_selected_sensor_index self with
      | None => (self, raises (exn AttributeError))
      | Some i =>
          match of_sensors self !! i with
          | None => (self, raises IndexError)
          | Some sensor =>
              match PyDict.get sensor CONF_SENSOR_TYPE (VStr "sensor") with
              | Raises e => (self, raises (exn e))
              | Returns sensor_type =>
                  let sensor_config := new_declaration user_input name sensor_type in
                  let sensor_config :=
                    copy_given user_input sensor_config CONF_SENSOR_DEVICE_CLASS in
                  let sensor_config :=
                    copy_given user_input sensor_config CONF_SENSOR_UNIT in
                  match PyDict.lookup sensor_config CONF_SENSOR_TYPE with
                  | None => (self, raises (exn KeyError))
                  | Some sensor_type =>
                      let sensor_config :=
                        if PyDict.eq_str sensor_type "device_tracker" then
                          fold_left (copy_given user_input)
                            [ CONF_TRACKER_LATITUDE; CONF_TRACKER_LONGITUDE;
                              CONF_TRACKER_LOCATION_NAME; CONF_TRACKER_SOURCE_TYPE ]
                            sensor_config
                        else sensor_config in
                      ({| of_sensors := <[i := VDict sensor_config]> (of_sensors self);
                          of_selected_sensor_index := Some i |},
                       awaits "sensors")
                  end
              end
          end
      end
  end.

End Steps.
End HTTPAgentOptionsFlow.

(** ** Vocabulary of the specification *)

(** [snapshot[name][key]], [VNone] where the sensor or the field is
    absent: the read interface the entities have on a snapshot. *)
Definition field (snap : Snapshot) (name key : string) : PyVal :=
  match snap !! name with
  | Some sensor_data =>
      match sensor_data !! key with
      | Some v => v
      | None => VNone
      end
  | None => VNone
  end.

(** The coordinator holds no snapshot, or an empty one. *)
Definition empty_snapshot (c : Coordinator) : Prop :=
  data c = None \/ data c = Some ∅.

(** The word a platform is declared by. *)
Definition platform_word (p : ha.Platform) : string :=
  match p with
  | ha.SENSOR => "sensor"
  | ha.BINARY_SENSOR => "binary_sensor"
  | ha.NUMBER => "number"
  | ha.DEVICE_TRACKER => "device_tracker"
  end.

(** The type of a declaration is a word: the entry under the type key,
    ["sensor"] when there is none. *)
Definition type_is (CONF_SENSOR_TYPE word : string) (config : PyVal) : bool :=
  match config with
  | VDict items =>
      PyDict.eq_str (default (VStr "sensor") (PyDict.lookup items CONF_SENSOR_TYPE)) word
  | _ => false
  end.

(** The name of a declaration. *)
Definition name_of (CONF_SENSOR_NAME : string) (config : PyVal) : PyVal :=
  match config with
  | VDict items => default VNone (PyDict.lookup items CONF_SENSOR_NAME)
  | _ => VNone
  end.

(** A declaration as the configuration flow stores it: a dict with a
    string under the name key. *)
Definition well_formed (CONF_SENSOR_NAME : string) (config : PyVal) : Prop :=
  exists items name,
    config = VDict items /\ PyDict.lookup items CONF_SENSOR_NAME = Some (VStr name).

(** The first declaration of a list that bears a name. *)
Definition first_named (CONF_SENSOR_NAME name : string) (configs : list PyVal)
    : option PyVal :=
  find (fun config => PyDict.eq_str (name_of CONF_SENSOR_NAME config) name) configs.

(** The entities the set-up function of a platform creates for a list of
    declarations. *)
Definition platform_creates
    (CONF_SENSORS CONF_SENSOR_NAME CONF_SENSOR_TYPE : string)
    (CONF_SENSOR_DEVICE_CLASS CONF_SENSOR_UNIT : string)
    (str_of_value : PyVal -> Outcome string) (py_eq : PyVal -> PyVal -> bool)
    (p : ha.Platform) (coordinator : Coordinator) (entry : ha.ConfigEntry)
    (configs : list PyVal) : Outcome (list EntityObject) :=
  match p with
  | ha.SENSOR =>
      platforms.create_sensors CONF_SENSOR_NAME CONF_SENSOR_TYPE
        CONF_SENSOR_DEVICE_CLASS CONF_SENSOR_UNIT str_of_value coordinator entry configs
  | ha.BINARY_SENSOR =>
      platforms.create_named CONF_SENSORS CONF_SENSOR_NAME CONF_SENSOR_TYPE
        str_of_value py_eq "binary_sensor" None coordinator entry configs
  | ha.NUMBER =>
      platforms.create_named CONF_SENSORS CONF_SENSOR_NAME CONF_SENSOR_TYPE
        str_of_value py_eq "number" (Some "box") coordinator entry configs
  | ha.DEVICE_TRACKER =>
      platforms.create_named CONF_SENSORS CONF_SENSOR_NAME CONF_SENSOR_TYPE
        str_of_value py_eq "device_tracker" None coordinator entry configs
  end.

(** The flow object of [HTTPAgentConfigFlow.__init__]. *)
Definition new_flow : ConfigFlow :=
  {| cf_data := ∅; cf_headers := []; cf_sensors := []; cf_current_sensor := None |}.

(** The input that submits a header. *)
Definition header_input (h : PyVal * PyVal) : option (list (string * PyVal)) :=
  Some [("key", fst h); ("value", snd h)].

(** The input that chooses an action. *)
Definition action_input (action : string) : option (list (string * PyVal)) :=
  Some [("action", VStr action)].

(** A dict has an entry under a key. *)
Definition has_key (key : string) (items : list (string * PyVal)) : Prop :=
  PyDict.lookup items key <> None.

(** A step returned an entry. *)
Definition creates_entry (r : Outcome StepResult) : Prop :=
  exists title entry_data, r = Returns (flow_result (async_create_entry title entry_data)).

(** A declaration with a name, a type and the nine optional fields. *)
Definition complete (E : env.t) (items : list (string * PyVal)) : Prop :=
  has_key (env.CONF_SENSOR_NAME E) items /\
  has_key (env.CONF_SENSOR_TYPE E) items /\
  forall field, In field (HTTPAgentConfigFlow.optional_fields E) -> has_key field items.

(** The invariant of the flow object: the sensors stored are complete, and
    a sensor being configured has its name and its type. *)
Definition flow_invariant (E : env.t) (self : ConfigFlow) : Prop :=
  Forall (complete E) (cf_sensors self) /\
  forall current, cf_current_sensor self = Some current ->
    has_key (env.CONF_SENSOR_NAME E) current /\
    has_key (env.CONF_SENSOR_TYPE E) current.

(** The value a form gives under a key: there, and true as a condition. *)
Definition given (user_input : list (string * PyVal)) (key : string) : option PyVal :=
  v ← PyDict.lookup user_input key; if Py.truthy v then Some v else None.

(** The eleven keys of a declaration. *)
Definition declaration_keys (E : env.t) : list string :=
  env.CONF_SENSOR_NAME E :: env.CONF_SENSOR_TYPE E
    :: HTTPAgentConfigFlow.optional_fields E.

(** A sensor has a name, and the name is not the one selected. *)
Definition other_name (E : env.t) (py_eq : PyVal -> PyVal -> bool)
    (selected sensor : PyVal) : Prop :=
  exists name, PyDict.getitem sensor (env.CONF_SENSOR_NAME E) = Returns name /\
               py_eq name selected = false.

(** A string has no underscore. *)
Definition no_underscore (s : string) : Prop :=
  ~ In "_"%char (list_ascii_of_string s).

(** [v is None]. *)
Definition is_none (v : PyVal) : bool :=
  match v with
  | VNone => true
  | _ => false
  end.

(** Strictly greater than zero, for a float. *)
Definition float_positive (f : spec_float) : Prop :=
  match f with
  | S754_finite false _ _ => True
  | S754_infinity false => True
  | _ => False
  end.

(** Equal up to the case of the ASCII letters. *)
Definition equal_ignoring_case (s w : string) : Prop :=
  Py.lower s = Py.lower w.

(** The submitted URL parses to a scheme and a host, both non-empty. *)
Definition url_accepted (urlparse : PyVal -> Outcome ParseResult) (CONF_URL : string)
    (user_input : gmap string PyVal) : Prop :=
  exists url parsed,
    user_input !! CONF_URL = Some url /\
    urlparse url = Returns parsed /\
    scheme parsed <> "" /\ netloc parsed <> "".

(** A validator accepts a value: it returns instead of raising. *)
Definition accepts (str_to_int : string -> option Z) (f : vol.Validator) (v : PyVal)
    : Prop :=
  exists out, vol.validate str_to_int f v = Returns out.

(** A value coerces to an integer of a range. *)
Definition coerces_within (str_to_int : string -> option Z) (v : PyVal) (lo hi : Z)
    : Prop :=
  exists n, Py.int str_to_int v = Returns n /\ lo <= n <= hi.

(** ** Sample data

    The snapshots of the scenarios the specification lists, and an entity
    bound to a coordinator that holds a given snapshot. *)

Definition entity_with (d : option Snapshot) (name : string) : Entity :=
  {| coordinator := {| data := d; last_update_success := true |};
     entry_id := "entry";
     sensor_name := name |}.

(** Parsers and a printer to run the model on examples.  They cover the
    plain decimal integer literals (["30"], ["-7"]) and the text of [None],
    of a boolean and of an int; the theorems hold for every parser and
    printer. *)
Definition digit_of (c : ascii) : option Z :=
  let n := nat_of_ascii c in
  if (Nat.leb 48 n && Nat.leb n 57)%bool then Some (Z.of_nat (n - 48)) else None.

Fixpoint digits (acc : Z) (s : string) : option Z :=
  match s with
  | EmptyString => Some acc
  | String c s' =>
      match digit_of c with
      | Some d => digits (10 * acc + d) s'
      | None => None
      end
  end.

Definition decimal_literal (s : string) : option Z :=
  match s with
  | EmptyString => None
  | String "-" EmptyString => None
  | String "+" EmptyString => None
  | String "-" s' => Z.opp <$> digits 0 s'
  | String "+" s' => digits 0 s'
  | _ => digits 0 s
  end.

Definition decimal_literal_float (s : string) : option spec_float :=
  (fun n => binary_normalize Py.prec Py.emax n 0 false) <$> decimal_literal s.

Definition text_of_scalar (v : PyVal) : Outcome string :=
  match v with
  | VNone => Returns "None"
  | VBool b => Returns (if b then "True" else "False")
  | VInt n => Returns (pretty n)
  | _ => Raises NotImplementedError
  end.

(** An entry that declares a plain sensor, a binary sensor and a sensor
    without a type, under the keys ["sensors"], ["name"] and ["type"]. *)
Definition sample_entry : ha.ConfigEntry :=
  {| ha.entry_id := "01J";
     ha.title := "HTTP Agent - example.org";
     ha.data :=
       {[ "sensors" :=
            VList [ VDict [("name", VStr "temp"); ("type", VStr "sensor")];
                    VDict [("name", VStr "door"); ("type", VStr "binary_sensor")];
                    VDict [("name", VStr "level")] ] ]};
     ha.options := ∅ |}.

Definition sample_coordinator : Coordinator :=
  {| data := None; last_update_success := true |}.

Definition sample_entry_data : EntryData :=
  {| entry_coordinator := sample_coordinator;
     entry_platforms := {[ ha.SENSOR; ha.BINARY_SENSOR ]} |}.

(** [==] on [None], booleans, ints and strings, a boolean counting as 0
    or 1. *)
Definition same_scalar (a b : PyVal) : bool :=
  match a, b with
  | VNone, VNone => true
  | VBool x, VBool y => Bool.eqb x y
  | VBool x, VInt n | VInt n, VBool x => (if x then 1 else 0) =? n
  | VInt m, VInt n => m =? n
  | VStr s, VStr t => String.eqb s t
  | _, _ => false
  end.

(** The three declarations of [sample_entry]. *)
Definition sample_configs : list PyVal :=
  [ VDict [("name", VStr "temp"); ("type", VStr "sensor")];
    VDict [("name", VStr "door"); ("type", VStr "binary_sensor")];
    VDict [("name", VStr "level")] ].

(** A registry with an entity of a declared sensor, one of a sensor that
    is not declared any more, and one of another entry. *)
Definition sample_registry : list (string * ha.RegistryEntry) :=
  [ ("sensor.temp",
     {| ha.config_entry_id := "01J"; ha.domain := "sensor";
        ha.platform := "http_agent"; ha.unique_id := "01J_temp" |});
    ("sensor.old",
     {| ha.config_entry_id := "01J"; ha.domain := "sensor";
        ha.platform := "http_agent"; ha.unique_id := "01J_old" |});
    ("sensor.other",
     {| ha.config_entry_id := "02K"; ha.domain := "sensor";
        ha.platform := "http_agent"; ha.unique_id := "02K_old" |}) ].

(** [urlparse] on the URL of the samples. *)
Definition sample_urlparse (url : PyVal) : Outcome ParsedUrl :=
  if PyDict.eq_str url "http://example.org/api?x=1"
  then Returns {| parsed := {| scheme := "http"; netloc := "example.org" |};
                  path := "/api"; query := "x=1" |}
  else Raises AttributeError.

(** Keys and lists for the flow, and a host that has no entry yet. *)
Definition sample_env : env.t :=
  {| env.CONF_URL := "url";
     env.CONF_METHOD := "method";
     env.CONF_HEADERS := "headers";
     env.CONF_CONTENT_TYPE := "content_type";
     env.CONF_PAYLOAD := "payload";
     env.CONF_SENSORS := "sensors";
     env.CONF_SENSOR_NAME := "name";
     env.CONF_SENSOR_TYPE := "type";
     env.CONF_SENSOR_STATE := "state";
     env.CONF_SENSOR_ICON := "icon";
     env.CONF_SENSOR_COLOR := "color";
     env.CONF_SENSOR_DEVICE_CLASS := "device_class";
     env.CONF_SENSOR_UNIT := "unit";
     env.CONF_TRACKER_LATITUDE := "latitude";
     env.CONF_TRACKER_LONGITUDE := "longitude";
     env.CONF_TRACKER_LOCATION_NAME := "location_name";
     env.CONF_TRACKER_SOURCE_TYPE := "source_type";
     env.HTTP_METHODS_WITH_PAYLOAD := ["POST"; "PUT"; "PATCH"];
     env.CONTENT_TYPES := ["application/json"; "text/plain"];
     env.SENSOR_TYPES :=
       [("sensor", "Sensor"); ("binary_sensor", "Binary Sensor");
        ("number", "Number"); ("device_tracker", "Device Tracker")];
     env.SENSOR_DEVICE_CLASSES := ["temperature"; "humidity"];
     env.BINARY_SENSOR_DEVICE_CLASSES := ["door"; "motion"];
     env.NUMBER_DEVICE_CLASSES := ["temperature"];
     env.urlparse := sample_urlparse;
     env.str_of_value := text_of_scalar;
     env.unique_id_configured := fun _ => false |}.

(** The data after the first step: a URL and the method [POST]. *)
Definition sample_data : gmap string DataSlot :=
  {[ "url" := slot_value (VStr "http://example.org/api?x=1");
     "method" := slot_value (VStr "POST") ]}.

(** A flow at the headers step. *)
Definition sample_flow : ConfigFlow :=
  {| cf_data := sample_data; cf_headers := []; cf_sensors := [];
     cf_current_sensor := None |}.

(** A flow whose user chose a binary sensor named door. *)
Definition sample_choice : ConfigFlow :=
  {| cf_data := sample_data; cf_headers := []; cf_sensors := [];
     cf_current_sensor := Some [("name", VStr "door"); ("type", VStr "binary_sensor")] |}.

(** A flow with one sensor. *)
Definition sample_ready : ConfigFlow :=
  {| cf_data := sample_data; cf_headers := [];
     cf_sensors := [[("name", VStr "door"); ("type", VStr "binary_sensor");
                     ("state", VStr "state")]];
     cf_current_sensor := None |}.

(** An options flow on the three declarations, with nothing selected. *)
Definition sample_options_flow : OptionsFlow :=
  {| of_sensors := sample_configs; of_selected_sensor_index := None |}.

(** The options flow with the second declaration selected. *)
Definition sample_selected_flow : OptionsFlow :=
  {| of_sensors := sample_configs; of_selected_sensor_index := Some 1%nat |}.

(** [{"door": {"state": "Active"}}] *)
Definition door_snapshot : Snapshot :=
  {[ "door" := {[ "state" := VStr "Active" ]} ]}.

(** [21.5] *)
Definition float_21_5 : spec_float :=
  binary_normalize Py.prec Py.emax 43 (-1) false.

(** [{"temp": {"state": 21.5, "unit_of_measurement": "°C"}}] *)
Definition temp_snapshot : Snapshot :=
  {[ "temp" := {[ "state" := VFloat float_21_5;
                  "unit_of_measurement" := VStr "°C" ]} ]}.

(** [{"temp": {"state": 21.5, "icon": "home"}}] *)
Definition icon_snapshot : Snapshot :=
  {[ "temp" := {[ "state" := VFloat float_21_5; "icon" := VStr "home" ]} ]}.

(** [{"phone": {"state": "home", "source_type": None}}] *)
Definition tracker_snapshot : Snapshot :=
  {[ "phone" := {[ "state" := VStr "home"; "source_type" := VNone ]} ]}.

(** [{"phone": {"location_name": ""}}] *)
Definition unnamed_place_snapshot : Snapshot :=
  {[ "phone" := {[ "location_name" := VStr "" ]} ]}.

(** [{"level": {"state": 10 ** 400}}] *)
Definition huge_snapshot : Snapshot :=
  {[ "level" := {[ "state" := VInt (10 ^ 400) ]} ]}.

(** ** Reading the snapshot *)

Lemma no_data_nonempty (snap : Snapshot) :
  snap ≠ ∅ -> no_data (Some snap) = false.
Proof.
  intros Hne. unfold no_data. apply Nat.eqb_neq.
  intros Hsz. apply Hne. by apply map_size_empty_iff.
Qed.

Lemma no_data_empty (c : Coordinator) :
  empty_snapshot c -> no_data (data c) = true.
Proof.
  intros [-> | ->]; [reflexivity|].
  unfold no_data. by rewrite map_size_empty.
Qed.

Lemma lookup_nonempty (snap : Snapshot) (name : string) (sensor_data : SensorData) :
  snap !! name = Some sensor_data -> snap ≠ ∅.
Proof. intros Hl ->. by rewrite lookup_empty in Hl. Qed.

Lemma dict_get_field (snap : Snapshot) (name key : string) :
  dict_get (sensor_data_of (Some snap) name) key = field snap name key.
Proof.
  unfold dict_get, sensor_data_of, field.
  destruct (snap !! name) as [sd|]; simpl; [reflexivity|].
  by rewrite lookup_empty.
Qed.

(** ** Binary sensor: coercion of the state to a boolean *)

Lemma float_gt_zero_positive (f : spec_float) :
  Py.float_gt_zero f = true <-> float_positive f.
Proof.
  destruct f as [s | s | | s m e]; try destruct s; simpl; split;
    solve [ auto | discriminate | intros [] ].
Qed.

Lemma str_in_In (x : string) (ws : list string) :
  Py.str_in x ws = true <-> In x ws.
Proof.
  unfold Py.str_in. rewrite existsb_exists. split.
  - intros (w & Hin & Heq). apply String.eqb_eq in Heq. by subst.
  - intros Hin. exists x. split; [done|]. apply String.eqb_refl.
Qed.

Lemma lower_on_words (w : string) :
  In w HTTPAgentBinarySensor.on_words -> Py.lower w = w.
Proof.
  simpl. intros H. repeat (destruct H as [<- | H]; [reflexivity|]). destruct H.
Qed.

Lemma is_on_state (self : Entity) (snap : Snapshot) :
  data (coordinator self) = Some snap -> snap ≠ ∅ ->
  HTTPAgentBinarySensor.is_on self =
    match field snap (sensor_name self) "state" with
    | VNone => None
    | VBool b => Some b
    | VStr s => Some (Py.str_in (Py.lower s) HTTPAgentBinarySensor.on_words)
    | VInt n => Some (0 <? n)
    | VFloat f => Some (Py.float_gt_zero f)
    | VList items => Some (Py.truthy (VList items))
    | VDict items => Some (Py.truthy (VDict items))
    end.
Proof.
  intros Hd Hne. unfold HTTPAgentBinarySensor.is_on.
  rewrite Hd, (no_data_nonempty _ Hne), dict_get_field.
  by destruct (field snap (sensor_name self) "state").
Qed.

(** C1: on a non-empty snapshot the binary sensor coerces the [state]
    field of its record as follows.  A boolean passes through; a string is
    on exactly when it equals, ignoring case, one of [true], [on], [yes],
    [1], [active], [open]; an int or a float is on exactly when it is
    strictly greater than zero; a missing or [None] state gives [None], not
    [False]; any other value (a list, a dict) gives its truthiness. *)
Theorem is_on_coercion (self : Entity) (snap : Snapshot) :
  data (coordinator self) = Some snap -> snap ≠ ∅ ->
  let state := field snap (sensor_name self) "state" in
  let is_on := HTTPAgentBinarySensor.is_on self in
  (forall b, state = VBool b -> is_on = Some b) /\
  (forall s, state = VStr s ->
     exists b, is_on = Some b /\
       (b = true <->
        exists w, In w ["true"; "on"; "yes"; "1"; "active"; "open"] /\
                  equal_ignoring_case s w)) /\
  (forall n, state = VInt n -> exists b, is_on = Some b /\ (b = true <-> 0 < n)) /\
  (forall f, state = VFloat f ->
     exists b, is_on = Some b /\ (b = true <-> float_positive f)) /\
  (state = VNone -> is_on = None) /\
  (forall items, state = VList items -> is_on = Some (Py.truthy state)) /\
  (forall items, state = VDict items -> is_on = Some (Py.truthy state)).
Proof.
  intros Hd Hne state is_on. subst is_on.
  rewrite (is_on_state self snap Hd Hne). fold state.
  split; [by intros b ->|].
  split.
  { intros s ->. eexists. split; [reflexivity|].
    rewrite str_in_In. split.
    - intros Hin. exists (Py.lower s). split; [exact Hin|].
      unfold equal_ignoring_case. by rewrite (lower_on_words _ Hin).
    - intros (w & Hin & Heq). unfold equal_ignoring_case in Heq.
      rewrite Heq, (lower_on_words w Hin). exact Hin. }
  split.
  { intros n ->. eexists. split; [reflexivity|]. apply Z.ltb_lt. }
  split.
  { intros f ->. eexists. split; [reflexivity|]. apply float_gt_zero_positive. }
  split; [by intros ->|].
  split; by intros items ->.
Qed.

Lemma door_snapshot_nonempty : door_snapshot ≠ ∅.
Proof.
  apply (lookup_nonempty _ "door" {[ "state" := VStr "Active" ]}).
  reflexivity.
Qed.

Lemma is_on_coercion_witness :
  data (coordinator (entity_with (Some door_snapshot) "door")) = Some door_snapshot /\
  door_snapshot ≠ ∅ /\
  HTTPAgentBinarySensor.is_on (entity_with (Some door_snapshot) "door") = Some true.
Proof.
  split; [reflexivity|]. split; [exact door_snapshot_nonempty|].
  destruct (is_on_coercion (entity_with (Some door_snapshot) "door") door_snapshot
              eq_refl door_snapshot_nonempty) as (_ & Hstr & _).
  destruct (Hstr "Active" eq_refl) as (b & Hb & Hiff).
  rewrite Hb. f_equal. apply Hiff.
  exists "active". split; [simpl; tauto | reflexivity].
Defined.

(** The table of the specification: ["Active"] is on, ["0"] is off, [1] is
    on, [0] is off, [None] is unknown. *)
Example is_on_table :
  let is_on state :=
    HTTPAgentBinarySensor.is_on
      (entity_with (Some {[ "door" := {[ "state" := state ]} ]}) "door") in
  is_on (VStr "Active") = Some true /\
  is_on (VStr "0") = Some false /\
  is_on (VInt 1) = Some true /\
  is_on (VInt 0) = Some false /\
  is_on VNone = None.
Proof. repeat split; reflexivity. Qed.

(** ** Sensor: the rendered value is the state *)

(** C5: on a non-empty snapshot that has a record for the sensor, the plain
    sensor renders the [state] field of that record as it is ([None] when
    the record has no such field); when the snapshot has no record for the
    sensor, it renders [None]. *)
Theorem sensor_native_value_is_state (self : Entity) (snap : Snapshot) :
  data (coordinator self) = Some snap -> snap ≠ ∅ ->
  (forall sensor_data : SensorData,
     snap !! sensor_name self = Some sensor_data ->
     (forall v, sensor_data !! "state" = Some v ->
                HTTPAgentSensor.native_value self = v) /\
     (sensor_data !! "state" = None ->
      HTTPAgentSensor.native_value self = VNone)) /\
  (snap !! sensor_name self = None -> HTTPAgentSensor.native_value self = VNone).
Proof.
  intros Hd Hne. unfold HTTPAgentSensor.native_value.
  rewrite Hd, (no_data_nonempty _ Hne), dict_get_field. unfold field.
  split.
  - intros sensor_data ->. split.
    + by intros v ->.
    + by intros ->.
  - by intros ->.
Qed.

Lemma temp_snapshot_nonempty : temp_snapshot ≠ ∅.
Proof.
  apply (lookup_nonempty _ "temp"
           {[ "state" := VFloat float_21_5; "unit_of_measurement" := VStr "°C" ]}).
  reflexivity.
Qed.

Lemma sensor_native_value_is_state_witness :
  data (coordinator (entity_with (Some temp_snapshot) "temp")) = Some temp_snapshot /\
  temp_snapshot ≠ ∅ /\
  field temp_snapshot "temp" "state" = VFloat float_21_5 /\
  HTTPAgentSensor.native_value (entity_with (Some temp_snapshot) "temp")
    = VFloat float_21_5.
Proof.
  split; [reflexivity|]. split; [exact temp_snapshot_nonempty|].
  split; [reflexivity|].
  destruct (sensor_native_value_is_state
              (entity_with (Some temp_snapshot) "temp") temp_snapshot
              eq_refl temp_snapshot_nonempty) as [Hrec _].
  destruct (Hrec {[ "state" := VFloat float_21_5;
                    "unit_of_measurement" := VStr "°C" ]} eq_refl) as [Hstate _].
  apply Hstate. reflexivity.
Defined.

(** ** Number: the value cannot be set *)

(** C8: whatever the value, setting a number entity raises
    [NotImplementedError] and leaves the entity as it was. *)
Theorem number_is_read_only (self : Entity) (value : spec_float) :
  HTTPAgentNumber.async_set_native_value self value
    = (self, Raises NotImplementedError).
Proof. reflexivity. Qed.

(** ** No snapshot and an empty snapshot *)

(** C10: when the coordinator holds no snapshot or an empty one, the value
    of every entity is [None] (state, [is_on], number value, coordinates),
    nothing is logged, and every extra-attributes mapping is empty. *)
Theorem empty_snapshot_renders_nothing
    (str_to_float : string -> option spec_float) (self : Entity) :
  empty_snapshot (coordinator self) ->
  HTTPAgentSensor.native_value self = VNone /\
  HTTPAgentBinarySensor.is_on self = None /\
  HTTPAgentNumber.native_value str_to_float self = (Returns None, []) /\
  HTTPAgentDeviceTracker.latitude str_to_float self = (Returns None, []) /\
  HTTPAgentDeviceTracker.longitude str_to_float self = (Returns None, []) /\
  HTTPAgentSensor.extra_state_attributes self = Returns ∅ /\
  HTTPAgentBinarySensor.extra_state_attributes self = Returns ∅ /\
  HTTPAgentNumber.extra_state_attributes self = Returns ∅ /\
  HTTPAgentDeviceTracker.extra_state_attributes self = Returns ∅.
Proof.
  intros He. apply no_data_empty in He.
  unfold HTTPAgentSensor.native_value, HTTPAgentBinarySensor.is_on,
    HTTPAgentNumber.native_value, HTTPAgentDeviceTracker.latitude,
    HTTPAgentDeviceTracker.longitude, HTTPAgentSensor.extra_state_attributes,
    HTTPAgentBinarySensor.extra_state_attributes,
    HTTPAgentNumber.extra_state_attributes,
    HTTPAgentDeviceTracker.extra_state_attributes.
  rewrite He. repeat split.
Qed.

Lemma empty_snapshot_renders_nothing_witness :
  empty_snapshot (coordinator (entity_with (Some ∅) "temp")) /\
  HTTPAgentSensor.native_value (entity_with (Some ∅) "temp") = VNone /\
  HTTPAgentBinarySensor.is_on (entity_with (Some ∅) "temp") = None /\
  HTTPAgentSensor.extra_state_attributes (entity_with (Some ∅) "temp") = Returns ∅.
Proof.
  assert (He : empty_snapshot (coordinator (entity_with (Some ∅) "temp")))
    by (right; reflexivity).
  split; [exact He|].
  destruct (empty_snapshot_renders_nothing decimal_literal_float _ He)
    as (Hs & Hb & _ & _ & _ & Ha & _).
  split; [exact Hs|]. split; [exact Hb | exact Ha].
Defined.

(** ** Icons *)

Lemma prefix_app (p s : string) :
  String.prefix p s = true <-> exists rest, s = p ++ rest.
Proof.
  revert s. induction p as [|c p IH]; intros s.
  - split; [intros _; by exists s | by destruct s].
  - destruct s as [|d s]; simpl.
    + split; [discriminate | intros [rest Hr]; discriminate].
    + destruct (ascii_dec c d) as [->|Hcd].
      * rewrite IH. split; intros [rest Hr]; exists rest.
        -- simpl. by rewrite Hr.
        -- simpl in Hr. by injection Hr.
      * split; [discriminate | intros [rest Hr]; simpl in Hr; injection Hr as Hc _; by symmetry in Hc].
Qed.

Lemma icons_agree (self : Entity) :
  HTTPAgentBinarySensor.icon self = HTTPAgentSensor.icon self /\
  HTTPAgentNumber.icon self = HTTPAgentSensor.icon self /\
  HTTPAgentDeviceTracker.icon self = HTTPAgentSensor.icon self.
Proof. repeat split. Qed.

(** C4: the four platforms normalise the icon of a non-empty snapshot in
    the same way.  A non-empty string that does not start with [mdi:] gets
    [mdi:] in front; a string that starts with [mdi:] is returned as it is;
    an empty string is returned empty, and an absent or [None] icon gives
    [None]. *)
Theorem icon_normalization (self : Entity) (snap : Snapshot) :
  data (coordinator self) = Some snap -> snap ≠ ∅ ->
  let icon := field snap (sensor_name self) "icon" in
  (HTTPAgentBinarySensor.icon self = HTTPAgentSensor.icon self /\
   HTTPAgentNumber.icon self = HTTPAgentSensor.icon self /\
   HTTPAgentDeviceTracker.icon self = HTTPAgentSensor.icon self) /\
  (forall s, icon = VStr s -> s <> "" -> ~ (exists rest, s = "mdi:" ++ rest) ->
     HTTPAgentSensor.icon self = Returns (VStr ("mdi:" ++ s))) /\
  (forall s, icon = VStr s -> (exists rest, s = "mdi:" ++ rest) ->
     HTTPAgentSensor.icon self = Returns (VStr s)) /\
  (icon = VStr "" -> HTTPAgentSensor.icon self = Returns (VStr "")) /\
  (icon = VNone -> HTTPAgentSensor.icon self = Returns VNone).
Proof.
  intros Hd Hne icon. split; [apply icons_agree|].
  unfold HTTPAgentSensor.icon.
  rewrite Hd, (no_data_nonempty _ Hne), dict_get_field. fold icon.
  repeat split.
  - intros s -> Hs Hpre.
    assert (Ht : Py.truthy (VStr s) = true) by (by destruct s).
    assert (Hp : Py.startswith s "mdi:" = false).
    { destruct (Py.startswith s "mdi:") eqn:Hp; [|reflexivity].
      exfalso. apply Hpre. by apply prefix_app. }
    rewrite Ht. cbv beta iota. by rewrite Hp.
  - intros s -> Hpre. apply prefix_app in Hpre as Hp.
    assert (Ht : Py.truthy (VStr s) = true)
      by (destruct Hpre as [rest ->]; reflexivity).
    rewrite Ht. cbv beta iota. unfold Py.startswith. by rewrite Hp.
  - by intros ->.
  - by intros ->.
Qed.

Lemma icon_snapshot_nonempty : icon_snapshot ≠ ∅.
Proof.
  apply (lookup_nonempty _ "temp"
           {[ "state" := VFloat float_21_5; "icon" := VStr "home" ]}).
  reflexivity.
Qed.

Lemma icon_normalization_witness :
  data (coordinator (entity_with (Some icon_snapshot) "temp")) = Some icon_snapshot /\
  icon_snapshot ≠ ∅ /\
  field icon_snapshot "temp" "icon" = VStr "home" /\
  HTTPAgentSensor.icon (entity_with (Some icon_snapshot) "temp")
    = Returns (VStr "mdi:home").
Proof.
  split; [reflexivity|]. split; [exact icon_snapshot_nonempty|].
  split; [reflexivity|].
  destruct (icon_normalization (entity_with (Some icon_snapshot) "temp")
              icon_snapshot eq_refl icon_snapshot_nonempty) as (_ & Hadd & _).
  apply (Hadd "home" eq_refl).
  - discriminate.
  - intros [rest Hr]. discriminate Hr.
Defined.

(** The table of the specification: ["home"] becomes ["mdi:home"],
    ["mdi:home"] stays, [""] stays empty and an absent icon is [None]. *)
Example icon_table :
  let icon record :=
    HTTPAgentSensor.icon (entity_with (Some {[ "temp" := record ]}) "temp") in
  icon {[ "state" := VInt 1; "icon" := VStr "home" ]} = Returns (VStr "mdi:home") /\
  icon {[ "state" := VInt 1; "icon" := VStr "mdi:home" ]} = Returns (VStr "mdi:home") /\
  icon {[ "state" := VInt 1; "icon" := VStr "" ]} = Returns (VStr "") /\
  icon {[ "state" := VInt 1 ]} = Returns VNone.
Proof. repeat split; reflexivity. Qed.

(** ** Fields that are [None] or absent *)

(** Apart from the tracker's source type, a field that is [None] or absent
    is rendered as no value, without an exception. *)
Lemma none_fields_render
    (str_to_float : string -> option spec_float)
    (str_of_value : PyVal -> Outcome string) (self : Entity) (snap : Snapshot) :
  data (coordinator self) = Some snap -> snap ≠ ∅ ->
  let absent key := field snap (sensor_name self) key = VNone in
  (absent "state" ->
     HTTPAgentSensor.native_value self = VNone /\
     HTTPAgentBinarySensor.is_on self = None /\
     HTTPAgentNumber.native_value str_to_float self = (Returns None, [])) /\
  (absent "icon" -> HTTPAgentSensor.icon self = Returns VNone) /\
  (absent "color" -> HTTPAgentSensor.extra_state_attributes self = Returns ∅) /\
  (absent "latitude" ->
     HTTPAgentDeviceTracker.latitude str_to_float self = (Returns None, [])) /\
  (absent "longitude" ->
     HTTPAgentDeviceTracker.longitude str_to_float self = (Returns None, [])) /\
  (absent "location_name" -> absent "state" ->
     HTTPAgentDeviceTracker.location_name str_of_value self = Returns None) /\
  (absent "color" -> absent "latitude" -> absent "longitude" ->
     HTTPAgentDeviceTracker.extra_state_attributes self = Returns ∅).
Proof.
  intros Hd Hne absent. subst absent.
  unfold HTTPAgentSensor.native_value, HTTPAgentBinarySensor.is_on,
    HTTPAgentNumber.native_value, HTTPAgentSensor.icon,
    HTTPAgentSensor.extra_state_attributes, HTTPAgentDeviceTracker.latitude,
    HTTPAgentDeviceTracker.longitude, HTTPAgentDeviceTracker.location_name,
    HTTPAgentDeviceTracker.extra_state_attributes, add_color.
  rewrite Hd, (no_data_nonempty _ Hne), !dict_get_field.
  split; [by intros ->|].
  split; [by intros ->|].
  split; [by intros ->|].
  split; [by intros ->|].
  split; [by intros ->|].
  split; [by intros -> ->|].
  by intros -> -> ->.
Qed.

(** A source type that is present and not a string makes the tracker
    raise [AttributeError]: [None] in particular. *)
Lemma source_type_not_a_string (self : Entity) (snap : Snapshot)
    (sensor_data : SensorData) (source : PyVal) :
  data (coordinator self) = Some snap ->
  snap !! sensor_name self = Some sensor_data ->
  sensor_data !! "source_type" = Some source ->
  (forall s, source <> VStr s) ->
  HTTPAgentDeviceTracker.source_type self = Raises AttributeError.
Proof.
  intros Hd Hs Hf Hns. unfold HTTPAgentDeviceTracker.source_type.
  rewrite Hd, (no_data_nonempty _ (lookup_nonempty _ _ _ Hs)).
  unfold sensor_data_of, dict_get_or. rewrite Hs. simpl. rewrite Hf. simpl.
  destruct source; try reflexivity. by destruct (Hns s).
Qed.

(** C2: the record [{"state": "home", "source_type": None}] makes the
    tracker's source type raise [AttributeError]; so does a source type
    that is a number. *)
Theorem source_type_none_raises :
  HTTPAgentDeviceTracker.source_type (entity_with (Some tracker_snapshot) "phone")
    = Raises AttributeError /\
  HTTPAgentDeviceTracker.source_type
    (entity_with (Some {[ "phone" := {[ "source_type" := VInt 1 ]} ]}) "phone")
    = Raises AttributeError.
Proof. split; reflexivity. Qed.

(** ** Values that do not convert to a float *)

(** A state for which [float] raises [ValueError] or [TypeError] gives no
    value and one warning. *)
Lemma number_conversion_failure
    (str_to_float : string -> option spec_float) (self : Entity) (snap : Snapshot)
    (e : Exn) :
  data (coordinator self) = Some snap -> snap ≠ ∅ ->
  let state := field snap (sensor_name self) "state" in
  state <> VNone ->
  Py.float str_to_float state = Raises e ->
  e = ValueError \/ e = TypeError ->
  HTTPAgentNumber.native_value str_to_float self =
    (Returns None,
     [ {| log_level := "WARNING";
          log_format := "Could not convert state '%s' to number for %s";
          log_args := [state; VStr (sensor_name self)] |} ]).
Proof.
  intros Hd Hne state Hsome Hraise He. unfold HTTPAgentNumber.native_value.
  rewrite Hd, (no_data_nonempty _ Hne), dict_get_field. fold state.
  rewrite Hraise.
  assert (Hc : ValueError_or_TypeError e = true) by (by destruct He as [-> | ->]).
  rewrite Hc. by destruct state.
Qed.

(** C3: an int state too large for a float, [10 ** 400], makes [float]
    raise [OverflowError], which the number entity does not catch: the
    property raises instead of returning [None], and nothing is logged.
    The tracker's coordinates do the same. *)
Theorem number_native_value_overflow (str_to_float : string -> option spec_float) :
  HTTPAgentNumber.native_value str_to_float
    (entity_with (Some huge_snapshot) "level") = (Raises OverflowError, []) /\
  HTTPAgentDeviceTracker.latitude str_to_float
    (entity_with (Some {[ "phone" := {[ "latitude" := VInt (10 ^ 400) ]} ]}) "phone")
    = (Raises OverflowError, []) /\
  HTTPAgentDeviceTracker.longitude str_to_float
    (entity_with (Some {[ "phone" := {[ "longitude" := VInt (10 ^ 400) ]} ]}) "phone")
    = (Raises OverflowError, []).
Proof. repeat split; vm_compute; reflexivity. Qed.

(** ** Tracker: the location name *)

Lemma location_name_chosen
    (str_of_value : PyVal -> Outcome string) (self : Entity) (snap : Snapshot) :
  data (coordinator self) = Some snap -> snap ≠ ∅ ->
  HTTPAgentDeviceTracker.location_name str_of_value self =
    let location := field snap (sensor_name self) "location_name" in
    let state := field snap (sensor_name self) "state" in
    match (if Py.truthy location then location else state) with
    | VNone => Returns None
    | v => s ← Py.str str_of_value v; mret (Some s)
    end.
Proof.
  intros Hd Hne. unfold HTTPAgentDeviceTracker.location_name.
  rewrite Hd, (no_data_nonempty _ Hne), !dict_get_field.
  destruct (Py.truthy (field snap (sensor_name self) "location_name"));
    cbv zeta;
    [ by destruct (field snap (sensor_name self) "location_name")
    | by destruct (field snap (sensor_name self) "state") ].
Qed.

Lemma bind_some_not_none (o : Outcome string) :
  (s ← o; mret (Some s)) <> (Returns None : Outcome (option string)).
Proof. by destruct o. Qed.

(** C9, as amended: on a non-empty snapshot, a truthy [location_name] is
    rendered as its string; a [location_name] that is absent, [None] or
    falsy gives way to the [state] field, rendered as its string; and the
    rendered name is [None] exactly when [location_name] is absent, [None]
    or falsy and [state] is absent or [None]. *)
Theorem location_name_fallback
    (str_of_value : PyVal -> Outcome string) (self : Entity) (snap : Snapshot) :
  data (coordinator self) = Some snap -> snap ≠ ∅ ->
  let location := field snap (sensor_name self) "location_name" in
  let state := field snap (sensor_name self) "state" in
  let rendered := HTTPAgentDeviceTracker.location_name str_of_value self in
  (Py.truthy location = true ->
     rendered = (s ← Py.str str_of_value location; mret (Some s))) /\
  (Py.truthy location = false -> state <> VNone ->
     rendered = (s ← Py.str str_of_value state; mret (Some s))) /\
  (rendered = Returns None <-> Py.truthy location = false /\ state = VNone).
Proof.
  intros Hd Hne location state rendered. subst rendered.
  rewrite (location_name_chosen str_of_value self snap Hd Hne).
  fold location state. cbv zeta.
  destruct (Py.truthy location) eqn:Ht.
  - assert (Hl : location <> VNone) by (intros Hl; by rewrite Hl in Ht).
    split; [|split].
    + intros _. by destruct location.
    + discriminate.
    + split; [|intros [? _]; discriminate].
      destruct location; try done; intros Hr; by apply bind_some_not_none in Hr.
  - split; [discriminate|]. split.
    + intros _ Hs. by destruct state.
    + split; [|by intros [_ ->]].
      intros Hr. split; [reflexivity|].
      destruct state; try done; by apply bind_some_not_none in Hr.
Qed.

Lemma unnamed_place_snapshot_nonempty : unnamed_place_snapshot ≠ ∅.
Proof.
  apply (lookup_nonempty _ "phone" {[ "location_name" := VStr "" ]}).
  reflexivity.
Qed.

Lemma location_name_fallback_witness :
  data (coordinator (entity_with (Some tracker_snapshot) "phone"))
    = Some tracker_snapshot /\
  tracker_snapshot ≠ ∅ /\
  HTTPAgentDeviceTracker.location_name text_of_scalar
    (entity_with (Some tracker_snapshot) "phone") = Returns (Some "home").
Proof.
  assert (Hne : tracker_snapshot ≠ ∅).
  { apply (lookup_nonempty _ "phone"
             {[ "state" := VStr "home"; "source_type" := VNone ]}).
    reflexivity. }
  split; [reflexivity|]. split; [exact Hne|].
  destruct (location_name_fallback text_of_scalar
              (entity_with (Some tracker_snapshot) "phone") tracker_snapshot
              eq_refl Hne) as (_ & Hstate & _).
  apply Hstate; [reflexivity | discriminate].
Defined.

(** C9, as stated, fails: with [{"location_name": ""}] and no state the
    rendered name is [None], although [location_name] is neither absent
    nor [None]. *)
Lemma location_name_none_with_empty_name :
  ~ (forall (str_of_value : PyVal -> Outcome string) (self : Entity)
            (snap : Snapshot),
       data (coordinator self) = Some snap -> snap ≠ ∅ ->
       (HTTPAgentDeviceTracker.location_name str_of_value self = Returns None <->
        field snap (sensor_name self) "location_name" = VNone /\
        field snap (sensor_name self) "state" = VNone)).
Proof.
  intros Hclaim.
  destruct (Hclaim text_of_scalar
              (entity_with (Some unnamed_place_snapshot) "phone")
              unnamed_place_snapshot eq_refl unnamed_place_snapshot_nonempty)
    as [Honly _].
  destruct (Honly eq_refl) as [Hname _]. discriminate Hname.
Qed.

(** ** Configuration flow: the URL *)

Section FlowProperties.
Variable urlparse : PyVal -> Outcome ParseResult.
Variables CONF_URL CONF_METHOD CONF_TIMEOUT CONF_INTERVAL CONF_VERIFY_SSL : string.
Variables DEFAULT_METHOD DEFAULT_TIMEOUT DEFAULT_INTERVAL DEFAULT_VERIFY_SSL : PyVal.
Variable HTTP_METHODS : list string.

Local Abbreviation url_accepted := (url_accepted urlparse CONF_URL).

Lemma validate_url_accepted (user_input : gmap string PyVal) :
  url_accepted user_input ->
  config_flow.validate_url urlparse CONF_URL user_input = ∅.
Proof.
  intros (url & parsed & Hu & Hp & Hs & Hn).
  unfold config_flow.validate_url, dict_item. rewrite Hu. simpl. rewrite Hp. simpl.
  apply String.eqb_neq in Hs, Hn. by rewrite Hs, Hn.
Qed.

Lemma validate_url_rejected (user_input : gmap string PyVal) :
  ~ url_accepted user_input ->
  config_flow.validate_url urlparse CONF_URL user_input
    = {[ "base" := "invalid_url" ]}.
Proof.
  intros Hna. unfold config_flow.validate_url, dict_item.
  destruct (user_input !! CONF_URL) as [url|] eqn:Hu; simpl; [|reflexivity].
  destruct (urlparse url) as [parsed|e] eqn:Hp; simpl; [|reflexivity].
  destruct (String.eqb (scheme parsed) "") eqn:Hs; simpl; [reflexivity|].
  destruct (String.eqb (netloc parsed) "") eqn:Hn; simpl; [reflexivity|].
  exfalso. apply Hna. exists url, parsed.
  by rewrite <- !String.eqb_neq.
Qed.

Lemma url_accepted_dec (user_input : gmap string PyVal) :
  url_accepted user_input \/ ~ url_accepted user_input.
Proof.
  destruct (user_input !! CONF_URL) as [url|] eqn:Hu;
    [|right; intros (? & ? & ? & _); congruence].
  destruct (urlparse url) as [parsed|e] eqn:Hp;
    [|right; intros (? & ? & ? & ? & _); congruence].
  destruct (String.eqb (scheme parsed) "") eqn:Hs.
  { right. intros (? & ? & ? & ? & Hs' & _). apply String.eqb_eq in Hs. congruence. }
  destruct (String.eqb (netloc parsed) "") eqn:Hn.
  { right. intros (? & ? & ? & ? & _ & Hn'). apply String.eqb_eq in Hn. congruence. }
  left. exists url, parsed. by rewrite <- !String.eqb_neq.
Qed.

(** C6: the URL is checked when it is submitted.  The first step of the
    configuration flow goes on to the headers step, with the input stored,
    exactly when the URL parses to a non-empty scheme and a non-empty
    host; otherwise it shows its own form again with the error
    [invalid_url] and stores nothing.  The basic step of the options flow
    checks the URL in the same way before it creates the entry. *)
Theorem url_validation (self : Flow) (user_input : gmap string PyVal) :
  let step_user :=
    config_flow.async_step_user urlparse CONF_URL CONF_METHOD CONF_TIMEOUT
      CONF_INTERVAL CONF_VERIFY_SSL DEFAULT_METHOD DEFAULT_TIMEOUT
      DEFAULT_INTERVAL DEFAULT_VERIFY_SSL HTTP_METHODS self (Some user_input) in
  let step_basic :=
    config_flow.async_step_basic urlparse CONF_URL CONF_METHOD CONF_TIMEOUT
      CONF_INTERVAL CONF_VERIFY_SSL DEFAULT_METHOD DEFAULT_TIMEOUT
      DEFAULT_INTERVAL DEFAULT_VERIFY_SSL HTTP_METHODS self (Some user_input) in
  let invalid_url : option (gmap string string) :=
    Some {[ "base" := "invalid_url" ]} in
  (result_step_id (snd step_user) = Some "headers" <-> url_accepted user_input) /\
  (url_accepted user_input ->
     step_user = config_flow.async_step_headers (update_data self user_input) /\
     step_basic = (update_data self user_input,
                   async_create_entry "" (user_input ∪ flow_data self))) /\
  (~ url_accepted user_input ->
     fst step_user = self /\ fst step_basic = self /\
     (exists schema, snd step_user = async_show_form "user" schema invalid_url None) /\
     (exists schema, snd step_basic = async_show_form "basic" schema invalid_url None)).
Proof.
  cbv zeta. unfold config_flow.async_step_user, config_flow.async_step_basic.
  destruct (url_accepted_dec user_input) as [Ha | Hna].
  - rewrite (validate_url_accepted _ Ha). rewrite map_size_empty. simpl.
    split; [done|]. split; [done|]. intros Hna. by destruct Hna.
  - rewrite (validate_url_rejected _ Hna). rewrite map_size_singleton. simpl.
    split; [split; [discriminate | done]|]. split; [done|].
    intros _. repeat split; eexists; reflexivity.
Qed.

End FlowProperties.

(** ** Configuration flow: timeout and poll interval *)

Lemma coerce_range_accepts (str_to_int : string -> option Z) (lo hi : Z) (v : PyVal) :
  accepts str_to_int (vol.All [vol.Coerce_int; vol.Range lo hi]) v
  <-> coerces_within str_to_int v lo hi.
Proof.
  unfold accepts, coerces_within. simpl.
  destruct (Py.int str_to_int v) as [n|e]; simpl.
  - rewrite Z.geb_leb.
    destruct (Z.leb_spec lo n) as [Hlo|Hlo], (Z.leb_spec n hi) as [Hhi|Hhi]; split.
    + intros _. exists n. split; [done|lia].
    + intros _. by eexists.
    + by intros [out Ho].
    + intros (k & Hk & Hr). injection Hk as <-. lia.
    + by intros [out Ho].
    + intros (k & Hk & Hr). injection Hk as <-. lia.
    + by intros [out Ho].
    + intros (k & Hk & Hr). injection Hk as <-. lia.
  - split; [|by intros (k & Hk & _)].
    intros [out Ho]. by destruct (ValueError_or_TypeError e).
Qed.

(** C7: in the schema of the first step, the validator of the timeout
    accepts a value exactly when [int] coerces it to an integer from 1 to
    300, and the validator of the poll interval exactly when [int] coerces
    it to an integer from 5 to 86400. *)
Theorem schema_bounds
    (str_to_int : string -> option Z)
    (CONF_URL CONF_METHOD CONF_TIMEOUT CONF_INTERVAL CONF_VERIFY_SSL : string)
    (DEFAULT_METHOD DEFAULT_TIMEOUT DEFAULT_INTERVAL DEFAULT_VERIFY_SSL : PyVal)
    (HTTP_METHODS : list string) :
  NoDup [CONF_URL; CONF_METHOD; CONF_TIMEOUT; CONF_INTERVAL; CONF_VERIFY_SSL] ->
  let schema :=
    config_flow.user_schema CONF_URL CONF_METHOD CONF_TIMEOUT CONF_INTERVAL
      CONF_VERIFY_SSL DEFAULT_METHOD DEFAULT_TIMEOUT DEFAULT_INTERVAL
      DEFAULT_VERIFY_SSL HTTP_METHODS in
  (exists timeout,
     vol.validator_of schema CONF_TIMEOUT = Some timeout /\
     forall v, accepts str_to_int timeout v <-> coerces_within str_to_int v 1 300) /\
  (exists interval,
     vol.validator_of schema CONF_INTERVAL = Some interval /\
     forall v, accepts str_to_int interval v <-> coerces_within str_to_int v 5 86400).
Proof.
  intros Hnd schema. subst schema.
  apply NoDup_cons in Hnd as [Hurl Hnd]. apply NoDup_cons in Hnd as [Hmeth Hnd].
  apply NoDup_cons in Hnd as [Htime _].
  rewrite !not_elem_of_cons in Hurl. rewrite !not_elem_of_cons in Hmeth.
  rewrite !not_elem_of_cons in Htime.
  destruct Hurl as (_ & Hut & Hui & _), Hmeth as (Hmt & Hmi & _), Htime as (Hti & _).
  unfold vol.validator_of, config_flow.user_schema. simpl.
  apply String.eqb_neq in Hut, Hui, Hmt, Hmi, Hti.
  rewrite Hut, Hui, Hmt, Hmi, Hti, !String.eqb_refl. simpl.
  split; eexists; (split; [reflexivity|]); intros v; apply coerce_range_accepts.
Qed.

Lemma schema_bounds_witness :
  NoDup ["url"; "method"; "timeout"; "interval"; "verify_ssl"] /\
  exists timeout,
    vol.validator_of
      (config_flow.user_schema "url" "method" "timeout" "interval" "verify_ssl"
         (VStr "GET") (VInt 10) (VInt 60) (VBool true)
         ["GET"; "POST"; "PUT"; "PATCH"; "DELETE"]) "timeout" = Some timeout /\
    accepts decimal_literal timeout (VStr "300") /\
    ~ accepts decimal_literal timeout (VInt 301).
Proof.
  assert (Hnd : NoDup ["url"; "method"; "timeout"; "interval"; "verify_ssl"]).
  { repeat (apply NoDup_cons; split;
              [rewrite ?not_elem_of_cons; repeat split; try discriminate;
               apply not_elem_of_nil|]).
    apply NoDup_nil_2. }
  split; [exact Hnd|].
  destruct (schema_bounds decimal_literal "url" "method" "timeout" "interval"
              "verify_ssl" (VStr "GET") (VInt 10) (VInt 60) (VBool true)
              ["GET"; "POST"; "PUT"; "PATCH"; "DELETE"] Hnd)
    as [(timeout & Hv & Hacc) _].
  exists timeout. split; [exact Hv|]. split.
  - apply Hacc. exists 300. split; [reflexivity | lia].
  - intros Ha. apply Hacc in Ha as (n & Hn & Hr). injection Hn as <-. lia.
Defined.

(** The bounds on examples: 1 and 300 are timeouts, 0 and 301 are not; 5
    and 86400 are poll intervals, 4 and 86401 are not. *)
Example schema_bounds_table :
  let timeout := vol.validate decimal_literal (vol.All [vol.Coerce_int; vol.Range 1 300]) in
  let interval := vol.validate decimal_literal (vol.All [vol.Coerce_int; vol.Range 5 86400]) in
  timeout (VInt 1) = Returns (VInt 1) /\
  timeout (VStr "300") = Returns (VInt 300) /\
  timeout (VInt 0) = Raises Invalid /\
  timeout (VInt 301) = Raises Invalid /\
  timeout (VStr "soon") = Raises Invalid /\
  interval (VInt 5) = Returns (VInt 5) /\
  interval (VInt 86400) = Returns (VInt 86400) /\
  interval (VInt 4) = Raises Invalid /\
  interval (VInt 86401) = Raises Invalid.
Proof. repeat split; reflexivity. Qed.

(** * Further properties of the entities *)

(** ** Binary sensor: when the state is unknown *)

(** X1: the binary sensor reports an unknown state, [None], exactly when
    the coordinator holds no snapshot or an empty one, or the record of the
    sensor has no [state] or a [None] state; in every other case it reports
    [True] or [False]. *)
Theorem is_on_unknown_iff (self : Entity) :
  HTTPAgentBinarySensor.is_on self = None <->
  empty_snapshot (coordinator self) \/
  exists snap, data (coordinator self) = Some snap /\
               field snap (sensor_name self) "state" = VNone.
Proof.
  destruct (data (coordinator self)) as [snap|] eqn:Hd.
  - destruct (decide (size snap = 0%nat)) as [Hz|Hnz].
    + apply map_size_empty_iff in Hz. subst snap. split.
      * intros _. left. by right.
      * intros _. unfold HTTPAgentBinarySensor.is_on. by rewrite Hd.
    + assert (Hne : snap ≠ ∅) by (by rewrite <- map_size_empty_iff).
      rewrite (is_on_state self snap Hd Hne). split.
      * intros Hn. right. exists snap. split; [done|].
        by destruct (field snap (sensor_name self) "state").
      * intros [[He | He] | (snap' & Hs & Hf)].
        -- rewrite Hd in He. discriminate.
        -- rewrite Hd in He. injection He as ->. done.
        -- injection Hs as <-. by rewrite Hf.
  - split; [intros _; left; by left|].
    intros _. unfold HTTPAgentBinarySensor.is_on. by rewrite Hd.
Qed.

(** ** Tracker: the source type of a string *)

Lemma source_type_of_str (self : Entity) (snap : Snapshot) (s : string) :
  data (coordinator self) = Some snap -> snap ≠ ∅ ->
  default (VStr "gps") (sensor_data_of (Some snap) (sensor_name self) !! "source_type")
    = VStr s ->
  HTTPAgentDeviceTracker.source_type self =
    Returns (if String.eqb (Py.lower s) "router" then ROUTER
             else if String.eqb (Py.lower s) "bluetooth" then BLUETOOTH
             else if String.eqb (Py.lower s) "bluetooth_le" then BLUETOOTH_LE
             else GPS).
Proof.
  intros Hd Hne Hs. unfold HTTPAgentDeviceTracker.source_type.
  rewrite Hd, (no_data_nonempty _ Hne). unfold dict_get_or. rewrite Hs. simpl.
  destruct (String.eqb (Py.lower s) "router"); [reflexivity|].
  destruct (String.eqb (Py.lower s) "bluetooth"); [reflexivity|].
  by destruct (String.eqb (Py.lower s) "bluetooth_le").
Qed.

(** X2: when the source type of the record is a string, or is absent and
    so taken as ["gps"], the tracker never raises: it answers [ROUTER],
    [BLUETOOTH] or [BLUETOOTH_LE] exactly when the string is that word up
    to case, and [GPS] for every other string. *)
Theorem source_type_classification (self : Entity) (snap : Snapshot) (s : string) :
  data (coordinator self) = Some snap -> snap ≠ ∅ ->
  default (VStr "gps") (sensor_data_of (Some snap) (sensor_name self) !! "source_type")
    = VStr s ->
  let source_type := HTTPAgentDeviceTracker.source_type self in
  (source_type = Returns ROUTER <-> equal_ignoring_case s "router") /\
  (source_type = Returns BLUETOOTH <-> equal_ignoring_case s "bluetooth") /\
  (source_type = Returns BLUETOOTH_LE <-> equal_ignoring_case s "bluetooth_le") /\
  (source_type = Returns GPS <->
     ~ equal_ignoring_case s "router" /\ ~ equal_ignoring_case s "bluetooth" /\
     ~ equal_ignoring_case s "bluetooth_le").
Proof.
  intros Hd Hne Hs source_type. subst source_type.
  rewrite (source_type_of_str self snap s Hd Hne Hs).
  unfold equal_ignoring_case.
  change (Py.lower "router") with "router".
  change (Py.lower "bluetooth") with "bluetooth".
  change (Py.lower "bluetooth_le") with "bluetooth_le".
  destruct (String.eqb_spec (Py.lower s) "router") as [-> | Hr].
  { repeat split; try done; intros H; try discriminate H. by destruct H. }
  destruct (String.eqb_spec (Py.lower s) "bluetooth") as [-> | Hb].
  { repeat split; try done; intros H; try discriminate H. by destruct H as (_ & H & _). }
  destruct (String.eqb_spec (Py.lower s) "bluetooth_le") as [-> | Hl].
  { repeat split; try done; intros H; try discriminate H. by destruct H as (_ & _ & H). }
  repeat split; try done; intros H; discriminate H.
Qed.

Lemma source_type_classification_witness :
  data (coordinator
          (entity_with (Some {[ "phone" := {[ "source_type" := VStr "Router" ]} ]})
             "phone"))
    = Some {[ "phone" := {[ "source_type" := VStr "Router" ]} ]} /\
  HTTPAgentDeviceTracker.source_type
    (entity_with (Some {[ "phone" := {[ "source_type" := VStr "Router" ]} ]}) "phone")
    = Returns ROUTER.
Proof.
  split; [reflexivity|].
  assert (Hne : ({[ "phone" := {[ "source_type" := VStr "Router" ]} ]} : Snapshot) ≠ ∅).
  { apply (lookup_nonempty _ "phone" {[ "source_type" := VStr "Router" ]}).
    reflexivity. }
  destruct (source_type_classification
              (entity_with (Some {[ "phone" := {[ "source_type" := VStr "Router" ]} ]})
                 "phone")
              {[ "phone" := {[ "source_type" := VStr "Router" ]} ]} "Router"
              eq_refl Hne eq_refl) as (Hrouter & _).
  apply Hrouter. reflexivity.
Defined.

(** ** Icons: what comes out *)

Lemma icon_of_field (self : Entity) (snap : Snapshot) :
  data (coordinator self) = Some snap -> snap ≠ ∅ ->
  HTTPAgentSensor.icon self =
    let icon := field snap (sensor_name self) "icon" in
    if Py.truthy icon then
      match icon with
      | VStr s =>
          if negb (Py.startswith s "mdi:") then Returns (VStr ("mdi:" ++ s))
          else Returns icon
      | _ => Raises AttributeError
      end
    else Returns icon.
Proof.
  intros Hd Hne. unfold HTTPAgentSensor.icon.
  by rewrite Hd, (no_data_nonempty _ Hne), dict_get_field.
Qed.

Lemma no_data_cases (d : option Snapshot) :
  no_data d = true \/ exists snap, d = Some snap /\ snap ≠ ∅.
Proof.
  destruct d as [snap|]; [|by left]. simpl.
  destruct (Nat.eqb_spec (size snap) 0) as [Hz|Hnz]; [by left|].
  right. exists snap. split; [done|]. by rewrite <- map_size_empty_iff.
Qed.

(** What an icon property can return: a falsy value as it was found, or a
    string that starts with [mdi:]. *)
Lemma icon_output (self : Entity) (v : PyVal) :
  HTTPAgentSensor.icon self = Returns v ->
  Py.truthy v = false \/ exists rest, v = VStr ("mdi:" ++ rest).
Proof.
  destruct (no_data_cases (data (coordinator self))) as [Hn | (snap & Hd & Hne)].
  - unfold HTTPAgentSensor.icon. rewrite Hn. intros [= <-]. by left.
  - rewrite (icon_of_field self snap Hd Hne). cbv zeta.
    destruct (Py.truthy (field snap (sensor_name self) "icon")) eqn:Ht.
    + destruct (field snap (sensor_name self) "icon") as [| | | |s| |];
        try discriminate.
      destruct (Py.startswith s "mdi:") eqn:Hp; simpl; intros [= <-]; right.
      * apply prefix_app in Hp as [rest ->]. by exists rest.
      * by exists s.
    + intros [= <-]. by left.
Qed.

(** X3: on every platform, an icon that is returned as a string is empty
    or starts with [mdi:]. *)
Theorem icon_string_has_prefix (self : Entity) (s : string) :
  HTTPAgentSensor.icon self = Returns (VStr s) \/
  HTTPAgentBinarySensor.icon self = Returns (VStr s) \/
  HTTPAgentNumber.icon self = Returns (VStr s) \/
  HTTPAgentDeviceTracker.icon self = Returns (VStr s) ->
  s = "" \/ exists rest, s = "mdi:" ++ rest.
Proof.
  destruct (icons_agree self) as (-> & -> & ->).
  intros Hi. assert (H : HTTPAgentSensor.icon self = Returns (VStr s)) by tauto.
  apply icon_output in H as [Hf | [rest Hr]].
  - left. by destruct s.
  - right. exists rest. by injection Hr.
Qed.

Lemma icon_string_has_prefix_witness :
  HTTPAgentDeviceTracker.icon (entity_with (Some icon_snapshot) "temp")
    = Returns (VStr "mdi:home") /\
  ("mdi:home" = "" \/ exists rest, "mdi:home" = "mdi:" ++ rest).
Proof.
  split; [reflexivity|].
  apply (icon_string_has_prefix (entity_with (Some icon_snapshot) "temp")).
  right. right. right. reflexivity.
Defined.

(** X4: normalising is idempotent.  A value an icon property has returned,
    put back as the [icon] field of a record, is returned unchanged. *)
Theorem icon_idempotent (self self' : Entity) (snap' : Snapshot) (v : PyVal) :
  HTTPAgentSensor.icon self = Returns v ->
  data (coordinator self') = Some snap' -> snap' ≠ ∅ ->
  field snap' (sensor_name self') "icon" = v ->
  HTTPAgentSensor.icon self' = Returns v.
Proof.
  intros Hv Hd Hne Hf. rewrite (icon_of_field self' snap' Hd Hne), Hf. cbv zeta.
  apply icon_output in Hv as [Ht | [rest ->]].
  - by rewrite Ht.
  - assert (Hp : Py.startswith ("mdi:" ++ rest) "mdi:" = true)
      by (apply prefix_app; by exists rest).
    change (Py.truthy (VStr ("mdi:" ++ rest))) with true. cbv iota.
    by rewrite Hp.
Qed.

Lemma icon_idempotent_witness :
  HTTPAgentSensor.icon (entity_with (Some icon_snapshot) "temp")
    = Returns (VStr "mdi:home") /\
  field {[ "temp" := {[ "icon" := VStr "mdi:home" ]} ]} "temp" "icon"
    = VStr "mdi:home" /\
  HTTPAgentSensor.icon
    (entity_with (Some {[ "temp" := {[ "icon" := VStr "mdi:home" ]} ]}) "temp")
    = Returns (VStr "mdi:home").
Proof.
  split; [reflexivity|]. split; [reflexivity|].
  apply (icon_idempotent (entity_with (Some icon_snapshot) "temp")
           (entity_with (Some {[ "temp" := {[ "icon" := VStr "mdi:home" ]} ]}) "temp")
           {[ "temp" := {[ "icon" := VStr "mdi:home" ]} ]}).
  - reflexivity.
  - reflexivity.
  - apply (lookup_nonempty _ "temp" {[ "icon" := VStr "mdi:home" ]}). reflexivity.
  - reflexivity.
Defined.

(** X5: an icon property raises exactly when the [icon] field is truthy
    and not a string (a number, [True], a non-empty list or dict), and the
    exception is then [AttributeError]; a falsy value of any type is
    returned as it is. *)
Theorem icon_raises_iff (self : Entity) (snap : Snapshot) :
  data (coordinator self) = Some snap -> snap ≠ ∅ ->
  let icon := field snap (sensor_name self) "icon" in
  ((exists e, HTTPAgentSensor.icon self = Raises e) <->
   Py.truthy icon = true /\ forall s, icon <> VStr s) /\
  (forall e, HTTPAgentSensor.icon self = Raises e -> e = AttributeError) /\
  (Py.truthy icon = false -> HTTPAgentSensor.icon self = Returns icon).
Proof.
  intros Hd Hne icon. rewrite (icon_of_field self snap Hd Hne). fold icon. cbv zeta.
  destruct (Py.truthy icon) eqn:Ht.
  - destruct icon as [| | | |s| |] eqn:Hi; try discriminate Ht;
      try (split; [split; [intros _; split; [done | discriminate]
                          | intros _; by eexists]
                  | split; [by intros e [= <-] | discriminate]]).
    split; [|split; [|discriminate]].
    + split.
      * intros [e He]. by destruct (negb (Py.startswith s "mdi:")).
      * intros [_ Hs]. by destruct (Hs s).
    + intros e He. by destruct (negb (Py.startswith s "mdi:")).
  - split; [|split; [discriminate | done]].
    split; [intros [e He]; discriminate He | intros [Hf _]; discriminate Hf].
Qed.

Lemma icon_raises_iff_witness :
  data (coordinator (entity_with (Some {[ "temp" := {[ "icon" := VInt 5 ]} ]}) "temp"))
    = Some {[ "temp" := {[ "icon" := VInt 5 ]} ]} /\
  HTTPAgentSensor.icon (entity_with (Some {[ "temp" := {[ "icon" := VInt 5 ]} ]}) "temp")
    = Raises AttributeError.
Proof.
  split; [reflexivity|].
  assert (Hne : ({[ "temp" := {[ "icon" := VInt 5 ]} ]} : Snapshot) ≠ ∅).
  { apply (lookup_nonempty _ "temp" {[ "icon" := VInt 5 ]}). reflexivity. }
  destruct (icon_raises_iff
              (entity_with (Some {[ "temp" := {[ "icon" := VInt 5 ]} ]}) "temp")
              {[ "temp" := {[ "icon" := VInt 5 ]} ]} eq_refl Hne)
    as ([_ Hraise] & Hattr & _).
  destruct Hraise as [e He]; [split; [reflexivity | discriminate]|].
  rewrite He. f_equal. exact (Hattr e He).
Defined.

(** ** Extra attributes *)

Lemma dict_item_get (d : SensorData) (key : string) :
  dict_get d key <> VNone -> dict_item d key = Returns (dict_get d key).
Proof.
  unfold dict_get, dict_item. by destruct (d !! key).
Qed.

Lemma add_color_result (sensor_data attributes : SensorData) :
  add_color sensor_data attributes =
    Returns (if Py.truthy (dict_get sensor_data "color")
             then <["color" := dict_get sensor_data "color"]> attributes
             else attributes).
Proof.
  unfold add_color.
  destruct (Py.truthy (dict_get sensor_data "color")) eqn:Ht; [|reflexivity].
  rewrite dict_item_get; [reflexivity|]. intros Hn. by rewrite Hn in Ht.
Qed.

(** X6: the extra attributes of a sensor, a binary sensor and a number are
    computed without an exception and are the same mapping: it holds the
    [color] field under the key [color] exactly when that field is truthy,
    and no other key. *)
Theorem color_attribute (self : Entity) (snap : Snapshot) :
  data (coordinator self) = Some snap -> snap ≠ ∅ ->
  let color := field snap (sensor_name self) "color" in
  exists attributes : SensorData,
    HTTPAgentSensor.extra_state_attributes self = Returns attributes /\
    HTTPAgentBinarySensor.extra_state_attributes self = Returns attributes /\
    HTTPAgentNumber.extra_state_attributes self = Returns attributes /\
    (forall v, attributes !! "color" = Some v <-> color = v /\ Py.truthy v = true) /\
    (forall key, key <> "color" -> attributes !! key = None).
Proof.
  intros Hd Hne color.
  unfold HTTPAgentSensor.extra_state_attributes,
    HTTPAgentBinarySensor.extra_state_attributes,
    HTTPAgentNumber.extra_state_attributes.
  rewrite Hd, (no_data_nonempty _ Hne), add_color_result, dict_get_field. fold color.
  eexists. split; [reflexivity|]. split; [reflexivity|]. split; [reflexivity|].
  destruct (Py.truthy color) eqn:Ht; split.
  - intros v. rewrite lookup_insert_eq. split.
    + by intros [= <-].
    + by intros [-> _].
  - intros key Hk. rewrite lookup_insert_ne; [apply lookup_empty | done].
  - intros v. rewrite lookup_empty. split; [discriminate|].
    intros [<- Hv]. congruence.
  - intros key _. apply lookup_empty.
Qed.

Lemma color_attribute_witness :
  data (coordinator
          (entity_with (Some {[ "temp" := {[ "color" := VStr "red" ]} ]}) "temp"))
    = Some {[ "temp" := {[ "color" := VStr "red" ]} ]} /\
  exists attributes : SensorData,
    HTTPAgentSensor.extra_state_attributes
      (entity_with (Some {[ "temp" := {[ "color" := VStr "red" ]} ]}) "temp")
      = Returns attributes /\
    attributes !! "color" = Some (VStr "red").
Proof.
  split; [reflexivity|].
  assert (Hne : ({[ "temp" := {[ "color" := VStr "red" ]} ]} : Snapshot) ≠ ∅).
  { apply (lookup_nonempty _ "temp" {[ "color" := VStr "red" ]}). reflexivity. }
  destruct (color_attribute
              (entity_with (Some {[ "temp" := {[ "color" := VStr "red" ]} ]}) "temp")
              {[ "temp" := {[ "color" := VStr "red" ]} ]} eq_refl Hne)
    as (attributes & Hs & _ & _ & Hcolor & _).
  exists attributes. split; [exact Hs|]. apply Hcolor. split; reflexivity.
Defined.

Lemma dict_item_field (snap : Snapshot) (name key : string) :
  field snap name key <> VNone ->
  dict_item (sensor_data_of (Some snap) name) key = Returns (field snap name key).
Proof.
  intros Hn. rewrite <- dict_get_field in *. by apply dict_item_get.
Qed.

Lemma bind_returns {A B : Type} (a : A) (k : A -> Outcome B) :
  (Returns a ≫= k) = k a.
Proof. reflexivity. Qed.

Lemma is_none_spec (v : PyVal) :
  (is_none v = true /\ v = VNone) \/ (is_none v = false /\ v <> VNone).
Proof. destruct v; (by left) || (by right). Qed.

Lemma tracker_attributes_result (self : Entity) (snap : Snapshot) :
  data (coordinator self) = Some snap -> snap ≠ ∅ ->
  HTTPAgentDeviceTracker.extra_state_attributes self =
    let get := field snap (sensor_name self) in
    let a0 : SensorData :=
      if Py.truthy (get "color") then <["color" := get "color"]> ∅ else ∅ in
    let a1 :=
      if is_none (get "latitude") then a0
      else <["raw_latitude" := get "latitude"]> a0 in
    Returns (if is_none (get "longitude") then a1
             else <["raw_longitude" := get "longitude"]> a1).
Proof.
  intros Hd Hne. unfold HTTPAgentDeviceTracker.extra_state_attributes.
  rewrite Hd, (no_data_nonempty _ Hne), add_color_result, !dict_get_field.
  rewrite bind_returns. cbv zeta.
  set (a0 := if Py.truthy (field snap (sensor_name self) "color")
             then <["color" := field snap (sensor_name self) "color"]> ∅
             else (∅ : SensorData)).
  assert (Hb : forall (key raw : string) (a : SensorData),
            match field snap (sensor_name self) key with
            | VNone => mret a
            | _ => dict_item (sensor_data_of (Some snap) (sensor_name self)) key ≫=
                   (fun v => mret (<[raw := v]> a))
            end =
            Returns (if is_none (field snap (sensor_name self) key) then a
                     else <[raw := field snap (sensor_name self) key]> a)).
  { intros key raw a.
    destruct (is_none_spec (field snap (sensor_name self) key)) as [[-> Hv]|[-> Hv]].
    - by rewrite Hv.
    - rewrite (dict_item_field _ _ _ Hv).
      by destruct (field snap (sensor_name self) key). }
  by rewrite (Hb "latitude" "raw_latitude"), bind_returns,
    (Hb "longitude" "raw_longitude").
Qed.

(** X7: the extra attributes of a tracker are computed without an
    exception.  They hold the [color] field when it is truthy, and the
    [latitude] and [longitude] fields, unconverted, under [raw_latitude] and
    [raw_longitude] whenever they are not [None]: a zero coordinate is
    kept, and so is a value that does not convert to a float.  There is no
    other key. *)
Theorem tracker_attributes (self : Entity) (snap : Snapshot) :
  data (coordinator self) = Some snap -> snap ≠ ∅ ->
  let get := field snap (sensor_name self) in
  exists attributes : SensorData,
    HTTPAgentDeviceTracker.extra_state_attributes self = Returns attributes /\
    (forall v, attributes !! "color" = Some v <->
               get "color" = v /\ Py.truthy v = true) /\
    (forall v, attributes !! "raw_latitude" = Some v <->
               get "latitude" = v /\ v <> VNone) /\
    (forall v, attributes !! "raw_longitude" = Some v <->
               get "longitude" = v /\ v <> VNone) /\
    (forall key, key <> "color" -> key <> "raw_latitude" -> key <> "raw_longitude" ->
                 attributes !! key = None).
Proof.
  intros Hd Hne get. rewrite (tracker_attributes_result self snap Hd Hne).
  fold get. cbv zeta. eexists. split; [reflexivity|].
  set (a0 := if Py.truthy (get "color")
             then <["color" := get "color"]> ∅ else (∅ : SensorData)).
  assert (Hcolor : forall v,
            a0 !! "color" = Some v <-> get "color" = v /\ Py.truthy v = true).
  { intros v. subst a0. destruct (Py.truthy (get "color")) eqn:Ht.
    - rewrite lookup_insert_eq. split; [by intros [= <-] | by intros [-> _]].
    - rewrite lookup_empty. split; [discriminate | intros [<- Hv]; congruence]. }
  assert (Hother : forall key, key <> "color" -> a0 !! key = None).
  { intros key Hk. subst a0. destruct (Py.truthy (get "color")).
    - rewrite lookup_insert_ne; [apply lookup_empty | done].
    - apply lookup_empty. }
  clearbody a0.
  destruct (is_none_spec (get "latitude")) as [[-> Hla]|[-> Hla]],
           (is_none_spec (get "longitude")) as [[-> Hlo]|[-> Hlo]].
  - split; [exact Hcolor|]. split; [|split].
    + intros v. rewrite Hother by done. split; [discriminate|]. intros [<- ?]. done.
    + intros v. rewrite Hother by done. split; [discriminate|]. intros [<- ?]. done.
    + intros key Hk _ _. by apply Hother.
  - split; [|split; [|split]].
    + intros v. rewrite lookup_insert_ne by done. apply Hcolor.
    + intros v. rewrite lookup_insert_ne, Hother by done.
      split; [discriminate|]. intros [<- ?]. done.
    + intros v. rewrite lookup_insert_eq. split; [by intros [= <-] | by intros [-> _]].
    + intros key Hk _ Hr. rewrite lookup_insert_ne by done. by apply Hother.
  - split; [|split; [|split]].
    + intros v. rewrite lookup_insert_ne by done. apply Hcolor.
    + intros v. rewrite lookup_insert_eq. split; [by intros [= <-] | by intros [-> _]].
    + intros v. rewrite lookup_insert_ne, Hother by done.
      split; [discriminate|]. intros [<- ?]. done.
    + intros key Hk Hr _. rewrite lookup_insert_ne by done. by apply Hother.
  - split; [|split; [|split]].
    + intros v. rewrite !lookup_insert_ne by done. apply Hcolor.
    + intros v. rewrite lookup_insert_ne, lookup_insert_eq by done.
      split; [by intros [= <-] | by intros [-> _]].
    + intros v. rewrite lookup_insert_eq. split; [by intros [= <-] | by intros [-> _]].
    + intros key Hk Hr1 Hr2. rewrite !lookup_insert_ne by done. by apply Hother.
Qed.

Lemma tracker_attributes_witness :
  data (coordinator
          (entity_with
             (Some {[ "phone" := {[ "latitude" := VInt 0; "longitude" := VStr "east" ]} ]})
             "phone"))
    = Some {[ "phone" := {[ "latitude" := VInt 0; "longitude" := VStr "east" ]} ]} /\
  exists attributes : SensorData,
    HTTPAgentDeviceTracker.extra_state_attributes
      (entity_with
         (Some {[ "phone" := {[ "latitude" := VInt 0; "longitude" := VStr "east" ]} ]})
         "phone") = Returns attributes /\
    attributes !! "raw_latitude" = Some (VInt 0) /\
    attributes !! "raw_longitude" = Some (VStr "east") /\
    attributes !! "color" = None.
Proof.
  split; [reflexivity|].
  assert (Hne : ({[ "phone" := {[ "latitude" := VInt 0; "longitude" := VStr "east" ]} ]}
                   : Snapshot) ≠ ∅).
  { apply (lookup_nonempty _ "phone"
             {[ "latitude" := VInt 0; "longitude" := VStr "east" ]}).
    reflexivity. }
  destruct (tracker_attributes
              (entity_with
                 (Some {[ "phone" := {[ "latitude" := VInt 0;
                                        "longitude" := VStr "east" ]} ]}) "phone")
              {[ "phone" := {[ "latitude" := VInt 0; "longitude" := VStr "east" ]} ]}
              eq_refl Hne)
    as (attributes & Ha & Hcolor & Hlat & Hlng & _).
  exists attributes. split; [exact Ha|]. split; [|split].
  - apply Hlat. split; [reflexivity | discriminate].
  - apply Hlng. split; [reflexivity | discriminate].
  - destruct (attributes !! "color") as [v|] eqn:Hc; [|reflexivity].
    destruct (proj1 (Hcolor v) eq_refl) as [Hv Ht].
    vm_compute in Hv. subst v. discriminate Ht.
Defined.

(** ** Conversions to a float: exceptions and warnings *)

Lemma float_raises (str_to_float : string -> option spec_float) (v : PyVal) (e : Exn) :
  Py.float str_to_float v = Raises e ->
  ValueError_or_TypeError e = false ->
  e = OverflowError /\
  exists n, v = VInt n /\ Py.float_of_int n = Raises OverflowError.
Proof.
  destruct v as [|b|n|f|s|items|items]; simpl; intros He Hc;
    try (injection He as <-; discriminate Hc); try discriminate He.
  - unfold Py.float_of_int in *.
    destruct (binary_normalize Py.prec Py.emax n 0 false) eqn:Hn;
      try discriminate He.
    injection He as <-. split; [reflexivity|]. exists n. split; [reflexivity|].
    by rewrite Hn.
  - destruct (str_to_float s); [discriminate He|]. injection He as <-. discriminate Hc.
Qed.

(** The three conversions share one shape: the outcome and the log in
    terms of the field and of [float]. *)
Lemma number_native_value_of_field
    (str_to_float : string -> option spec_float) (self : Entity) (snap : Snapshot) :
  data (coordinator self) = Some snap -> snap ≠ ∅ ->
  let state := field snap (sensor_name self) "state" in
  HTTPAgentNumber.native_value str_to_float self =
    if is_none state then (Returns None, [])
    else match Py.float str_to_float state with
         | Returns f => (Returns (Some f), [])
         | Raises e =>
             if ValueError_or_TypeError e then
               (Returns None,
                [ {| log_level := "WARNING";
                     log_format := "Could not convert state '%s' to number for %s";
                     log_args := [state; VStr (sensor_name self)] |} ])
             else (Raises e, [])
         end.
Proof.
  intros Hd Hne state. unfold HTTPAgentNumber.native_value.
  rewrite Hd, (no_data_nonempty _ Hne), dict_get_field. fold state.
  by destruct state.
Qed.



(** X9: a number entity logs at most one warning, and it logs one exactly
    when its state field is present and not [None] and yet its value is
    [None]: a [None] value without a warning means that there is no
    state, one with a warning that the state does not convert. *)
Theorem number_warning_iff
    (str_to_float : string -> option spec_float) (self : Entity) (snap : Snapshot) :
  data (coordinator self) = Some snap -> snap ≠ ∅ ->
  let state := field snap (sensor_name self) "state" in
  let result := HTTPAgentNumber.native_value str_to_float self in
  (snd result <> [] <-> fst result = Returns None /\ state <> VNone) /\
  (length (snd result) <= 1)%nat.
Proof.
  intros Hd Hne state result. subst result.
  rewrite (number_native_value_of_field str_to_float self snap Hd Hne).
  fold state. cbv zeta.
  destruct (is_none_spec state) as [[-> Hs] | [-> Hs]].
  - simpl. split; [|lia]. split; [done | by intros [_ ?]].
  - destruct (Py.float str_to_float state) as [f|e].
    + simpl. split; [|lia]. split; [done | intros [? _]; discriminate].
    + destruct (ValueError_or_TypeError e); simpl; (split; [|lia]).
      * split; [done | discriminate].
      * split; [done | intros [? _]; discriminate].
Qed.

Lemma number_warning_iff_witness :
  data (coordinator
          (entity_with (Some {[ "level" := {[ "state" := VStr "high" ]} ]}) "level"))
    = Some {[ "level" := {[ "state" := VStr "high" ]} ]} /\
  snd (HTTPAgentNumber.native_value decimal_literal_float
         (entity_with (Some {[ "level" := {[ "state" := VStr "high" ]} ]}) "level"))
    <> [].
Proof.
  split; [reflexivity|].
  assert (Hne : ({[ "level" := {[ "state" := VStr "high" ]} ]} : Snapshot) ≠ ∅).
  { apply (lookup_nonempty _ "level" {[ "state" := VStr "high" ]}). reflexivity. }
  destruct (number_warning_iff decimal_literal_float
              (entity_with (Some {[ "level" := {[ "state" := VStr "high" ]} ]}) "level")
              {[ "level" := {[ "state" := VStr "high" ]} ]} eq_refl Hne)
    as [[_ Hlog] _].
  apply Hlog. split; [reflexivity | discriminate].
Defined.

(** ** A declared sensor that the snapshot omits *)

(** X10: when a non-empty snapshot has no record for the sensor, no
    property raises: the state, [is_on], the number value, the coordinates,
    the location name and the icon are [None], nothing is logged, the
    source type is [GPS] and the extra attributes are empty. *)
Theorem omitted_sensor_renders_nothing
    (str_to_float : string -> option spec_float)
    (str_of_value : PyVal -> Outcome string) (self : Entity) (snap : Snapshot) :
  data (coordinator self) = Some snap -> snap ≠ ∅ ->
  snap !! sensor_name self = None ->
  HTTPAgentSensor.native_value self = VNone /\
  HTTPAgentBinarySensor.is_on self = None /\
  HTTPAgentNumber.native_value str_to_float self = (Returns None, []) /\
  HTTPAgentDeviceTracker.latitude str_to_float self = (Returns None, []) /\
  HTTPAgentDeviceTracker.longitude str_to_float self = (Returns None, []) /\
  HTTPAgentDeviceTracker.location_name str_of_value self = Returns None /\
  HTTPAgentDeviceTracker.source_type self = Returns GPS /\
  HTTPAgentSensor.icon self = Returns VNone /\
  HTTPAgentBinarySensor.icon self = Returns VNone /\
  HTTPAgentNumber.icon self = Returns VNone /\
  HTTPAgentDeviceTracker.icon self = Returns VNone /\
  HTTPAgentSensor.extra_state_attributes self = Returns ∅ /\
  HTTPAgentBinarySensor.extra_state_attributes self = Returns ∅ /\
  HTTPAgentNumber.extra_state_attributes self = Returns ∅ /\
  HTTPAgentDeviceTracker.extra_state_attributes self = Returns ∅.
Proof.
  intros Hd Hne Hnone.
  assert (Hsd : sensor_data_of (Some snap) (sensor_name self) = ∅)
    by (unfold sensor_data_of; by rewrite Hnone).
  unfold HTTPAgentSensor.native_value, HTTPAgentBinarySensor.is_on,
    HTTPAgentNumber.native_value, HTTPAgentDeviceTracker.latitude,
    HTTPAgentDeviceTracker.longitude, HTTPAgentDeviceTracker.location_name,
    HTTPAgentDeviceTracker.source_type, HTTPAgentSensor.icon,
    HTTPAgentBinarySensor.icon, HTTPAgentNumber.icon, HTTPAgentDeviceTracker.icon,
    HTTPAgentSensor.extra_state_attributes,
    HTTPAgentBinarySensor.extra_state_attributes,
    HTTPAgentNumber.extra_state_attributes,
    HTTPAgentDeviceTracker.extra_state_attributes, add_color.
  rewrite Hd, (no_data_nonempty _ Hne), Hsd.
  unfold dict_get, dict_get_or. rewrite !lookup_empty.
  repeat split.
Qed.

Lemma omitted_sensor_renders_nothing_witness :
  data (coordinator (entity_with (Some door_snapshot) "window")) = Some door_snapshot /\
  door_snapshot ≠ ∅ /\
  door_snapshot !! "window" = None /\
  HTTPAgentBinarySensor.is_on (entity_with (Some door_snapshot) "window") = None /\
  HTTPAgentDeviceTracker.source_type (entity_with (Some door_snapshot) "window")
    = Returns GPS.
Proof.
  split; [reflexivity|]. split; [exact door_snapshot_nonempty|].
  split; [reflexivity|].
  destruct (omitted_sensor_renders_nothing decimal_literal_float text_of_scalar
              (entity_with (Some door_snapshot) "window") door_snapshot
              eq_refl door_snapshot_nonempty eq_refl)
    as (_ & Hon & _ & _ & _ & _ & Hsrc & _).
  split; [exact Hon | exact Hsrc].
Defined.

(** ** Validators: what an accepted value becomes *)

(** X11: whatever [Coerce(int)] followed by [Range] accepts, it returns
    as an int of the range, so that a timeout given as ["30"] is stored as
    [30]; and validating the returned value again returns it unchanged. *)
Theorem coerce_range_normalises
    (str_to_int : string -> option Z) (lo hi : Z) (v out : PyVal) :
  vol.validate str_to_int (vol.All [vol.Coerce_int; vol.Range lo hi]) v = Returns out ->
  (exists n, out = VInt n /\ lo <= n <= hi /\ Py.int str_to_int v = Returns n) /\
  vol.validate str_to_int (vol.All [vol.Coerce_int; vol.Range lo hi]) out = Returns out.
Proof.
  simpl. destruct (Py.int str_to_int v) as [n|e]; simpl.
  - rewrite Z.geb_leb.
    destruct (Z.leb_spec lo n) as [Hlo|Hlo]; [|discriminate].
    destruct (Z.leb_spec n hi) as [Hhi|Hhi]; [|discriminate].
    intros [= <-]. split; [exists n; repeat split; lia|].
    simpl. rewrite Z.geb_leb.
    destruct (Z.leb_spec lo n); [|lia]. destruct (Z.leb_spec n hi); [|lia].
    reflexivity.
  - by destruct (ValueError_or_TypeError e).
Qed.

Lemma coerce_range_normalises_witness :
  vol.validate decimal_literal (vol.All [vol.Coerce_int; vol.Range 1 300]) (VStr "30")
    = Returns (VInt 30) /\
  vol.validate decimal_literal (vol.All [vol.Coerce_int; vol.Range 1 300]) (VInt 30)
    = Returns (VInt 30).
Proof.
  split; [reflexivity|].
  apply (coerce_range_normalises decimal_literal 1 300 (VStr "30") (VInt 30)).
  reflexivity.
Defined.

(** * Setting up a config entry *)

(** ** [__init__.py]: the platforms of an entry *)

Section EntryProperties.
Variables CONF_SENSORS CONF_SENSOR_TYPE : string.
Variable first_refresh : gmap string PyVal -> Outcome Coordinator.
Variable async_close : Coordinator -> Outcome unit.
Variable async_unload_platforms : ha.ConfigEntry -> gset ha.Platform -> bool.

Lemma platform_step (t : PyVal) (needed : gset ha.Platform) (p : ha.Platform) :
  p ∈ (if PyDict.eq_str t "sensor" then {[ ha.SENSOR ]} ∪ needed
       else if PyDict.eq_str t "binary_sensor" then {[ ha.BINARY_SENSOR ]} ∪ needed
       else if PyDict.eq_str t "number" then {[ ha.NUMBER ]} ∪ needed
       else if PyDict.eq_str t "device_tracker" then {[ ha.DEVICE_TRACKER ]} ∪ needed
       else needed)
  <-> p ∈ needed \/ PyDict.eq_str t (platform_word p) = true.
Proof.
  destruct t as [| | | |s| |]; simpl;
    try (split; [by left | intros [?|?]; [done | discriminate]]).
  destruct (String.eqb_spec s "sensor") as [-> | H1].
  { destruct p; simpl; rewrite elem_of_union, elem_of_singleton;
      intuition congruence. }
  destruct (String.eqb_spec s "binary_sensor") as [-> | H2].
  { destruct p; simpl; rewrite elem_of_union, elem_of_singleton;
      intuition congruence. }
  destruct (String.eqb_spec s "number") as [-> | H3].
  { destruct p; simpl; rewrite elem_of_union, elem_of_singleton;
      intuition congruence. }
  destruct (String.eqb_spec s "device_tracker") as [-> | H4].
  { destruct p; simpl; rewrite elem_of_union, elem_of_singleton;
      intuition congruence. }
  split; [by left|]. intros [? | He]; [done|].
  destruct p; simpl in He; apply String.eqb_eq in He; congruence.
Qed.

Lemma needed_platforms_spec (configs : list PyVal) (needed result : gset ha.Platform)
    (p : ha.Platform) :
  http_agent.needed_platforms CONF_SENSOR_TYPE configs needed = Returns result ->
  p ∈ result <->
  p ∈ needed \/
  exists config, In config configs /\
                 type_is CONF_SENSOR_TYPE (platform_word p) config = true.
Proof.
  revert needed. induction configs as [|config rest IH]; intros needed; simpl.
  - intros [= <-]. split; [by left | intros [? | (? & [] & _)]; done].
  - destruct config as [| | | | | |items]; try discriminate. simpl.
    intros Hr. rewrite (IH _ Hr), platform_step. split.
    + intros [[Hn | Ht] | (config & Hin & Ht)].
      * by left.
      * right. exists (VDict items). split; [by left | exact Ht].
      * right. exists config. split; [by right | exact Ht].
    + intros [Hn | (config & [<- | Hin] & Ht)].
      * left. by left.
      * left. by right.
      * right. by exists config.
Qed.

(** X12: when setting up an entry succeeds, the entry is stored with the
    coordinator of the first refresh, no other entry is touched, and the
    platforms stored are the ones handed to the host to set up: a platform
    is among them exactly when some declared sensor is of its type, a
    declaration without a type counting as a plain sensor; the host is not
    called when there is none. *)
Theorem setup_entry_platforms (hass_data hass_data' : gmap string EntryData)
    (entry : ha.ConfigEntry) (forwarded : option (gset ha.Platform)) :
  http_agent.async_setup_entry CONF_SENSORS CONF_SENSOR_TYPE first_refresh
    hass_data entry = Returns (hass_data', forwarded) ->
  exists coordinator needed configs,
    first_refresh (merged_data entry) = Returns coordinator /\
    PyDict.iter (default (VList []) (merged_data entry !! CONF_SENSORS))
      = Returns configs /\
    hass_data' = <[ha.entry_id entry :=
                     {| entry_coordinator := coordinator;
                        entry_platforms := needed |}]> hass_data /\
    (forall p, p ∈ needed <->
               exists config, In config configs /\
                 type_is CONF_SENSOR_TYPE (platform_word p) config = true) /\
    (needed = ∅ -> forwarded = None) /\
    (needed <> ∅ -> forwarded = Some needed).
Proof.
  unfold http_agent.async_setup_entry.
  destruct (first_refresh (merged_data entry)) as [coordinator|e]; [|discriminate].
  rewrite bind_returns.
  destruct (PyDict.iter (default (VList []) (merged_data entry !! CONF_SENSORS)))
    as [configs|e]; [|discriminate].
  rewrite bind_returns.
  destruct (http_agent.needed_platforms CONF_SENSOR_TYPE configs ∅)
    as [needed|e] eqn:Hn; [|discriminate].
  rewrite bind_returns. intros [= <- <-].
  exists coordinator, needed, configs. repeat split; try done.
  - intros Hp. apply (needed_platforms_spec _ _ _ p Hn) in Hp as [Hp | Hp]; [|done].
    by apply not_elem_of_empty in Hp.
  - intros Hex. apply (needed_platforms_spec _ _ _ p Hn). by right.
  - intros ->. by rewrite size_empty.
  - intros Hne. destruct (Nat.eqb_spec (size needed) 0) as [Hz|Hnz]; [|done].
    by apply size_empty_iff, leibniz_equiv in Hz.
Qed.



End EntryProperties.

Lemma setup_entry_platforms_witness :
  http_agent.async_setup_entry "sensors" "type" (fun _ => Returns sample_coordinator)
    ∅ sample_entry
    = Returns ({[ "01J" := sample_entry_data ]},
               Some {[ ha.SENSOR; ha.BINARY_SENSOR ]}) /\
  exists coordinator needed configs,
    (fun _ : gmap string PyVal => Returns sample_coordinator) (merged_data sample_entry)
      = Returns coordinator /\
    PyDict.iter (default (VList []) (merged_data sample_entry !! "sensors"))
      = Returns configs /\
    ({[ "01J" := sample_entry_data ]} : gmap string EntryData)
      = <[ha.entry_id sample_entry :=
            {| entry_coordinator := coordinator; entry_platforms := needed |}]> ∅ /\
    (forall p, p ∈ needed <->
               exists config, In config configs /\
                 type_is "type" (platform_word p) config = true) /\
    (needed = ∅ -> Some ({[ ha.SENSOR; ha.BINARY_SENSOR ]} : gset ha.Platform) = None) /\
    (needed <> ∅ -> Some ({[ ha.SENSOR; ha.BINARY_SENSOR ]} : gset ha.Platform)
                      = Some needed).
Proof.
  assert (Hs : http_agent.async_setup_entry "sensors" "type"
                 (fun _ => Returns sample_coordinator) ∅ sample_entry
               = Returns ({[ "01J" := sample_entry_data ]},
                          Some {[ ha.SENSOR; ha.BINARY_SENSOR ]}))
    by (vm_compute; reflexivity).
  split; [exact Hs|].
  exact (setup_entry_platforms "sensors" "type" (fun _ => Returns sample_coordinator)
           ∅ _ sample_entry _ Hs).
Defined.


(** ** The platforms: which entities are created *)

Section PlatformProperties.
Variables CONF_SENSORS CONF_SENSOR_NAME CONF_SENSOR_TYPE : string.
Variables CONF_SENSOR_DEVICE_CLASS CONF_SENSOR_UNIT DOMAIN : string.
Variable str_of_value : PyVal -> Outcome string.
Variable py_eq : PyVal -> PyVal -> bool.

Local Abbreviation well_formed := (well_formed CONF_SENSOR_NAME).
Local Abbreviation name_of := (name_of CONF_SENSOR_NAME).
Local Abbreviation type_is := (type_is CONF_SENSOR_TYPE).
Local Abbreviation first_named := (first_named CONF_SENSOR_NAME).
Local Abbreviation create_named :=
  (platforms.create_named CONF_SENSORS CONF_SENSOR_NAME CONF_SENSOR_TYPE
     str_of_value py_eq).
Local Abbreviation setup_named :=
  (platforms.setup_named CONF_SENSORS CONF_SENSOR_NAME CONF_SENSOR_TYPE
     str_of_value py_eq).

Lemma well_formed_name (config : PyVal) :
  well_formed config ->
  exists name, name_of config = VStr name /\
               PyDict.getitem config CONF_SENSOR_NAME = Returns (VStr name).
Proof.
  intros (items & name & -> & Hl). exists name. simpl. by rewrite Hl.
Qed.

Lemma well_formed_type (config : PyVal) (word : string) :
  well_formed config ->
  (sensor_type ← PyDict.get config CONF_SENSOR_TYPE (VStr "sensor");
   mret (PyDict.eq_str sensor_type word)) = Returns (type_is word config).
Proof. by intros (items & name & -> & _). Qed.

Lemma find_config_first (configs : list PyVal) (name : string) :
  Forall well_formed configs ->
  platforms.find_config CONF_SENSOR_NAME py_eq configs (VStr name)
    = Returns (default VNone (first_named name configs)).
Proof.
  induction 1 as [|config rest Hwf _ IH]; [reflexivity|].
  destruct (well_formed_name config Hwf) as (n & Hn & Hg).
  simpl. rewrite Hg, bind_returns, Hn. simpl.
  by destruct (String.eqb n name).
Qed.

(** The entity a constructor that takes a name builds for a well-formed
    declaration. *)
Lemma init_named_result (mode : option string) (coordinator : Coordinator)
    (entry : ha.ConfigEntry) (configs : list PyVal) (name : string) :
  merged_data entry !! CONF_SENSORS = Some (VList configs) ->
  Forall well_formed configs ->
  platforms.init_named CONF_SENSORS CONF_SENSOR_NAME str_of_value py_eq
    mode coordinator entry (VStr name) =
  Returns {| obj_coordinator := coordinator;
             obj_entry := entry;
             obj_sensor_name := VStr name;
             obj_attr_name := VStr name;
             obj_attr_unique_id := ha.entry_id entry ++ "_" ++ name;
             obj_attr_mode := mode;
             obj_attr_device_class := None;
             obj_attr_native_unit_of_measurement := None;
             obj_sensor_config := default VNone (first_named name configs) |}.
Proof.
  intros Hd Hwf. unfold platforms.init_named, platforms.unique_id_of, dict_item.
  rewrite Hd. simpl. by rewrite (find_config_first configs name Hwf).
Qed.

Lemma create_named_names (word : string) (mode : option string)
    (coordinator : Coordinator) (entry : ha.ConfigEntry) (configs part : list PyVal) :
  merged_data entry !! CONF_SENSORS = Some (VList configs) ->
  Forall well_formed configs -> Forall well_formed part ->
  exists entities,
    create_named word mode coordinator entry part = Returns entities /\
    map obj_sensor_name entities = map name_of (List.filter (type_is word) part) /\
    Forall (fun entity =>
              exists name,
                obj_sensor_name entity = VStr name /\
                obj_attr_unique_id entity = ha.entry_id entry ++ "_" ++ name /\
                obj_sensor_config entity = default VNone (first_named name configs))
           entities.
Proof.
  intros Hd Hwf Hpart.
  induction Hpart as [|config rest Hc _ (entities & Hr & Hn & Hall)].
  - exists []. by repeat split.
  - destruct Hc as (items & name & -> & Hl).
    cbn [platforms.create_named List.filter].
    unfold PyDict.get at 1. rewrite bind_returns.
    change (PyDict.eq_str (default (VStr "sensor") (PyDict.lookup items CONF_SENSOR_TYPE))
              word) with (type_is word (VDict items)).
    destruct (type_is word (VDict items)) eqn:Ht.
    + unfold PyDict.getitem at 1. rewrite Hl, bind_returns.
      rewrite (init_named_result mode coordinator entry configs name Hd Hwf).
      rewrite bind_returns.
      change (platforms.create_named CONF_SENSORS CONF_SENSOR_NAME CONF_SENSOR_TYPE
                str_of_value py_eq word mode coordinator entry rest)
        with (create_named word mode coordinator entry rest).
      rewrite Hr, bind_returns. eexists. split; [reflexivity|]. split.
      * simpl. rewrite Hl. simpl. by rewrite Hn.
      * constructor; [|exact Hall]. by exists name.
    + exists entities. split; [exact Hr|]. by split.
Qed.

Lemma create_sensors_names (coordinator : Coordinator) (entry : ha.ConfigEntry)
    (configs : list PyVal) :
  Forall well_formed configs ->
  exists entities,
    platforms.create_sensors CONF_SENSOR_NAME CONF_SENSOR_TYPE
      CONF_SENSOR_DEVICE_CLASS CONF_SENSOR_UNIT str_of_value coordinator entry configs
      = Returns entities /\
    map obj_sensor_name entities = map name_of (List.filter (type_is "sensor") configs) /\
    map obj_sensor_config entities = List.filter (type_is "sensor") configs.
Proof.
  induction 1 as [|config rest Hc _ (entities & Hr & Hn & Hcfg)].
  - exists []. by repeat split.
  - destruct Hc as (items & name & -> & Hl).
    cbn [platforms.create_sensors List.filter].
    unfold PyDict.get at 1. rewrite bind_returns.
    change (PyDict.eq_str (default (VStr "sensor") (PyDict.lookup items CONF_SENSOR_TYPE))
              "sensor") with (type_is "sensor" (VDict items)).
    destruct (type_is "sensor" (VDict items)).
    + unfold platforms.init_sensor, platforms.unique_id_of, PyDict.getitem.
      rewrite Hl. simpl. simpl in Hr. rewrite Hr. simpl.
      eexists. split; [reflexivity|]. simpl. rewrite Hl. simpl.
      by rewrite Hn, Hcfg.
    + exists entities. by repeat split.
Qed.



(** ** [sensor.py]: the clean-up of the entity registry *)

Lemma after_underscore_app (prefix rest : string) :
  no_underscore prefix ->
  platforms.after_underscore (prefix ++ "_" ++ rest) = Some rest.
Proof.
  unfold no_underscore. induction prefix as [|c prefix IH]; [reflexivity|].
  simpl. intros Hn. destruct (Ascii.eqb_spec c "_") as [-> | Hc].
  - exfalso. apply Hn. by left.
  - apply IH. intros Hin. apply Hn. by right.
Qed.

Lemma name_in_In (name : string) (names : list PyVal) :
  platforms.name_in name names = true <-> In (VStr name) names.
Proof.
  unfold platforms.name_in. rewrite existsb_exists. split.
  - intros (v & Hin & He). destruct v; try discriminate He.
    apply String.eqb_eq in He. by subst.
  - intros Hin. exists (VStr name). split; [done|]. apply String.eqb_refl.
Qed.

(** X17: the name is read back from a unique id.  When the entry id has no
    underscore, what follows the first underscore of [<entry id>_<name>]
    is the name, so that the clean-up never takes an entity of a sensor
    that is still declared for an obsolete one. *)
Theorem declared_sensor_is_kept (entry : ha.ConfigEntry) (names : list PyVal)
    (entity_entry : ha.RegistryEntry) (name : string) :
  no_underscore (ha.entry_id entry) ->
  ha.unique_id entity_entry = ha.entry_id entry ++ "_" ++ name ->
  In (VStr name) names ->
  platforms.after_underscore (ha.unique_id entity_entry) = Some name /\
  platforms.obsolete DOMAIN entry names entity_entry = false.
Proof.
  intros Hn Hu Hin.
  assert (Ha : platforms.after_underscore (ha.unique_id entity_entry) = Some name)
    by (rewrite Hu; by apply after_underscore_app).
  split; [exact Ha|]. unfold platforms.obsolete. rewrite Ha.
  apply name_in_In in Hin. rewrite Hin. simpl.
  by destruct (_ && _ && _)%bool.
Qed.

Lemma same_id_same_item (registry : list (string * ha.RegistryEntry))
    (a b : string * ha.RegistryEntry) :
  NoDup (map fst registry) -> In a registry -> In b registry -> fst a = fst b -> a = b.
Proof.
  induction registry as [|item rest IH]; [done|].
  simpl. intros Hnd. apply NoDup_cons in Hnd as [Hnotin Hnd].
  intros [<- | Ha] [<- | Hb] Hab.
  - reflexivity.
  - exfalso. apply Hnotin. rewrite Hab. apply list_elem_of_In. by apply in_map.
  - exfalso. apply Hnotin. rewrite <- Hab. apply list_elem_of_In. by apply in_map.
  - by apply IH.
Qed.

Lemma remove_obsolete (entry : ha.ConfigEntry) (names : list PyVal)
    (registry : list (string * ha.RegistryEntry)) :
  NoDup (map fst registry) ->
  platforms.remove_entities
    (platforms.entities_to_remove DOMAIN entry names registry) registry
  = List.filter (fun item => negb (platforms.obsolete DOMAIN entry names (snd item)))
      registry.
Proof.
  intros Hnd. unfold platforms.remove_entities, platforms.entities_to_remove.
  apply filter_ext_in. intros item Hin. f_equal.
  destruct (platforms.obsolete DOMAIN entry names (snd item)) eqn:Ho.
  - apply str_in_In. apply in_map_iff. exists item. split; [done|].
    apply filter_In. by split.
  - destruct (Py.str_in _ _) eqn:Hs; [|reflexivity].
    apply str_in_In, in_map_iff in Hs as (item' & Hf & Hin').
    apply filter_In in Hin' as [Hin' Ho'].
    rewrite (same_id_same_item registry item' item Hnd Hin' Hin Hf) in Ho'.
    congruence.
Qed.

Lemma obsolete_spec (entry : ha.ConfigEntry) (names : list PyVal)
    (entity_entry : ha.RegistryEntry) :
  platforms.obsolete DOMAIN entry names entity_entry = true <->
  ha.config_entry_id entity_entry = ha.entry_id entry /\
  ha.domain entity_entry = "sensor" /\
  ha.platform entity_entry = DOMAIN /\
  exists name, platforms.after_underscore (ha.unique_id entity_entry) = Some name /\
               ~ In (VStr name) names.
Proof.
  unfold platforms.obsolete.
  destruct (String.eqb_spec (ha.config_entry_id entity_entry) (ha.entry_id entry))
    as [He|He]; simpl; [|split; [discriminate | by intros (? & _)]].
  destruct (String.eqb_spec (ha.domain entity_entry) "sensor")
    as [Hd|Hd]; simpl; [|split; [discriminate | by intros (_ & ? & _)]].
  destruct (String.eqb_spec (ha.platform entity_entry) DOMAIN)
    as [Hp|Hp]; simpl; [|split; [discriminate | by intros (_ & _ & ? & _)]].
  destruct (platforms.after_underscore (ha.unique_id entity_entry)) as [name|].
  - rewrite negb_true_iff, <- not_true_iff_false, name_in_In. split.
    + intros Hn. repeat split; try done. by exists name.
    + intros (_ & _ & _ & name' & [= <-] & Hn). exact Hn.
  - split; [discriminate | by intros (_ & _ & _ & name & ? & _)].
Qed.

Lemma filter_split_length {A : Type} (f : A -> bool) (l : list A) :
  (length (List.filter f l) + length (List.filter (fun x => negb (f x)) l))%nat
  = length l.
Proof.
  induction l as [|x l IH]; [reflexivity|]. simpl.
  destruct (f x); simpl; lia.
Qed.

(** X18: the clean-up of the sensor platform, on a registry with distinct
    entity ids, removes an entity exactly when it belongs to this entry, to
    the sensor domain and to this integration, its unique id has an
    underscore, and what follows the first underscore is not the name of a
    declared sensor.  Every other entity stays, in its place, and one line
    is logged per entity removed. *)
Theorem clean_up_removes_obsolete (registry registry' : list (string * ha.RegistryEntry))
    (entry : ha.ConfigEntry) (log : list LogRecord) :
  NoDup (map fst registry) ->
  platforms.clean_up CONF_SENSORS CONF_SENSOR_NAME DOMAIN registry entry
    = Returns (registry', log) ->
  exists sensors configs names,
    merged_data entry !! CONF_SENSORS = Some sensors /\
    PyDict.iter sensors = Returns configs /\
    platforms.current_sensor_names CONF_SENSOR_NAME configs = Returns names /\
    registry' = List.filter
                  (fun item => negb (platforms.obsolete DOMAIN entry names (snd item)))
                  registry /\
    (forall item, In item registry ->
       (In item registry' <->
        ~ (ha.config_entry_id (snd item) = ha.entry_id entry /\
           ha.domain (snd item) = "sensor" /\
           ha.platform (snd item) = DOMAIN /\
           exists name,
             platforms.after_underscore (ha.unique_id (snd item)) = Some name /\
             ~ In (VStr name) names))) /\
    (length log + length registry')%nat = length registry.
Proof.
  intros Hnd. unfold platforms.clean_up, dict_item.
  destruct (merged_data entry !! CONF_SENSORS) as [sensors|] eqn:Hs; [|discriminate].
  rewrite bind_returns.
  destruct (PyDict.iter sensors) as [configs|] eqn:Hi; [|discriminate].
  rewrite bind_returns.
  destruct (platforms.current_sensor_names CONF_SENSOR_NAME configs) as [names|]
    eqn:Hc; [|discriminate].
  rewrite bind_returns. intros [= <- <-].
  exists sensors, configs, names.
  rewrite (remove_obsolete entry names registry Hnd).
  split; [reflexivity|]. split; [exact Hi|]. split; [exact Hc|].
  split; [reflexivity|]. split.
  - intros item Hin. split.
    + intros Hin' Hobs. apply filter_In in Hin' as [_ Hk].
      apply obsolete_spec in Hobs. by rewrite Hobs in Hk.
    + intros Hnot. apply filter_In. split; [done|].
      destruct (platforms.obsolete DOMAIN entry names (snd item)) eqn:Ho; [|done].
      by apply obsolete_spec in Ho.
  - rewrite length_map. unfold platforms.entities_to_remove. rewrite length_map.
    apply (filter_split_length
             (fun item => platforms.obsolete DOMAIN entry names (snd item))).
Qed.

End PlatformProperties.

Lemma declared_sensor_is_kept_witness :
  no_underscore "01J" /\
  platforms.obsolete "http_agent" sample_entry [VStr "temp"; VStr "door"]
    {| ha.config_entry_id := "01J"; ha.domain := "sensor";
       ha.platform := "http_agent"; ha.unique_id := "01J_temp" |} = false.
Proof.
  assert (Hn : no_underscore "01J").
  { unfold no_underscore. simpl. intros [H | [H | [H | []]]]; discriminate H. }
  split; [exact Hn|].
  apply (declared_sensor_is_kept "http_agent" sample_entry [VStr "temp"; VStr "door"]
           {| ha.config_entry_id := "01J"; ha.domain := "sensor";
              ha.platform := "http_agent"; ha.unique_id := "01J_temp" |} "temp").
  - exact Hn.
  - reflexivity.
  - by left.
Defined.


Lemma sample_configs_well_formed : Forall (well_formed "name") sample_configs.
Proof.
  repeat constructor; eexists; eexists; (split; [reflexivity|]); reflexivity.
Qed.



Lemma clean_up_removes_obsolete_witness :
  NoDup (map fst sample_registry) /\
  platforms.clean_up "sensors" "name" "http_agent" sample_registry sample_entry
    = Returns
        ([ ("sensor.temp",
            {| ha.config_entry_id := "01J"; ha.domain := "sensor";
               ha.platform := "http_agent"; ha.unique_id := "01J_temp" |});
           ("sensor.other",
            {| ha.config_entry_id := "02K"; ha.domain := "sensor";
               ha.platform := "http_agent"; ha.unique_id := "02K_old" |}) ],
         [ {| log_level := "INFO";
              log_format := "Removing obsolete sensor entity: %s";
              log_args := [VStr "sensor.old"] |} ]) /\
  exists names,
    platforms.current_sensor_names "name" sample_configs = Returns names /\
    (1 + 2)%nat = length sample_registry.
Proof.
  assert (Hnd : NoDup (map fst sample_registry)).
  { simpl. repeat (apply NoDup_cons; split;
                   [rewrite ?not_elem_of_cons; repeat split; try discriminate;
                    apply not_elem_of_nil|]).
    apply NoDup_nil_2. }
  assert (Hc : platforms.clean_up "sensors" "name" "http_agent" sample_registry
                 sample_entry
               = Returns
                   ([ ("sensor.temp",
                       {| ha.config_entry_id := "01J"; ha.domain := "sensor";
                          ha.platform := "http_agent"; ha.unique_id := "01J_temp" |});
                      ("sensor.other",
                       {| ha.config_entry_id := "02K"; ha.domain := "sensor";
                          ha.platform := "http_agent"; ha.unique_id := "02K_old" |}) ],
                    [ {| log_level := "INFO";
                         log_format := "Removing obsolete sensor entity: %s";
                         log_args := [VStr "sensor.old"] |} ]))
    by (vm_compute; reflexivity).
  split; [exact Hnd|]. split; [exact Hc|].
  destruct (clean_up_removes_obsolete "sensors" "name" "http_agent" sample_registry
              _ sample_entry _ Hnd Hc)
    as (sensors & configs & names & Hs & Hi & Hn & _ & _ & Hlen).
  assert (Hsv : sensors = VList sample_configs).
  { assert (Hd : merged_data sample_entry !! "sensors" = Some (VList sample_configs))
      by reflexivity.
    rewrite Hd in Hs. by injection Hs. }
  subst sensors. simpl in Hi. injection Hi as <-.
  exists names. split; [exact Hn | exact Hlen].
Defined.

(** ** The platforms an entry needs are the platforms that create entities *)

Section NeededPlatforms.
Variables CONF_SENSORS CONF_SENSOR_NAME CONF_SENSOR_TYPE : string.
Variables CONF_SENSOR_DEVICE_CLASS CONF_SENSOR_UNIT : string.
Variable str_of_value : PyVal -> Outcome string.
Variable py_eq : PyVal -> PyVal -> bool.

Lemma needed_platforms_returns (configs : list PyVal) (needed : gset ha.Platform) :
  Forall (well_formed CONF_SENSOR_NAME) configs ->
  exists result,
    http_agent.needed_platforms CONF_SENSOR_TYPE configs needed = Returns result.
Proof.
  intros Hwf. revert needed.
  induction Hwf as [|config rest (items & name & -> & _) _ IH]; intros needed.
  - by exists needed.
  - simpl. apply IH.
Qed.

Lemma filter_nonempty {A : Type} (f : A -> bool) (l : list A) :
  List.filter f l <> [] <-> exists x, In x l /\ f x = true.
Proof.
  split.
  - destruct (List.filter f l) as [|x rest] eqn:Hf; [done|]. intros _.
    exists x. apply filter_In. rewrite Hf. by left.
  - intros (x & Hin & Hx) Hf.
    assert (Hi : In x (List.filter f l)) by (by apply filter_In).
    by rewrite Hf in Hi.
Qed.

(** X19: [__init__.py] and the four platforms agree.  For declarations
    that are dicts with a string name, the loop of [__init__.py] returns a
    set of platforms, every platform creates its entities without an
    exception, and a platform is in the set exactly when it creates at
    least one entity: the host is never asked to set up a platform that
    would stay empty, and no declared sensor is left without its platform. *)
Theorem needed_platforms_create_entities (coordinator : Coordinator)
    (entry : ha.ConfigEntry) (configs : list PyVal) :
  merged_data entry !! CONF_SENSORS = Some (VList configs) ->
  Forall (well_formed CONF_SENSOR_NAME) configs ->
  exists needed,
    http_agent.needed_platforms CONF_SENSOR_TYPE configs ∅ = Returns needed /\
    forall p, exists entities,
      platform_creates CONF_SENSORS CONF_SENSOR_NAME CONF_SENSOR_TYPE
        CONF_SENSOR_DEVICE_CLASS CONF_SENSOR_UNIT str_of_value py_eq
        p coordinator entry configs = Returns entities /\
      (p ∈ needed <-> entities <> []).
Proof.
  intros Hd Hwf.
  destruct (needed_platforms_returns configs ∅ Hwf) as [needed Hn].
  exists needed. split; [exact Hn|]. intros p.
  assert (Hex : exists entities,
            platform_creates CONF_SENSORS CONF_SENSOR_NAME CONF_SENSOR_TYPE
              CONF_SENSOR_DEVICE_CLASS CONF_SENSOR_UNIT str_of_value py_eq
              p coordinator entry configs = Returns entities /\
            map obj_sensor_name entities
              = map (name_of CONF_SENSOR_NAME)
                  (List.filter (type_is CONF_SENSOR_TYPE (platform_word p)) configs)).
  { destruct p; simpl.
    - destruct (create_sensors_names CONF_SENSOR_NAME CONF_SENSOR_TYPE
                  CONF_SENSOR_DEVICE_CLASS CONF_SENSOR_UNIT str_of_value
                  coordinator entry configs Hwf) as (entities & Hr & Hm & _).
      by exists entities.
    - destruct (create_named_names CONF_SENSORS CONF_SENSOR_NAME CONF_SENSOR_TYPE
                  str_of_value py_eq "binary_sensor" None coordinator entry configs
                  configs Hd Hwf Hwf) as (entities & Hr & Hm & _).
      by exists entities.
    - destruct (create_named_names CONF_SENSORS CONF_SENSOR_NAME CONF_SENSOR_TYPE
                  str_of_value py_eq "number" (Some "box") coordinator entry configs
                  configs Hd Hwf Hwf) as (entities & Hr & Hm & _).
      by exists entities.
    - destruct (create_named_names CONF_SENSORS CONF_SENSOR_NAME CONF_SENSOR_TYPE
                  str_of_value py_eq "device_tracker" None coordinator entry configs
                  configs Hd Hwf Hwf) as (entities & Hr & Hm & _).
      by exists entities. }
  destruct Hex as (entities & Hr & Hm). exists entities. split; [exact Hr|].
  rewrite (needed_platforms_spec CONF_SENSOR_TYPE configs ∅ needed p Hn).
  rewrite <- (filter_nonempty (type_is CONF_SENSOR_TYPE (platform_word p)) configs).
  split.
  - intros [He | Hf]; [by apply not_elem_of_empty in He|].
    intros ->. simpl in Hm.
    destruct (List.filter _ configs); [done | discriminate Hm].
  - intros Hne. right. intros Hf. rewrite Hf in Hm. simpl in Hm.
    destruct entities; [done | discriminate Hm].
Qed.

End NeededPlatforms.

Lemma needed_platforms_create_entities_witness :
  merged_data sample_entry !! "sensors" = Some (VList sample_configs) /\
  Forall (well_formed "name") sample_configs /\
  exists needed,
    http_agent.needed_platforms "type" sample_configs ∅ = Returns needed /\
    ha.BINARY_SENSOR ∈ needed /\ ha.NUMBER ∉ needed.
Proof.
  assert (Hd : merged_data sample_entry !! "sensors" = Some (VList sample_configs))
    by reflexivity.
  split; [exact Hd|]. split; [exact sample_configs_well_formed|].
  destruct (needed_platforms_create_entities "sensors" "name" "type" "device_class"
              "unit" text_of_scalar same_scalar sample_coordinator sample_entry
              sample_configs Hd sample_configs_well_formed) as (needed & Hn & Hp).
  exists needed. split; [exact Hn|]. split.
  - destruct (Hp ha.BINARY_SENSOR) as (entities & Hr & Hiff).
    apply Hiff. vm_compute in Hr. injection Hr as <-. discriminate.
  - destruct (Hp ha.NUMBER) as (entities & Hr & Hiff).
    intros Hin. apply Hiff in Hin. apply Hin.
    vm_compute in Hr. by injection Hr as <-.
Defined.

(** * The configuration flow after the URL *)

(** ** Dicts under assignment and update *)

Lemma lookup_dict_set (items : list (string * PyVal)) (key key' : string) (v : PyVal) :
  PyDict.lookup (dict_set items key v) key' =
    if String.eqb key key' then Some v else PyDict.lookup items key'.
Proof.
  induction items as [|[k x] rest IH]; simpl.
  - reflexivity.
  - destruct (String.eqb_spec k key) as [-> | Hk]; simpl.
    + by destruct (String.eqb key key').
    + rewrite IH. destruct (String.eqb_spec k key') as [-> | Hk'].
      * destruct (String.eqb_spec key key') as [-> | _]; done.
      * reflexivity.
Qed.

Lemma lookup_absent (items : list (string * PyVal)) (key : string) :
  key ∉ map fst items -> PyDict.lookup items key = None.
Proof.
  induction items as [|[k x] rest IH]; [reflexivity|]. simpl.
  rewrite not_elem_of_cons. intros [Hk Hrest].
  destruct (String.eqb_spec k key) as [-> | _]; [done | by apply IH].
Qed.

Lemma lookup_dict_update (items other : list (string * PyVal)) (key : string) :
  NoDup (map fst other) ->
  PyDict.lookup (dict_update items other) key =
    match PyDict.lookup other key with
    | Some v => Some v
    | None => PyDict.lookup items key
    end.
Proof.
  unfold dict_update. revert items.
  induction other as [|[k v] rest IH]; intros items Hnd; [reflexivity|].
  simpl in *. apply NoDup_cons in Hnd as [Hk Hnd].
  rewrite (IH _ Hnd), lookup_dict_set.
  destruct (String.eqb_spec k key) as [-> | _]; [|reflexivity].
  by rewrite (lookup_absent rest key Hk).
Qed.

Lemma has_key_dict_update (items other : list (string * PyVal)) (key : string) :
  has_key key items -> has_key key (dict_update items other).
Proof.
  unfold dict_update, has_key. revert items.
  induction other as [|[k v] rest IH]; intros items Hk; [exact Hk|].
  simpl. apply IH. rewrite lookup_dict_set.
  by destruct (String.eqb k key).
Qed.

(** ** Sensors: what a declaration holds once stored *)

Section WizardProperties.
Variable E : env.t.

Lemma lookup_fill (user_input : list (string * PyVal)) (fields : list string)
    (sensor_config : list (string * PyVal)) (key : string) :
  PyDict.lookup
    (fold_left
       (fun sensor_config field =>
          match PyDict.lookup sensor_config field with
          | Some _ => sensor_config
          | None =>
              dict_set sensor_config field
                (default (VStr "") (PyDict.lookup user_input field))
          end) fields sensor_config) key =
    match PyDict.lookup sensor_config key with
    | Some x => Some x
    | None =>
        if Py.str_in key fields
        then Some (default (VStr "") (PyDict.lookup user_input key))
        else None
    end.
Proof.
  revert sensor_config. induction fields as [|field rest IH]; intros sensor_config.
  - simpl. by destruct (PyDict.lookup sensor_config key).
  - cbn [fold_left]. rewrite IH. unfold Py.str_in. cbn [existsb].
    fold (Py.str_in key rest).
    destruct (PyDict.lookup sensor_config field) as [y|] eqn:Hf.
    + destruct (PyDict.lookup sensor_config key) as [x|] eqn:Hk; [reflexivity|].
      destruct (String.eqb_spec key field) as [-> | _]; [congruence | reflexivity].
    + rewrite lookup_dict_set.
      destruct (String.eqb_spec field key) as [-> | Hne].
      * rewrite Hf, String.eqb_refl. reflexivity.
      * destruct (PyDict.lookup sensor_config key); [reflexivity|].
        destruct (String.eqb_spec key field) as [-> | _]; [done | reflexivity].
Qed.

(** X20: [async_step_sensor_config] with input adds exactly one
    declaration to the sensors, clears [current_sensor] and leaves the rest
    of the flow alone.  In the declaration an entry of the input wins over
    the name and type chosen in the step before, these are kept otherwise,
    each of the nine optional fields that is still missing is set to the
    empty string, and there is no other key. *)
Theorem sensor_config_stores_declaration (self : ConfigFlow)
    (current user_input : list (string * PyVal)) :
  cf_current_sensor self = Some current ->
  NoDup (map fst user_input) ->
  exists stored,
    fst (HTTPAgentConfigFlow.async_step_sensor_config E self (Some user_input))
      = {| cf_data := cf_data self;
           cf_headers := cf_headers self;
           cf_sensors := (cf_sensors self ++ [stored])%list;
           cf_current_sensor := None |} /\
    (forall key v, PyDict.lookup user_input key = Some v ->
                   PyDict.lookup stored key = Some v) /\
    (forall key v, PyDict.lookup user_input key = None ->
                   PyDict.lookup current key = Some v ->
                   PyDict.lookup stored key = Some v) /\
    (forall key, PyDict.lookup user_input key = None ->
                 PyDict.lookup current key = None ->
                 PyDict.lookup stored key =
                   if Py.str_in key (HTTPAgentConfigFlow.optional_fields E)
                   then Some (VStr "") else None).
Proof.
  intros Hc Hnd. unfold HTTPAgentConfigFlow.async_step_sensor_config. rewrite Hc.
  eexists. split.
  - unfold HTTPAgentConfigFlow.sensors_form.
    destruct (HTTPAgentConfigFlow.sensor_lines E _); reflexivity.
  - unfold HTTPAgentConfigFlow.fill_optional.
    split; [|split].
    + intros key v Hu.
      by rewrite lookup_fill, (lookup_dict_update current user_input key Hnd), Hu.
    + intros key v Hu Hk.
      by rewrite lookup_fill, (lookup_dict_update current user_input key Hnd), Hu, Hk.
    + intros key Hu Hk.
      rewrite lookup_fill, (lookup_dict_update current user_input key Hnd), Hu, Hk.
      by destruct (Py.str_in key _).
Qed.

(** ** Sensors: every stored declaration is complete *)

Lemma fst_headers_form (self : ConfigFlow) :
  fst (HTTPAgentConfigFlow.headers_form E self) = self.
Proof.
  unfold HTTPAgentConfigFlow.headers_form.
  by destruct (HTTPAgentConfigFlow.header_lines E _).
Qed.

Lemma fst_sensors_form (self : ConfigFlow) :
  fst (HTTPAgentConfigFlow.sensors_form E self) = self.
Proof.
  unfold HTTPAgentConfigFlow.sensors_form.
  by destruct (HTTPAgentConfigFlow.sensor_lines E _).
Qed.

Lemma fst_sensor_config_form (self : ConfigFlow) :
  fst (HTTPAgentConfigFlow.sensor_config_form E self) = self.
Proof.
  unfold HTTPAgentConfigFlow.sensor_config_form.
  destruct (cf_current_sensor self) as [current|]; [|reflexivity].
  by destruct (PyDict.getitem (VDict current) _).
Qed.

Ltac split_cases :=
  repeat match goal with
         | |- context [match ?x with _ => _ end] =>
             match type of x with
             | ConfigFlow * _ => fail 1
             | _ => destruct x eqn:?
             end
         end.

(** What a call can do to the sensors: nothing, choose the sensor to
    configure, or store the configured sensor. *)
Lemma step_effect (step_id : HTTPAgentConfigFlow.StepId) (self : ConfigFlow)
    (user_input : option (list (string * PyVal))) :
  let self' := fst (HTTPAgentConfigFlow.async_step E step_id self user_input) in
  (cf_sensors self' = cf_sensors self /\
   cf_current_sensor self' = cf_current_sensor self) \/
  (cf_sensors self' = cf_sensors self /\
   exists name sensor_type,
     cf_current_sensor self' =
       Some (dict_set (dict_set [] (env.CONF_SENSOR_NAME E) name)
               (env.CONF_SENSOR_TYPE E) sensor_type)) \/
  (exists current input,
     cf_current_sensor self = Some current /\
     cf_sensors self' =
       (cf_sensors self ++
        [HTTPAgentConfigFlow.fill_optional E input (dict_update current input)])%list /\
     cf_current_sensor self' = None).
Proof.
  cbv zeta.
  destruct step_id; cbn [HTTPAgentConfigFlow.async_step];
    unfold HTTPAgentConfigFlow.async_step_headers,
      HTTPAgentConfigFlow.async_step_add_header,
      HTTPAgentConfigFlow.async_step_payload,
      HTTPAgentConfigFlow.async_step_sensors,
      HTTPAgentConfigFlow.async_step_add_sensor,
      HTTPAgentConfigFlow.async_step_sensor_config;
    split_cases;
    rewrite ?fst_headers_form, ?fst_sensors_form, ?fst_sensor_config_form;
    unfold HTTPAgentConfigFlow.set_data, HTTPAgentConfigFlow.add_header_form,
      HTTPAgentConfigFlow.add_sensor_form, HTTPAgentConfigFlow.payload_form,
      HTTPAgentConfigFlow.show;
    cbn [fst snd cf_sensors cf_current_sensor]; eauto 10.
Qed.

Lemma has_key_fill (input items : list (string * PyVal)) (key : string) :
  has_key key items ->
  has_key key (HTTPAgentConfigFlow.fill_optional E input items).
Proof.
  unfold has_key, HTTPAgentConfigFlow.fill_optional. rewrite lookup_fill.
  by destruct (PyDict.lookup items key).
Qed.

Lemma fill_has_optional (input items : list (string * PyVal)) (field : string) :
  In field (HTTPAgentConfigFlow.optional_fields E) ->
  has_key field (HTTPAgentConfigFlow.fill_optional E input items).
Proof.
  intros Hin. unfold has_key, HTTPAgentConfigFlow.fill_optional. rewrite lookup_fill.
  destruct (PyDict.lookup items field); [done|].
  apply str_in_In in Hin. by rewrite Hin.
Qed.

Lemma step_keeps_invariant (step_id : HTTPAgentConfigFlow.StepId) (self : ConfigFlow)
    (user_input : option (list (string * PyVal))) :
  flow_invariant E self ->
  flow_invariant E (fst (HTTPAgentConfigFlow.async_step E step_id self user_input)).
Proof.
  intros [Hs Hc]. unfold flow_invariant.
  destruct (step_effect step_id self user_input)
    as [[-> ->] | [[-> (name & sensor_type & ->)] | (current & input & Hcur & -> & ->)]].
  - by split.
  - split; [exact Hs|]. intros current Hcur.
    assert (Hshape : current = dict_set (dict_set [] (env.CONF_SENSOR_NAME E) name)
                                 (env.CONF_SENSOR_TYPE E) sensor_type) by congruence.
    rewrite Hshape. unfold has_key.
    rewrite !(lookup_dict_set _ _ _), !String.eqb_refl.
    split; [|discriminate].
    destruct (String.eqb _ _); discriminate.
  - split; [|discriminate]. apply Forall_app. split; [exact Hs|].
    constructor; [|constructor]. destruct (Hc current Hcur) as [Hn Ht].
    split; [|split].
    + by apply has_key_fill, has_key_dict_update.
    + by apply has_key_fill, has_key_dict_update.
    + intros field Hin. by apply fill_has_optional.
Qed.

Lemma run_keeps_invariant (calls : list (HTTPAgentConfigFlow.StepId
                                         * option (list (string * PyVal))))
    (self : ConfigFlow) :
  flow_invariant E self -> flow_invariant E (HTTPAgentConfigFlow.run E calls self).
Proof.
  unfold HTTPAgentConfigFlow.run. revert self.
  induction calls as [|[step_id user_input] rest IH]; intros self Hinv; [exact Hinv|].
  simpl. apply IH. by apply step_keeps_invariant.
Qed.


(** ** Headers *)

Lemma run_app (calls calls' : list (HTTPAgentConfigFlow.StepId
                                     * option (list (string * PyVal))))
    (self : ConfigFlow) :
  HTTPAgentConfigFlow.run E (calls ++ calls') self =
    HTTPAgentConfigFlow.run E calls' (HTTPAgentConfigFlow.run E calls self).
Proof. apply fold_left_app. Qed.

Lemma add_header_step (self : ConfigFlow) (h : PyVal * PyVal) :
  fst (HTTPAgentConfigFlow.async_step_add_header E self (header_input h)) =
    {| cf_data := cf_data self;
       cf_headers := (cf_headers self ++ [h])%list;
       cf_sensors := cf_sensors self;
       cf_current_sensor := cf_current_sensor self |}.
Proof.
  destruct h as [key value]. unfold HTTPAgentConfigFlow.async_step_add_header.
  cbn. apply fst_headers_form.
Qed.

Lemma add_headers_run (hs : list (PyVal * PyVal)) (self : ConfigFlow) :
  let self' :=
    HTTPAgentConfigFlow.run E
      (map (fun h => (HTTPAgentConfigFlow.add_header, header_input h)) hs) self in
  cf_data self' = cf_data self /\
  cf_headers self' = (cf_headers self ++ hs)%list.
Proof.
  cbv zeta. revert self. induction hs as [|h rest IH]; intros self.
  - split; [reflexivity | by rewrite app_nil_r].
  - unfold HTTPAgentConfigFlow.run in *. cbn [map fold_left fst snd].
    cbn [HTTPAgentConfigFlow.async_step]. rewrite add_header_step.
    destruct (IH {| cf_data := cf_data self;
                    cf_headers := (cf_headers self ++ [h])%list;
                    cf_sensors := cf_sensors self;
                    cf_current_sensor := cf_current_sensor self |}) as [Hd Hh].
    rewrite Hd, Hh. cbn [cf_data cf_headers]. by rewrite <- app_assoc.
Qed.

Lemma headers_done_state (self : ConfigFlow) :
  fst (HTTPAgentConfigFlow.async_step_headers E self (action_input "done")) =
    HTTPAgentConfigFlow.set_data self (env.CONF_HEADERS E) slot_headers.
Proof.
  unfold HTTPAgentConfigFlow.async_step_headers. cbn [action_input].
  change (PyDict.eq_str (HTTPAgentConfigFlow.action_of [("action", VStr "done")]) "add")
    with false.
  change (PyDict.eq_str (HTTPAgentConfigFlow.action_of [("action", VStr "done")]) "done")
    with true.
  cbv beta iota zeta.
  destruct (data_of _ !! env.CONF_METHOD E) as [method|]; [|reflexivity].
  destruct (existsb _ _); [reflexivity | apply fst_sensors_form].
Qed.

(** X22: headers submitted one at a time are kept in the order of
    submission, after those the flow had; choosing "done" at the headers
    step puts the list of headers itself into the data, so that the data
    shows also the headers submitted after that. *)
Theorem headers_stored_in_order (self : ConfigFlow) (hs later : list (PyVal * PyVal)) :
  let submit := map (fun h => (HTTPAgentConfigFlow.add_header, header_input h)) in
  let self' :=
    HTTPAgentConfigFlow.run E
      (submit hs ++ [(HTTPAgentConfigFlow.headers, action_input "done")] ++ submit later)
      self in
  cf_headers self' = (cf_headers self ++ hs ++ later)%list /\
  data_of self' !! env.CONF_HEADERS E =
    Some (VList (map header_dict (cf_headers self ++ hs ++ later))).
Proof.
  cbv zeta. rewrite !run_app.
  destruct (add_headers_run hs self) as [Hd1 Hh1].
  set (self1 := HTTPAgentConfigFlow.run E _ self) in *.
  assert (Hdone : HTTPAgentConfigFlow.run E
                    [(HTTPAgentConfigFlow.headers, action_input "done")] self1
                  = HTTPAgentConfigFlow.set_data self1 (env.CONF_HEADERS E) slot_headers).
  { unfold HTTPAgentConfigFlow.run. cbn [fold_left fst snd].
    cbn [HTTPAgentConfigFlow.async_step]. apply headers_done_state. }
  rewrite Hdone.
  destruct (add_headers_run later
              (HTTPAgentConfigFlow.set_data self1 (env.CONF_HEADERS E) slot_headers))
    as [Hd2 Hh2].
  set (self2 := HTTPAgentConfigFlow.run E _ (HTTPAgentConfigFlow.set_data self1 _ _)) in *.
  assert (Hh : cf_headers self2 = (cf_headers self ++ hs ++ later)%list).
  { rewrite Hh2. unfold HTTPAgentConfigFlow.set_data. cbn [cf_headers].
    by rewrite Hh1, <- app_assoc. }
  split; [exact Hh|].
  unfold data_of. rewrite lookup_fmap, Hd2.
  unfold HTTPAgentConfigFlow.set_data. cbn [cf_data].
  rewrite lookup_insert_eq. cbn. by rewrite Hh.
Qed.

Lemma existsb_eq_str (m : string) (words : list string) :
  existsb (PyDict.eq_str (VStr m)) words = true <-> In m words.
Proof.
  rewrite existsb_exists. split.
  - intros (w & Hin & Heq). cbn in Heq. apply String.eqb_eq in Heq. by subst.
  - intros Hin. exists m. split; [exact Hin|]. cbn. apply String.eqb_refl.
Qed.

(** X23: choosing "done" at the headers step.  With the method under a
    key other than the headers': without a method in the data the step
    raises [KeyError]; with a method of the list of methods with a payload
    it shows the payload form; with another method it shows no form but the
    sensors form. *)
Theorem headers_done_routing (self : ConfigFlow) :
  env.CONF_METHOD E <> env.CONF_HEADERS E ->
  let r := snd (HTTPAgentConfigFlow.async_step_headers E self (action_input "done")) in
  (data_of self !! env.CONF_METHOD E = None -> r = Raises KeyError) /\
  (forall m, data_of self !! env.CONF_METHOD E = Some (VStr m) ->
     (In m (env.HTTP_METHODS_WITH_PAYLOAD E) ->
      exists form, r = Returns (flow_result form) /\
                   result_step_id form = Some "payload") /\
     (~ In m (env.HTTP_METHODS_WITH_PAYLOAD E) ->
      forall result, r = Returns result ->
        exists form, result = flow_result form /\
                     result_step_id form = Some "sensors")).
Proof.
  intros Hne. cbv zeta.
  assert (Hsame : data_of (HTTPAgentConfigFlow.set_data self (env.CONF_HEADERS E)
                             slot_headers) !! env.CONF_METHOD E
                  = data_of self !! env.CONF_METHOD E).
  { unfold data_of, HTTPAgentConfigFlow.set_data. cbn [cf_data cf_headers cf_sensors].
    rewrite !lookup_fmap, lookup_insert_ne by congruence. reflexivity. }
  unfold HTTPAgentConfigFlow.async_step_headers. cbn [action_input].
  change (PyDict.eq_str (HTTPAgentConfigFlow.action_of [("action", VStr "done")]) "add")
    with false.
  change (PyDict.eq_str (HTTPAgentConfigFlow.action_of [("action", VStr "done")]) "done")
    with true.
  cbv beta iota zeta. rewrite Hsame. split.
  - intros ->. reflexivity.
  - intros m ->. split.
    + intros Hin. apply existsb_eq_str in Hin. rewrite Hin.
      unfold HTTPAgentConfigFlow.payload_form, HTTPAgentConfigFlow.show.
      cbn [snd]. eexists. split; reflexivity.
    + intros Hnot result.
      destruct (existsb _ _) eqn:Hex; [by apply existsb_eq_str in Hex|].
      unfold HTTPAgentConfigFlow.sensors_form.
      destruct (HTTPAgentConfigFlow.sensor_lines E _); [|discriminate].
      unfold HTTPAgentConfigFlow.show. cbn [snd]. intros [= <-].
      eexists. split; reflexivity.
Qed.

(** ** The entry *)

Lemma headers_form_shows (self : ConfigFlow) (title : string)
    (entry_data : gmap string PyVal) :
  snd (HTTPAgentConfigFlow.headers_form E self)
    <> Returns (flow_result (async_create_entry title entry_data)).
Proof.
  unfold HTTPAgentConfigFlow.headers_form.
  by destruct (HTTPAgentConfigFlow.header_lines E _).
Qed.

Lemma sensors_form_shows (self : ConfigFlow) (title : string)
    (entry_data : gmap string PyVal) :
  snd (HTTPAgentConfigFlow.sensors_form E self)
    <> Returns (flow_result (async_create_entry title entry_data)).
Proof.
  unfold HTTPAgentConfigFlow.sensors_form.
  by destruct (HTTPAgentConfigFlow.sensor_lines E _).
Qed.

Lemma sensor_config_form_shows (self : ConfigFlow) (title : string)
    (entry_data : gmap string PyVal) :
  snd (HTTPAgentConfigFlow.sensor_config_form E self)
    <> Returns (flow_result (async_create_entry title entry_data)).
Proof.
  unfold HTTPAgentConfigFlow.sensor_config_form.
  destruct (cf_current_sensor self) as [current|]; [|done].
  by destruct (PyDict.getitem (VDict current) _).
Qed.

Lemma eq_str_spec (v : PyVal) (word : string) :
  PyDict.eq_str v word = true -> v = VStr word.
Proof.
  destruct v; try discriminate. cbn. intros Heq. apply String.eqb_eq in Heq. by subst.
Qed.

Lemma action_of_done (input : list (string * PyVal)) :
  PyDict.eq_str (HTTPAgentConfigFlow.action_of input) "done" = true ->
  PyDict.lookup input "action" = Some (VStr "done").
Proof.
  intros Heq. apply eq_str_spec in Heq. unfold HTTPAgentConfigFlow.action_of in Heq.
  destruct (PyDict.lookup input "action") as [v|]; [|discriminate].
  cbn in Heq. by subst.
Qed.

Lemma data_of_set_other (self : ConfigFlow) (key key' : string) (slot : DataSlot) :
  key' <> key ->
  data_of (HTTPAgentConfigFlow.set_data self key slot) !! key' = data_of self !! key'.
Proof.
  intros Hne. unfold data_of, HTTPAgentConfigFlow.set_data.
  cbn [cf_data cf_headers cf_sensors].
  rewrite !lookup_fmap, lookup_insert_ne by congruence. reflexivity.
Qed.

(** X24: a call of one of the six steps after the first returns an entry
    only when it is the sensors step, the action chosen is "done" and there
    is a sensor; then the URL of the
    entry was parsed, the title is ["HTTP Agent - "] and the host of the
    URL, no entry is configured under the unique id of the URL, and the
    data of the entry are those of the flow under every key but that of the
    sensors. *)
Theorem entry_only_from_sensors_done (step_id : HTTPAgentConfigFlow.StepId)
    (self : ConfigFlow) (user_input : option (list (string * PyVal)))
    (title : string) (entry_data : gmap string PyVal) :
  snd (HTTPAgentConfigFlow.async_step E step_id self user_input)
    = Returns (flow_result (async_create_entry title entry_data)) ->
  step_id = HTTPAgentConfigFlow.sensors /\
  (exists input, user_input = Some input /\
                 PyDict.lookup input "action" = Some (VStr "done")) /\
  cf_sensors self <> [] /\
  (exists url parsed_url,
     entry_data !! env.CONF_URL E = Some url /\
     env.urlparse E url = Returns parsed_url /\
     title = "HTTP Agent - " ++ netloc (parsed parsed_url) /\
     env.unique_id_configured E (HTTPAgentConfigFlow.entry_unique_id parsed_url)
       = false) /\
  (forall key, key <> env.CONF_SENSORS E -> entry_data !! key = data_of self !! key).
Proof.
  destruct step_id; cbn [HTTPAgentConfigFlow.async_step].
  - unfold HTTPAgentConfigFlow.async_step_headers. intros Hr. exfalso.
    destruct user_input as [input|]; [|by eapply headers_form_shows].
    destruct (PyDict.eq_str _ "add"); [discriminate|].
    destruct (PyDict.eq_str _ "done"); [|by eapply headers_form_shows].
    cbv zeta in Hr.
    destruct (data_of _ !! env.CONF_METHOD E) as [method|]; [|discriminate].
    destruct (existsb _ _); [discriminate | by eapply sensors_form_shows].
  - unfold HTTPAgentConfigFlow.async_step_add_header. intros Hr. exfalso.
    destruct user_input as [input|]; [|discriminate].
    destruct (PyDict.getitem _ "key"); [|discriminate].
    destruct (PyDict.getitem _ "value"); [|discriminate].
    by eapply headers_form_shows.
  - unfold HTTPAgentConfigFlow.async_step_payload. intros Hr. exfalso.
    destruct user_input as [input|]; [|discriminate].
    destruct (PyDict.getitem _ _); [|discriminate].
    by eapply sensors_form_shows.
  - unfold HTTPAgentConfigFlow.async_step_sensors. intros Hr.
    destruct user_input as [input|]; [|exfalso; by eapply sensors_form_shows].
    destruct (PyDict.eq_str _ "add"); [discriminate|].
    destruct (PyDict.eq_str _ "done") eqn:Hdone;
      [|exfalso; by eapply sensors_form_shows].
    destruct (cf_sensors self) as [|s rest] eqn:Hsens; [discriminate|].
    cbv zeta in Hr. unfold dict_item in Hr.
    destruct (data_of _ !! env.CONF_URL E) as [url|] eqn:Hurl; [|discriminate].
    cbn in Hr.
    destruct (env.urlparse E url) as [parsed_url|e] eqn:Hparse; [|discriminate].
    destruct (env.unique_id_configured E _) eqn:Hid; [discriminate|].
    injection Hr as <- <-.
    split; [reflexivity|]. split; [|split; [discriminate|split]].
    + exists input. split; [reflexivity | by apply action_of_done].
    + by exists url, parsed_url.
    + intros key Hne. by apply data_of_set_other.
  - unfold HTTPAgentConfigFlow.async_step_add_sensor. intros Hr. exfalso.
    destruct user_input as [input|]; [|discriminate].
    destruct (PyDict.getitem _ (env.CONF_SENSOR_NAME E)); [|discriminate].
    destruct (PyDict.getitem _ (env.CONF_SENSOR_TYPE E)); [|discriminate].
    by eapply sensor_config_form_shows.
  - unfold HTTPAgentConfigFlow.async_step_sensor_config. intros Hr. exfalso.
    destruct user_input as [input|]; [|by eapply sensor_config_form_shows].
    destruct (cf_current_sensor self); [|discriminate].
    by eapply sensors_form_shows.
Qed.

(** X26: whatever the type of the sensor, the form of
    [async_step_sensor_config] asks only for fields among the nine the step
    fills in, and its first field, the state, is required; for a device
    tracker the latitude and the longitude are required too. *)
Theorem sensor_config_form_fields (sensor_type : PyVal) :
  let schema := HTTPAgentConfigFlow.sensor_config_schema E sensor_type in
  Forall (fun field => In (vol.marker_key (fst field))
                          (HTTPAgentConfigFlow.optional_fields E)) schema /\
  fst <$> head schema = Some (vol.Required (env.CONF_SENSOR_STATE E) None) /\
  (sensor_type = VStr "device_tracker" ->
   In (vol.Required (env.CONF_TRACKER_LATITUDE E) None) (map fst schema) /\
   In (vol.Required (env.CONF_TRACKER_LONGITUDE E) None) (map fst schema)).
Proof.
  cbv zeta. unfold HTTPAgentConfigFlow.sensor_config_schema.
  split; [|split].
  - destruct (PyDict.eq_str sensor_type "sensor");
      [|destruct (PyDict.eq_str sensor_type "binary_sensor");
        [|destruct (PyDict.eq_str sensor_type "number");
          [|destruct (PyDict.eq_str sensor_type "device_tracker")]]];
      cbn [app];
      repeat match goal with
             | |- Forall _ (_ :: _) => constructor
             | |- Forall _ [] => constructor
             end;
      cbn [fst vol.marker_key]; unfold HTTPAgentConfigFlow.optional_fields;
      cbn [In]; repeat (first [left; reflexivity | right]).
  - destruct (PyDict.eq_str sensor_type "sensor"); [reflexivity|].
    destruct (PyDict.eq_str sensor_type "binary_sensor"); [reflexivity|].
    destruct (PyDict.eq_str sensor_type "number"); [reflexivity|].
    destruct (PyDict.eq_str sensor_type "device_tracker"); reflexivity.
  - intros ->.
    change (PyDict.eq_str (VStr "device_tracker") "sensor") with false.
    change (PyDict.eq_str (VStr "device_tracker") "binary_sensor") with false.
    change (PyDict.eq_str (VStr "device_tracker") "number") with false.
    change (PyDict.eq_str (VStr "device_tracker") "device_tracker") with true.
    cbn [app map fst In]. split.
    + do 3 right. left. reflexivity.
    + do 4 right. left. reflexivity.
Qed.

End WizardProperties.

(** ** The unique id *)

Lemma replace_char_map (c : ascii) (s : string) :
  list_ascii_of_string (replace_char c s) =
    map (fun d => if Ascii.eqb d c then "_"%char else d) (list_ascii_of_string s).
Proof. induction s as [|d rest IH]; [reflexivity|]. cbn. by rewrite IH. Qed.

(** X25: the unique id of an entry is the host, the path and the query of
    the URL put together, with an underscore for every slash, dot, question
    mark, ampersand and equals sign and every other character as it is; so
    none of the five characters is in it. *)
Theorem unique_id_characters (parsed_url : ParsedUrl) :
  let separators := ["/"; "."; "?"; "&"; "="]%char in
  let unique_id := HTTPAgentConfigFlow.entry_unique_id parsed_url in
  list_ascii_of_string unique_id =
    map (fun c => if existsb (Ascii.eqb c) separators then "_"%char else c)
      (list_ascii_of_string
         (netloc (parsed parsed_url) ++ path parsed_url ++ query parsed_url)) /\
  Forall (fun c => ~ In c (list_ascii_of_string unique_id)) separators.
Proof.
  cbv zeta.
  assert (Hmap : list_ascii_of_string (HTTPAgentConfigFlow.entry_unique_id parsed_url) =
            map (fun c => if existsb (Ascii.eqb c) ["/"; "."; "?"; "&"; "="]%char
                          then "_"%char else c)
              (list_ascii_of_string
                 (netloc (parsed parsed_url) ++ path parsed_url ++ query parsed_url))).
  { unfold HTTPAgentConfigFlow.entry_unique_id.
    rewrite !replace_char_map, !map_map. apply map_ext. intros c.
    destruct c as [[] [] [] [] [] [] [] []]; reflexivity. }
  split; [exact Hmap|]. rewrite Hmap.
  assert (Hfree : forall c l,
            existsb (Ascii.eqb c) ["/"; "."; "?"; "&"; "="]%char = true ->
            ~ In c (map (fun c => if existsb (Ascii.eqb c) ["/"; "."; "?"; "&"; "="]%char
                                  then "_"%char else c) l)).
  { intros c l Hc Hin. apply in_map_iff in Hin as (d & Hd & _).
    destruct (existsb (Ascii.eqb d) _) eqn:Hsep.
    - subst c. discriminate.
    - subst c. congruence. }
  repeat constructor; apply Hfree; reflexivity.
Qed.

Lemma sensor_config_stores_declaration_witness :
  cf_current_sensor sample_choice
    = Some [("name", VStr "door"); ("type", VStr "binary_sensor")] /\
  NoDup (map fst [("state", VStr "state"); ("icon", VStr "mdi:door")]) /\
  exists stored,
    cf_sensors
      (fst (HTTPAgentConfigFlow.async_step_sensor_config sample_env sample_choice
              (Some [("state", VStr "state"); ("icon", VStr "mdi:door")])))
      = [stored] /\
    PyDict.lookup stored "icon" = Some (VStr "mdi:door") /\
    PyDict.lookup stored "name" = Some (VStr "door") /\
    PyDict.lookup stored "unit" = Some (VStr "") /\
    PyDict.lookup stored "other" = None.
Proof.
  assert (Hc : cf_current_sensor sample_choice
               = Some [("name", VStr "door"); ("type", VStr "binary_sensor")])
    by reflexivity.
  assert (Hnd : NoDup (map fst [("state", VStr "state"); ("icon", VStr "mdi:door")])).
  { simpl. repeat (apply NoDup_cons; split;
                   [rewrite ?not_elem_of_cons; repeat split; try discriminate;
                    apply not_elem_of_nil|]).
    apply NoDup_nil_2. }
  split; [exact Hc|]. split; [exact Hnd|].
  destruct (sensor_config_stores_declaration sample_env sample_choice _ _ Hc Hnd)
    as (stored & Hfst & Hinput & Hkept & Hfilled).
  exists stored. split; [by rewrite Hfst|]. split; [|split; [|split]].
  - by apply Hinput.
  - by apply Hkept.
  - by rewrite Hfilled.
  - by rewrite Hfilled.
Defined.

Lemma headers_done_routing_witness :
  env.CONF_METHOD sample_env <> env.CONF_HEADERS sample_env /\
  data_of sample_flow !! env.CONF_METHOD sample_env = Some (VStr "POST") /\
  In "POST" (env.HTTP_METHODS_WITH_PAYLOAD sample_env) /\
  exists form,
    snd (HTTPAgentConfigFlow.async_step_headers sample_env sample_flow
           (action_input "done")) = Returns (flow_result form) /\
    result_step_id form = Some "payload".
Proof.
  assert (Hne : env.CONF_METHOD sample_env <> env.CONF_HEADERS sample_env)
    by discriminate.
  assert (Hm : data_of sample_flow !! env.CONF_METHOD sample_env = Some (VStr "POST"))
    by reflexivity.
  assert (Hin : In "POST" (env.HTTP_METHODS_WITH_PAYLOAD sample_env))
    by (left; reflexivity).
  split; [exact Hne|]. split; [exact Hm|]. split; [exact Hin|].
  exact (proj1 (proj2 (headers_done_routing sample_env sample_flow Hne) "POST" Hm) Hin).
Defined.

Lemma entry_only_from_sensors_done_witness :
  snd (HTTPAgentConfigFlow.async_step sample_env HTTPAgentConfigFlow.sensors
         sample_ready (action_input "done"))
    = Returns (flow_result
                 (async_create_entry "HTTP Agent - example.org"
                    (data_of (HTTPAgentConfigFlow.set_data sample_ready "sensors"
                                slot_sensors)))) /\
  cf_sensors sample_ready <> [] /\
  exists url parsed_url,
    env.urlparse sample_env url = Returns parsed_url /\
    "HTTP Agent - example.org" = "HTTP Agent - " ++ netloc (parsed parsed_url).
Proof.
  assert (Hr : snd (HTTPAgentConfigFlow.async_step sample_env HTTPAgentConfigFlow.sensors
                      sample_ready (action_input "done"))
               = Returns (flow_result
                            (async_create_entry "HTTP Agent - example.org"
                               (data_of (HTTPAgentConfigFlow.set_data sample_ready
                                           "sensors" slot_sensors)))))
    by reflexivity.
  split; [exact Hr|].
  destruct (entry_only_from_sensors_done sample_env _ _ _ _ _ Hr)
    as (_ & _ & Hsens & (url & parsed_url & _ & Hparse & Htitle & _) & _).
  split; [exact Hsens|]. by exists url, parsed_url.
Defined.

(** * Editing the sensors in the options flow *)

Section OptionsProperties.
Variable E : env.t.
Variable py_eq : PyVal -> PyVal -> bool.

Lemma next_index_found (i k : nat) (sensors : list PyVal) (selected : PyVal) :
  HTTPAgentOptionsFlow.next_index E py_eq i sensors selected = inr k ->
  exists j sensor name,
    k = (i + j)%nat /\
    sensors !! j = Some sensor /\
    PyDict.getitem sensor (env.CONF_SENSOR_NAME E) = Returns name /\
    py_eq name selected = true /\
    Forall (other_name E py_eq selected) (take j sensors).
Proof.
  revert i. induction sensors as [|s rest IH]; intros i; [discriminate|].
  cbn [HTTPAgentOptionsFlow.next_index].
  destruct (PyDict.getitem s _) as [name|e] eqn:Hname; [|discriminate].
  destruct (py_eq name selected) eqn:Heq.
  - intros [= <-]. exists 0%nat, s, name.
    split; [lia|]. split; [reflexivity|]. split; [exact Hname|].
    split; [exact Heq | constructor].
  - intros Hrest. destruct (IH _ Hrest) as (j & sensor & name' & -> & Hj & Hn & He & Hbefore).
    exists (S j), sensor, name'.
    split; [lia|]. split; [exact Hj|]. split; [exact Hn|]. split; [exact He|].
    cbn [take]. constructor; [by exists name | exact Hbefore].
Qed.

Lemma next_index_exhausted (i : nat) (sensors : list PyVal) (selected : PyVal) :
  HTTPAgentOptionsFlow.next_index E py_eq i sensors selected = inl RuntimeError <->
  Forall (other_name E py_eq selected) sensors.
Proof.
  revert i. induction sensors as [|s rest IH]; intros i.
  - split; [constructor | reflexivity].
  - cbn [HTTPAgentOptionsFlow.next_index]. split.
    + destruct (PyDict.getitem s _) as [name|e] eqn:Hname; [|discriminate].
      destruct (py_eq name selected) eqn:Heq; [discriminate|].
      intros Hrest. constructor; [by exists name | by eapply IH].
    + intros Hall. apply Forall_cons in Hall as [(name & Hname & Heq) Hrest].
      rewrite Hname, Heq. by apply IH.
Qed.



(** ** Modifying a sensor *)

Lemma lookup_copy_given (user_input sensor_config : list (string * PyVal))
    (key key' : string) :
  PyDict.lookup (HTTPAgentOptionsFlow.copy_given user_input sensor_config key) key' =
    if String.eqb key key'
    then match given user_input key with
         | Some v => Some v
         | None => PyDict.lookup sensor_config key'
         end
    else PyDict.lookup sensor_config key'.
Proof.
  unfold HTTPAgentOptionsFlow.copy_given, given.
  destruct (PyDict.lookup user_input key) as [v|]; cbn.
  - destruct (Py.truthy v).
    + rewrite lookup_dict_set. by destruct (String.eqb key key').
    + by destruct (String.eqb key key').
  - by destruct (String.eqb key key').
Qed.

Lemma keys_differ (i j : nat) (a b : string) :
  NoDup (declaration_keys E) ->
  declaration_keys E !! i = Some a ->
  declaration_keys E !! j = Some b ->
  i <> j ->
  String.eqb a b = false.
Proof.
  intros Hnd Ha Hb Hne. apply String.eqb_neq. intros ->.
  apply Hne. by eapply NoDup_lookup.
Qed.

Lemma key_absent (key : string) (keys : list string) :
  ~ In key keys -> Forall (fun k => String.eqb k key = false) keys.
Proof.
  intros Hnot. apply Forall_forall. intros k Hk. apply String.eqb_neq. intros ->.
  apply Hnot. by apply list_elem_of_In.
Qed.

Ltac key_index k :=
  lazymatch k with
  | env.CONF_SENSOR_NAME _ => constr:(0%nat)
  | env.CONF_SENSOR_TYPE _ => constr:(1%nat)
  | env.CONF_SENSOR_STATE _ => constr:(2%nat)
  | env.CONF_SENSOR_ICON _ => constr:(3%nat)
  | env.CONF_SENSOR_COLOR _ => constr:(4%nat)
  | env.CONF_SENSOR_DEVICE_CLASS _ => constr:(5%nat)
  | env.CONF_SENSOR_UNIT _ => constr:(6%nat)
  | env.CONF_TRACKER_LATITUDE _ => constr:(7%nat)
  | env.CONF_TRACKER_LONGITUDE _ => constr:(8%nat)
  | env.CONF_TRACKER_LOCATION_NAME _ => constr:(9%nat)
  | env.CONF_TRACKER_SOURCE_TYPE _ => constr:(10%nat)
  end.

Ltac compare_keys Hnd :=
  repeat match goal with
         | |- context [String.eqb ?a ?a] => rewrite (String.eqb_refl a)
         | |- context [String.eqb ?a ?b] =>
             let i := key_index a in
             let j := key_index b in
             rewrite (keys_differ i j a b Hnd eq_refl eq_refl ltac:(discriminate))
         end.

Ltac lookup_stored Hnd :=
  unfold HTTPAgentOptionsFlow.new_declaration;
  cbn [fold_left];
  rewrite ?lookup_copy_given, ?lookup_dict_set;
  compare_keys Hnd.

(** X29: [async_step_modify_sensor] with a name in its input, on a
    selected sensor that is a dict, the eleven keys of a declaration being
    distinct.  The step goes on to the step [sensors] and puts a new
    declaration in the place of the selected one.  The new declaration has
    the name of the input and the type of the old declaration, ["sensor"]
    if that had none; the state, the icon and the colour of the input or
    the empty string; the device class and the unit only as far as the
    input gives them; the four fields of a tracker only for a device
    tracker, and as far as the input gives them; and no other key. *)
Theorem modify_sensor_declaration (self : OptionsFlow)
    (user_input old : list (string * PyVal)) (i : nat) (name : PyVal) :
  NoDup (declaration_keys E) ->
  of_selected_sensor_index self = Some i ->
  of_sensors self !! i = Some (VDict old) ->
  PyDict.lookup user_input (env.CONF_SENSOR_NAME E) = Some name ->
  let sensor_type :=
    default (VStr "sensor") (PyDict.lookup old (env.CONF_SENSOR_TYPE E)) in
  exists stored,
    HTTPAgentOptionsFlow.async_step_modify_sensor E self user_input
      = ({| of_sensors := <[i := VDict stored]> (of_sensors self);
            of_selected_sensor_index := Some i |},
         awaits "sensors") /\
    PyDict.lookup stored (env.CONF_SENSOR_NAME E) = Some name /\
    PyDict.lookup stored (env.CONF_SENSOR_TYPE E) = Some sensor_type /\
    (forall key,
       In key [env.CONF_SENSOR_STATE E; env.CONF_SENSOR_ICON E; env.CONF_SENSOR_COLOR E] ->
       PyDict.lookup stored key
         = Some (default (VStr "") (PyDict.lookup user_input key))) /\
    (forall key,
       In key [env.CONF_SENSOR_DEVICE_CLASS E; env.CONF_SENSOR_UNIT E] ->
       PyDict.lookup stored key = given user_input key) /\
    (forall key,
       In key [env.CONF_TRACKER_LATITUDE E; env.CONF_TRACKER_LONGITUDE E;
               env.CONF_TRACKER_LOCATION_NAME E; env.CONF_TRACKER_SOURCE_TYPE E] ->
       PyDict.lookup stored key
         = if PyDict.eq_str sensor_type "device_tracker"
           then given user_input key else None) /\
    (forall key, ~ In key (declaration_keys E) -> PyDict.lookup stored key = None).
Proof.
  intros Hnd Hi Hold Hname. cbv zeta.
  unfold HTTPAgentOptionsFlow.async_step_modify_sensor.
  rewrite Hname, Hi, Hold. cbn [PyDict.get].
  set (sensor_type := default (VStr "sensor") (PyDict.lookup old (env.CONF_SENSOR_TYPE E))).
  assert (Htype : PyDict.lookup
                    (HTTPAgentOptionsFlow.copy_given user_input
                       (HTTPAgentOptionsFlow.copy_given user_input
                          (HTTPAgentOptionsFlow.new_declaration E user_input name
                             sensor_type)
                          (env.CONF_SENSOR_DEVICE_CLASS E))
                       (env.CONF_SENSOR_UNIT E))
                    (env.CONF_SENSOR_TYPE E) = Some sensor_type).
  { lookup_stored Hnd. reflexivity. }
  rewrite Htype. eexists. split; [reflexivity|].
  destruct (PyDict.eq_str sensor_type "device_tracker").
  - split; [lookup_stored Hnd; reflexivity|].
    split; [lookup_stored Hnd; reflexivity|].
    split; [|split; [|split]].
    + intros key [<- | [<- | [<- | []]]]; lookup_stored Hnd; reflexivity.
    + intros key [<- | [<- | []]]; lookup_stored Hnd;
        by destruct (given user_input _).
    + intros key [<- | [<- | [<- | [<- | []]]]]; lookup_stored Hnd;
        by destruct (given user_input _).
    + intros key Hnot. apply key_absent in Hnot.
      unfold declaration_keys, HTTPAgentConfigFlow.optional_fields in Hnot.
      repeat match type of Hnot with
             | Forall _ (_ :: _) => apply Forall_cons in Hnot as [? Hnot]
             end.
      unfold HTTPAgentOptionsFlow.new_declaration. cbn [fold_left].
      rewrite ?lookup_copy_given, ?lookup_dict_set.
      repeat match goal with
             | Hk : String.eqb ?a key = false |- _ => rewrite Hk; clear Hk
             end.
      reflexivity.
  - split; [lookup_stored Hnd; reflexivity|].
    split; [lookup_stored Hnd; reflexivity|].
    split; [|split; [|split]].
    + intros key [<- | [<- | [<- | []]]]; lookup_stored Hnd; reflexivity.
    + intros key [<- | [<- | []]]; lookup_stored Hnd;
        by destruct (given user_input _).
    + intros key [<- | [<- | [<- | [<- | []]]]]; lookup_stored Hnd; reflexivity.
    + intros key Hnot. apply key_absent in Hnot.
      unfold declaration_keys, HTTPAgentConfigFlow.optional_fields in Hnot.
      repeat match type of Hnot with
             | Forall _ (_ :: _) => apply Forall_cons in Hnot as [? Hnot]
             end.
      unfold HTTPAgentOptionsFlow.new_declaration.
      rewrite ?lookup_copy_given, ?lookup_dict_set.
      repeat match goal with
             | Hk : String.eqb ?a key = false |- _ => rewrite Hk; clear Hk
             end.
      reflexivity.
Qed.

End OptionsProperties.



Lemma modify_sensor_declaration_witness :
  NoDup (declaration_keys sample_env) /\
  of_selected_sensor_index sample_selected_flow = Some 1%nat /\
  of_sensors sample_selected_flow !! 1%nat
    = Some (VDict [("name", VStr "door"); ("type", VStr "binary_sensor")]) /\
  PyDict.lookup [("name", VStr "gate"); ("state", VStr "open"); ("unit", VStr "")]
    (env.CONF_SENSOR_NAME sample_env) = Some (VStr "gate") /\
  exists stored,
    of_sensors
      (fst (HTTPAgentOptionsFlow.async_step_modify_sensor sample_env
              sample_selected_flow
              [("name", VStr "gate"); ("state", VStr "open"); ("unit", VStr "")])) !! 1%nat
      = Some (VDict stored) /\
    PyDict.lookup stored "name" = Some (VStr "gate") /\
    PyDict.lookup stored "type" = Some (VStr "binary_sensor") /\
    PyDict.lookup stored "unit" = None.
Proof.
  assert (Hnd : NoDup (declaration_keys sample_env)).
  { unfold declaration_keys, HTTPAgentConfigFlow.optional_fields. simpl.
    repeat (apply NoDup_cons; split;
            [rewrite ?not_elem_of_cons; repeat split; try discriminate;
             apply not_elem_of_nil|]).
    apply NoDup_nil_2. }
  assert (Hi : of_selected_sensor_index sample_selected_flow = Some 1%nat)
    by reflexivity.
  assert (Hold : of_sensors sample_selected_flow !! 1%nat
                 = Some (VDict [("name", VStr "door"); ("type", VStr "binary_sensor")]))
    by reflexivity.
  assert (Hname : PyDict.lookup
                    [("name", VStr "gate"); ("state", VStr "open"); ("unit", VStr "")]
                    (env.CONF_SENSOR_NAME sample_env) = Some (VStr "gate"))
    by reflexivity.
  split; [exact Hnd|]. split; [exact Hi|]. split; [exact Hold|]. split; [exact Hname|].
  destruct (modify_sensor_declaration sample_env sample_selected_flow _ _ _ _
              Hnd Hi Hold Hname)
    as (stored & Hstep & Hn & Ht & _ & Hgiven & _).
  exists stored. rewrite Hstep. split; [reflexivity|].
  split; [exact Hn|]. split; [exact Ht|].
  apply (Hgiven "unit"). right. left. reflexivity.
Defined.

